(** * agents/mcp.py: the MCP adapter of the agent SDK

    A shallow embedding of [src/agents/mcp.py] and the properties of its
    three transformations: the JSON-Schema sanitizer
    ([sanitize_json_schema_for_openai]), the content normalizer
    ([mcp_content_to_text]) and the tool wrapper factory
    ([mcp_tool_to_function_tool]), together with aggregator creation
    ([create_mcp_aggregator]).

    Python values are modelled by value; raising is modelled by the
    result type [res]; code that touches shared objects (the schema
    dict of a tool descriptor, the aggregator, the remote side) runs
    in the state-and-exception monad [M] over an explicit [world]. *)

From Stdlib Require Import List String Ascii Bool ZArith Lia Arith.
From Stdlib Require DecimalString.

Set Warnings "-register-all,-notation-for-abbreviation".
Import ListNotations.
Local Open Scope string_scope.
Local Open Scope list_scope.

(* ================================================================== *)
(** ** Python exceptions and fallible results *)

(** [except Exception] catches the classes that derive from
    [Exception]; [BaseException]-only classes ([KeyboardInterrupt],
    [SystemExit], [GeneratorExit], [asyncio.CancelledError]) pass
    through it. *)
Inductive exn_base : Type :=
| DerivesException
| BaseExceptionOnly.

(** An exception value, as far as the code observes it:
    [type(e).__name__], [str(e)] and whether [isinstance(e, Exception)]. *)
Record exn : Type := mkExn {
  exn_name : string;
  exn_str : string;
  exn_class : exn_base
}.

Definition isinstance_Exception (e : exn) : bool :=
  match exn_class e with
  | DerivesException => true
  | BaseExceptionOnly => false
  end.

Definition RuntimeError (msg : string) : exn := mkExn "RuntimeError" msg DerivesException.
Definition AttributeError (msg : string) : exn := mkExn "AttributeError" msg DerivesException.
Definition TypeError (msg : string) : exn := mkExn "TypeError" msg DerivesException.

Inductive res (A : Type) : Type :=
| Ok (a : A)
| Raise (e : exn).
Arguments Ok {A} a.
Arguments Raise {A} e.

Definition rbind {A B : Type} (r : res A) (k : A -> res B) : res B :=
  match r with
  | Ok a => k a
  | Raise e => Raise e
  end.

Declare Scope res_scope.
Delimit Scope res_scope with res.
Notation "x <- r ;; k" := (rbind r (fun x => k))
  (at level 61, r at next level, right associativity) : res_scope.

(* ================================================================== *)
(** ** JSON values as Python holds them *)

(** The value of [json.loads], and of a schema document: [None],
    [bool], [int], [float] (carried as its 64-bit pattern), [str],
    [list] and [dict].  A [dict] is an association list in insertion
    order; a Python dict never holds a key twice, and [dict_set] below
    keeps it so. *)
Inductive json : Type :=
| JNull
| JBool (b : bool)
| JInt (n : Z)
| JFloat (bits : Z)
| JStr (s : string)
| JList (l : list json)
| JDict (d : list (string * json)).

Definition dict : Type := list (string * json).

Definition is_dict (v : json) : bool :=
  match v with JDict _ => true | _ => false end.

(** [type(v).__name__] *)
Definition py_type_name (v : json) : string :=
  match v with
  | JNull => "NoneType"
  | JBool _ => "bool"
  | JInt _ => "int"
  | JFloat _ => "float"
  | JStr _ => "str"
  | JList _ => "list"
  | JDict _ => "dict"
  end.

Definition keys (d : dict) : list string := map fst d.

(** [d.get(k)] / [k in d] / [d[k]] *)
Fixpoint dict_get (d : dict) (k : string) : option json :=
  match d with
  | [] => None
  | (k', v) :: t => if String.eqb k' k then Some v else dict_get t k
  end.

(** [d[k] = v]: an existing key keeps its place and takes the new
    value, a new key goes to the end. *)
Fixpoint dict_set (d : dict) (k : string) (v : json) : dict :=
  match d with
  | [] => [(k, v)]
  | (k', v') :: t =>
      if String.eqb k' k then (k', v) :: t else (k', v') :: dict_set t k v
  end.

(** [v.keys()], an [AttributeError] on anything but a dict. *)
Definition py_keys (v : json) : res (list string) :=
  match v with
  | JDict d => Ok (keys d)
  | _ => Raise (AttributeError
                  ("'" ++ py_type_name v ++ "' object has no attribute 'keys'"))
  end.

(** Size of a value, the measure of the inductions below. *)
Fixpoint json_size (v : json) : nat :=
  match v with
  | JList l => S (fold_right (fun x acc => json_size x + acc) 0 l)
  | JDict d => S (fold_right (fun kv acc => json_size (snd kv) + acc) 0 d)
  | _ => 1
  end.

(* ================================================================== *)
(** ** The schema sanitizer *)

Module Sanitizer.

(** [UNSUPPORTED_SCHEMA_PROPERTIES] *)
Definition UNSUPPORTED_SCHEMA_PROPERTIES : list string :=
  [ "minimum"; "minLength"; "maxLength"; "pattern"; "format"; "minItems";
    "maxItems"; "uniqueItems"; "minProperties"; "maxProperties"; "multipleOf";
    "exclusiveMinimum"; "exclusiveMaximum"; "$schema"; "examples"; "default" ].

(** [key in UNSUPPORTED_SCHEMA_PROPERTIES] *)
Definition unsupported (key : string) : bool :=
  existsb (String.eqb key) UNSUPPORTED_SCHEMA_PROPERTIES.

Section Body.
(** The recursive call, abstracted so that the loop over the items
    and the comprehension over a list read as in the source. *)
Variable recur : json -> res json.

(** [sanitize(item) if isinstance(item, dict) else item] *)
Definition sanitize_item (item : json) : res json :=
  match item with
  | JDict _ => recur item
  | _ => Ok item
  end.

(** The list comprehension over [value]. *)
Fixpoint sanitize_elems (l : list json) : res (list json) :=
  match l with
  | [] => Ok []
  | item :: tl =>
      match sanitize_item item with
      | Ok item' =>
          match sanitize_elems tl with
          | Ok tl' => Ok (item' :: tl')
          | Raise e => Raise e
          end
      | Raise e => Raise e
      end
  end.

(** The three branches on [value] inside the loop. *)
Definition sanitize_value (value : json) : res json :=
  match value with
  | JDict _ => recur value
  | JList l =>
      match sanitize_elems l with
      | Ok l' => Ok (JList l')
      | Raise e => Raise e
      end
  | _ => Ok value
  end.

(** [for key, value in schema.items(): ...], threading [result]. *)
Fixpoint sanitize_loop (items : dict) (result : dict) : res dict :=
  match items with
  | [] => Ok result
  | (key, value) :: rest =>
      if unsupported key then sanitize_loop rest result
      else
        match sanitize_value value with
        | Ok v => sanitize_loop rest (dict_set result key v)
        | Raise e => Raise e
        end
  end.
End Body.

(** ["type" in result and result["type"] == "object" and
    "properties" in result] *)
Definition is_object_with_properties (result : dict) : bool :=
  match dict_get result "type" with
  | Some (JStr t) =>
      String.eqb t "object" &&
      match dict_get result "properties" with Some _ => true | None => false end
  | _ => false
  end.

(** The special handling of [required] after the loop. *)
Definition complete_required (result : dict) : res json :=
  if is_object_with_properties result then
    match dict_get result "properties" with
    | Some props =>
        match py_keys props with
        | Ok property_names =>
            match property_names with
            | [] => Ok (JDict result)
            | _ :: _ =>
                Ok (JDict (dict_set result "required"
                             (JList (map JStr property_names))))
            end
        | Raise e => Raise e
        end
    | None => Ok (JDict result)
    end
  else Ok (JDict result).

Fixpoint sanitize_json_schema_for_openai (schema : json) : res json :=
  match schema with
  | JDict items =>
      match sanitize_loop sanitize_json_schema_for_openai items [] with
      | Ok result => complete_required result
      | Raise e => Raise e
      end
  | _ => Ok schema
  end.

(** *** What the properties of the sanitizer speak about *)

(** [subdoc sub v]: the document [sub] is [v] itself or is met when
    walking down from [v] the way the sanitizer walks: into a value that
    is a document, and into the elements of a sequence value that are
    documents.  These are the places where a JSON Schema holds a
    subschema ([properties], [items], [allOf], ...). *)
Inductive subdoc : json -> json -> Prop :=
| subdoc_here : forall d, subdoc (JDict d) (JDict d)
| subdoc_field : forall sub d k v,
    In (k, v) d -> subdoc sub v -> subdoc sub (JDict d)
| subdoc_elem : forall sub d k l item,
    In (k, JList l) d -> In item l -> subdoc sub item -> subdoc sub (JDict d).

(** [key_occurs k v]: [k] is a key of some dict anywhere inside [v],
    through any nesting of dicts and lists. *)
Fixpoint key_occurs (k : string) (v : json) : bool :=
  match v with
  | JDict d =>
      existsb (fun kv => String.eqb (fst kv) k || key_occurs k (snd kv)) d
  | JList l => existsb (key_occurs k) l
  | _ => false
  end.

(** [flat v]: no sequence inside [v] has a sequence as a direct
    element. *)
Fixpoint flat (v : json) : bool :=
  match v with
  | JList l =>
      forallb (fun x => match x with JList _ => false | _ => flat x end) l
  | JDict d => forallb (fun kv => flat (snd kv)) d
  | _ => true
  end.

(** The test on an element of a sequence in [flat]. *)
Definition flat_elem (x : json) : bool :=
  match x with JList _ => false | _ => flat x end.

(** The condition of the [required] rule, read on a finished document:
    [type == "object"] and [properties] a non-empty map. *)
Definition object_with_properties (d props : dict) : Prop :=
  dict_get d "type" = Some (JStr "object") /\
  dict_get d "properties" = Some (JDict props) /\
  props <> [].

Definition required_is (d : dict) (names : list string) : Prop :=
  dict_get d "required" = Some (JList (map JStr names)).

(** *** The normal form the sanitizer produces *)

(** One document, looked at on its own: no key twice, no unsupported
    key, [properties] of an object a dict, and [required] complete. *)
Definition level_ok (d : dict) : Prop :=
  NoDup (keys d) /\
  (forall k, In k (keys d) -> unsupported k = false) /\
  (dict_get d "type" = Some (JStr "object") ->
   forall p, dict_get d "properties" = Some p -> is_dict p = true) /\
  (forall props, object_with_properties d props -> required_is d (keys props)).

(** Every document met on the way down is [level_ok]. *)
Definition normal (v : json) : Prop :=
  forall d, subdoc (JDict d) v -> level_ok d.

(** The same for a value stored under a key. *)
Definition value_normal (v : json) : Prop :=
  match v with
  | JList l => forall item, In item l -> normal item
  | _ => normal v
  end.

(** The state of [result] while the loop runs. *)
Definition acc_ok (d : dict) : Prop :=
  NoDup (keys d) /\
  (forall k, In k (keys d) -> unsupported k = false) /\
  (forall k v, In (k, v) d -> value_normal v).

End Sanitizer.

(* ================================================================== *)
(** ** The content normalizer *)

Module Content.

(** The newline of ["\n".join(...)]. *)
Definition nl : string := String (ascii_of_nat 10) EmptyString.

(** The value of a [mimeType] attribute: [ResourceContents] declares it
    [str | None]; an f-string renders [None] as the text [None]. *)
Inductive mime : Type :=
| MimeNone
| MimeStr (s : string).

Definition format_mime (m : mime) : string :=
  match m with
  | MimeNone => "None"
  | MimeStr s => s
  end.

(** The object under [item.resource].  Each attribute is present
    ([Some]) or missing ([None]): the code asks with [hasattr]. *)
Record Resource : Type := mkResource {
  resource_text : option string;
  resource_blob : option string;
  resource_mimeType : option mime
}.

(** A content block as the normalizer inspects it: the attributes
    [type], [text], [data], [mimeType], [resource], each present or
    missing, and what [str(item)] gives. *)
Record Block : Type := mkBlock {
  block_type : option string;
  block_text : option string;
  block_data : option string;
  block_mimeType : option mime;
  block_resource : option Resource;
  block_str : string
}.

(** The argument of [mcp_content_to_text]:
    [MCPContent | list[MCPContent]]. *)
Inductive content : Type :=
| One (item : Block)
| Many (items : list Block).

(** [hasattr(o, name)] *)
Definition hasattr {A : Type} (attr : option A) : bool :=
  match attr with Some _ => true | None => false end.

(** [o.name]: an [AttributeError] when the attribute is missing. *)
Definition attr {A : Type} (owner name : string) (a : option A) : res A :=
  match a with
  | Some v => Ok v
  | None => Raise (AttributeError
                     ("'" ++ owner ++ "' object has no attribute '" ++ name ++ "'"))
  end.

(** [getattr(o, name, default)] *)
Definition getattr_default {A : Type} (a : option A) (default : A) : A :=
  match a with Some v => v | None => default end.

(** Python's [a and b]: [b] is looked at only when [a] holds. *)
Definition and_then (a : res bool) (b : res bool) : res bool :=
  match a with
  | Ok true => b
  | Ok false => Ok false
  | Raise e => Raise e
  end.

(** [hasattr(item, 'type') and item.type == tag] *)
Definition type_is (item : Block) (tag : string) : res bool :=
  and_then (Ok (hasattr (block_type item)))
           (rbind (attr "Block" "type" (block_type item))
                  (fun t => Ok (String.eqb t tag))).

(** First test of both branches. *)
Definition is_text (item : Block) : res bool :=
  and_then (type_is item "text") (Ok (hasattr (block_text item))).

(** Second test of both branches. *)
Definition is_image (item : Block) : res bool :=
  and_then (type_is item "image") (Ok (hasattr (block_data item))).

Definition image_placeholder (m : option mime) : string :=
  "[Image: " ++ format_mime (getattr_default m (MimeStr "unknown type")) ++ "]".

Definition resource_placeholder (m : option mime) : string :=
  "[Resource: " ++ format_mime (getattr_default m (MimeStr "unknown type")) ++ "]".

(** Lines 189-203: a single content item. *)
Definition single_to_text (content : Block) : res string :=
  (t <- is_text content ;;
   if t then attr "Block" "text" (block_text content)
   else
     i <- is_image content ;;
     if i then Ok (image_placeholder (block_mimeType content))
     else
       if hasattr (block_resource content) then
         resource <- attr "Block" "resource" (block_resource content) ;;
         if hasattr (resource_text resource) then
           attr "Resource" "text" (resource_text resource)
         else if hasattr (resource_blob resource) then
           Ok (resource_placeholder (resource_mimeType resource))
         else Ok (block_str content)
       else Ok (block_str content))%res.

(** Lines 164-182: one turn of the loop; [text_parts.append(x)] puts
    [x] at the end. *)
Definition append_item (text_parts : list string) (item : Block)
  : res (list string) :=
  (t <- is_text item ;;
   if t then
     s <- attr "Block" "text" (block_text item) ;;
     Ok (text_parts ++ [s])
   else
     i <- is_image item ;;
     if i then Ok (text_parts ++ [image_placeholder (block_mimeType item)])
     else
       if hasattr (block_resource item) then
         resource <- attr "Block" "resource" (block_resource item) ;;
         if hasattr (resource_text resource) then
           s <- attr "Resource" "text" (resource_text resource) ;;
           Ok (text_parts ++ [s])
         else if hasattr (resource_blob resource) then
           Ok (text_parts ++ [resource_placeholder (resource_mimeType resource)])
         else Ok text_parts
       else Ok (text_parts ++ [block_str item]))%res.

Fixpoint collect_parts (items : list Block) (text_parts : list string)
  : res (list string) :=
  match items with
  | [] => Ok text_parts
  | item :: rest =>
      match append_item text_parts item with
      | Ok text_parts' => collect_parts rest text_parts'
      | Raise e => Raise e
      end
  end.

(** Lines 151-203. *)
Definition mcp_content_to_text (c : content) : res string :=
  match c with
  | Many items =>
      match collect_parts items [] with
      | Ok text_parts =>
          match text_parts with
          | [] => Ok ""
          | _ :: _ => Ok (String.concat nl text_parts)
          end
      | Raise e => Raise e
      end
  | One item => single_to_text item
  end.

(** *** The sequence rule as the specification words it *)

(** "normalize each element independently by the single-block rules,
    then join the non-empty results with a newline separator". *)
Fixpoint each_single (items : list Block) : res (list string) :=
  match items with
  | [] => Ok []
  | item :: rest =>
      (s <- single_to_text item ;;
       tl <- each_single rest ;;
       Ok (s :: tl))%res
  end.

Definition nonempty (s : string) : bool := negb (String.eqb s "").

Definition spec_join_nonempty (items : list Block) : res string :=
  (parts <- each_single items ;;
   Ok (String.concat nl (filter nonempty parts)))%res.

(** The code's join: every result, empty ones too. *)
Definition join_all (items : list Block) : res string :=
  (parts <- each_single items ;;
   Ok (String.concat nl parts))%res.

(** A resource that carries inline text or a blob. *)
Definition resource_has_payload (r : Resource) : bool :=
  hasattr (resource_text r) || hasattr (resource_blob r).

Definition payload_ok (item : Block) : bool :=
  match block_resource item with
  | Some r => resource_has_payload r
  | None => true
  end.

(** Blocks as the wire delivers them. *)
Definition text_block (s : string) : Block :=
  mkBlock (Some "text") (Some s) None None None ("type='text' text='" ++ s ++ "'").

Definition image_block (data : string) (m : option mime) : Block :=
  mkBlock (Some "image") None (Some data) m None "type='image'".

End Content.

(* ================================================================== *)
(** ** The world the adapter runs in *)

(** An address in the object store. *)
Definition loc : Type := nat.

Record ServerRegistry : Type := mkRegistry { registry_id : nat }.

(** [Context(server_registry=...)] *)
Record Context : Type := mkContext { context_server_registry : ServerRegistry }.

(** The aggregator object: the arguments of its constructor and its
    identity.  Whether it is initialized is state, kept in the world. *)
Record MCPAggregator : Type := mkAggregator {
  agg_id : nat;
  server_names : list string;
  connection_persistence : bool;
  agent_name : string;
  agg_context : Context
}.

(** Objects built by calling a collaborator's constructor. *)
Inductive built : Type :=
| BuiltContext (c : Context)
| BuiltAggregator (a : MCPAggregator).

(** One [call_tool] made on an aggregator: [name=], [arguments=]. *)
Record call : Type := mkCall {
  call_aggregator : nat;
  call_name : string;
  call_arguments : dict
}.

(** [heap]: the dict objects reachable from tool descriptors and bound
    tools, by address; nested containers are held by value, since only
    the root of a schema is ever written to.  [initialized]: the ids of
    the aggregators whose [initialized] attribute is [True].  [calls]:
    the remote calls made so far, oldest first.  [constructed]: the
    collaborator objects built so far, oldest first. *)
Record world : Type := mkWorld {
  heap : list json;
  initialized : list nat;
  calls : list call;
  constructed : list built
}.

(** Code that may raise and may change the world; what was changed
    before an exception stays changed. *)
Definition M (A : Type) : Type := world -> res A * world.

Definition ret {A : Type} (a : A) : M A := fun w => (Ok a, w).

Definition bind {A B : Type} (m : M A) (k : A -> M B) : M B :=
  fun w =>
    match m w with
    | (Ok a, w') => k a w'
    | (Raise e, w') => (Raise e, w')
    end.

Definition raise {A : Type} (e : exn) : M A := fun w => (Raise e, w).

Definition lift {A : Type} (r : res A) : M A := fun w => (r, w).

(** [try: body except Exception as e: handler(e)] *)
Definition try_except_Exception {A : Type} (body : M A) (handler : exn -> M A)
  : M A :=
  fun w =>
    match body w with
    | (Ok a, w') => (Ok a, w')
    | (Raise e, w') =>
        if isinstance_Exception e then handler e w' else (Raise e, w')
    end.

Declare Scope M_scope.
Delimit Scope M_scope with M.
Notation "x <- m ;; k" := (bind m (fun x => k))
  (at level 61, m at next level, right associativity) : M_scope.
Notation "m ;;; k" := (bind m (fun _ => k))
  (at level 61, right associativity) : M_scope.

(** *** The object store *)

(** A new object gets the next address. *)
Definition alloc (v : json) : M loc :=
  fun w => (Ok (List.length (heap w)),
            mkWorld (heap w ++ [v]) (initialized w) (calls w) (constructed w)).

Fixpoint list_update {A : Type} (l : list A) (i : nat) (x : A) : list A :=
  match l, i with
  | [], _ => []
  | _ :: t, O => x :: t
  | h :: t, S j => h :: list_update t j x
  end.

(** Reading through a reference.  A Python reference always leads to an
    object; an address outside the store does not arise from the code
    and is answered with an error of the model. *)
Definition deref (l : loc) : M json :=
  fun w =>
    match nth_error (heap w) l with
    | Some v => (Ok v, w)
    | None => (Raise (mkExn "SystemError" "no object at this address" DerivesException), w)
    end.

(** [obj[k] = v] on the object at [l]. *)
Definition setitem (l : loc) (k : string) (v : json) : M unit :=
  (obj <- deref l ;;
   match obj with
   | JDict d =>
       fun w => (Ok tt,
                 mkWorld (list_update (heap w) l (JDict (dict_set d k v)))
                         (initialized w) (calls w) (constructed w))
   | JList _ => raise (TypeError "list indices must be integers or slices, not str")
   | _ => raise (TypeError ("'" ++ py_type_name obj
                            ++ "' object does not support item assignment"))
   end)%M.

(** [server_aggregator.initialized] *)
Definition is_initialized (w : world) (a : MCPAggregator) : bool :=
  existsb (Nat.eqb (agg_id a)) (initialized w).

(* ================================================================== *)
(** ** Aggregator creation *)

Module Lifecycle.

(** The part of [run_context.context] the code reads:
    [getattr(run_context.context, 'mcp_server_registry', None)]. *)
Record RunContextWrapper : Type := mkRunContext {
  context_mcp_server_registry : option ServerRegistry
}.

Definition new_Context (server_registry : ServerRegistry) : M Context :=
  fun w =>
    let c := mkContext server_registry in
    (Ok c, mkWorld (heap w) (initialized w) (calls w)
                   (constructed w ++ [BuiltContext c])).

(** [MCPAggregator(server_names=, connection_persistence=, name=,
    context=)]; a new aggregator is not initialized. *)
Definition new_MCPAggregator (servers : list string) (persistence : bool)
    (name : string) (context : Context) : M MCPAggregator :=
  fun w =>
    let a := mkAggregator (List.length (constructed w)) servers persistence name context in
    (Ok a, mkWorld (heap w) (filter (fun i => negb (Nat.eqb i (agg_id a))) (initialized w))
                   (calls w) (constructed w ++ [BuiltAggregator a])).

(** Lines 81-122. *)
Definition create_mcp_aggregator (run_context : RunContextWrapper)
    (name : string) (servers : list string)
    (server_registry : option ServerRegistry)
    (connection_persistence : bool) : M MCPAggregator :=
  match servers with
  | [] => raise (RuntimeError "No MCP servers specified. No MCP aggregator created.")
  | _ :: _ =>
      (context <-
         match server_registry with
         | Some registry => new_Context registry
         | None =>
             match context_mcp_server_registry run_context with
             | None =>
                 raise (RuntimeError
                   "No server registry found in run context. Either specify it or set in context.")
             | Some registry => new_Context registry
             end
         end ;;
       new_MCPAggregator servers connection_persistence name context)%M
  end.

(** No aggregator and no context was built between [w] and [w']. *)
Definition builds_nothing (w w' : world) : Prop :=
  constructed w' = constructed w.

End Lifecycle.

(* ================================================================== *)
(** ** The tool wrapper factory *)

Module Wrapper.
Import Lifecycle.

(** [MCPTool]: [name], [description] ([None] when not given) and
    [inputSchema], a reference to the schema dict ([None] when the
    descriptor has no such attribute). *)
Record MCPTool : Type := mkTool {
  tool_name : string;
  tool_description : option string;
  tool_inputSchema : option loc
}.

(** [CallToolResult] as the wrapper inspects it: [isError] and
    [content], each present or missing, and what [str(result)] gives. *)
Record CallToolResult : Type := mkResult {
  result_isError : option bool;
  result_content : option Content.content;
  result_str : string
}.

(** The function object [wrapper_fn] with the attributes set on it. *)
Record wrapper : Type := mkWrapper {
  wrapper__name__ : string;
  wrapper__doc__ : string;
  wrapper_call : RunContextWrapper -> dict -> M string
}.

(** [FunctionTool(name=, description=, params_json_schema=,
    on_invoke_tool=)]; the schema is held by reference. *)
Record FunctionTool : Type := mkFunctionTool {
  ft_name : string;
  ft_description : string;
  params_json_schema : loc;
  on_invoke_tool : RunContextWrapper -> string -> M string
}.

(** [s or default] on an optional string: [None] and [""] are falsy. *)
Definition or_default (s : option string) (default : string) : string :=
  match s with
  | None => default
  | Some "" => default
  | Some d => d
  end.

(** The dict literal that [getattr(mcp_tool, 'inputSchema', {...})]
    builds on every call. *)
Definition default_schema : json :=
  JDict [ ("type", JStr "object"); ("properties", JDict []); ("required", JList []) ].

(** [f(run_context, **args)] for [f(ctx, **kwargs)]: [args] must be a
    mapping and must not name [ctx] again. *)
Definition unpack_kwargs (args : json) : res dict :=
  match args with
  | JDict d =>
      if existsb (String.eqb "ctx") (keys d)
      then Raise (TypeError
        "mcp_tool_to_function_tool.<locals>.create_wrapper.<locals>.wrapper_fn() got multiple values for argument 'ctx'")
      else Ok d
  | _ =>
      Raise (TypeError
        ("agents.mcp.mcp_tool_to_function_tool.<locals>.create_wrapper.<locals>.wrapper_fn() argument after ** must be a mapping, not "
         ++ py_type_name args))
  end.

Section Environment.
(** The collaborators: [json.loads], [_utils.transform_string_function_style],
    and what the remote side answers (or raises) to [call_tool] and
    [list_tools], given the calls made before. *)
Variable json_loads : string -> res json.
Variable transform_string_function_style : string -> string.
Variable remote_call_tool :
  list call -> MCPAggregator -> string -> dict -> res CallToolResult.
Variable remote_list_tools : MCPAggregator -> res (list MCPTool).

(** [not server_aggregator or server_aggregator.initialized is False] *)
Definition not_initialized (server_aggregator : option MCPAggregator) : M bool :=
  fun w =>
    match server_aggregator with
    | None => (Ok true, w)
    | Some a => (Ok (negb (is_initialized w a)), w)
    end.

(** [server_aggregator.agent_name] *)
Definition get_agent_name (server_aggregator : option MCPAggregator) : M string :=
  match server_aggregator with
  | None => raise (AttributeError "'NoneType' object has no attribute 'agent_name'")
  | Some a => ret (agent_name a)
  end.

(** [await server_aggregator.call_tool(name=, arguments=)]: the call is
    made, then the remote side answers. *)
Definition call_tool (server_aggregator : option MCPAggregator)
    (name : string) (arguments : dict) : M CallToolResult :=
  match server_aggregator with
  | None => raise (AttributeError "'NoneType' object has no attribute 'call_tool'")
  | Some a =>
      fun w =>
        (remote_call_tool (calls w) a name arguments,
         mkWorld (heap w) (initialized w)
                 (calls w ++ [mkCall (agg_id a) name arguments])
                 (constructed w))
  end.

(** Lines 296-324. *)
Definition wrapper_fn (server_aggregator : option MCPAggregator)
    (current_tool_name : string)
    (ctx : RunContextWrapper) (kwargs : dict) : M string :=
  (down <- not_initialized server_aggregator ;;
   if down then
     name <- get_agent_name server_aggregator ;;
     raise (RuntimeError ("MCP aggregator not initialized for agent " ++ name))
   else
     result <- call_tool server_aggregator current_tool_name kwargs ;;
     if Content.getattr_default (result_isError result) false then
       error_message <-
         (if Content.hasattr (result_content result) then
            c <- lift (Content.attr "CallToolResult" "content" (result_content result)) ;;
            lift (Content.mcp_content_to_text c)
          else ret "Unknown error") ;;
       raise (RuntimeError ("Error calling MCP tool '" ++ current_tool_name
                            ++ "': " ++ error_message))
     else
       if Content.hasattr (result_content result) then
         c <- lift (Content.attr "CallToolResult" "content" (result_content result)) ;;
         lift (Content.mcp_content_to_text c)
       else ret (result_str result))%M.

(** Lines 295-329. *)
Definition create_wrapper (server_aggregator : option MCPAggregator)
    (function_name : string)
    (current_tool_name current_tool_desc : string) : wrapper :=
  mkWrapper function_name
            (or_default (Some current_tool_desc) ("MCP tool: " ++ current_tool_name))
            (wrapper_fn server_aggregator current_tool_name).

(** The body of the [try] in [invoke_tool], lines 354-363. *)
Definition invoke_body (current_wrapper_fn : wrapper)
    (run_context : RunContextWrapper) (arguments_json : string) : M string :=
  (args <- lift (json_loads arguments_json) ;;
   kwargs <- lift (unpack_kwargs args) ;;
   wrapper_call current_wrapper_fn run_context kwargs)%M.

(** The [except Exception as e] of [invoke_tool], lines 364-373 (the
    log line leaves no trace here). *)
Definition error_text (e : exn) : string :=
  "Error (" ++ exn_name e ++ "): " ++ exn_str e.

(** Lines 351-374. *)
Definition create_invoke_tool (current_tool_name : string)
    (current_wrapper_fn : wrapper)
  : RunContextWrapper -> string -> M string :=
  fun run_context arguments_json =>
    try_except_Exception
      (invoke_body current_wrapper_fn run_context arguments_json)
      (fun e => ret (error_text e)).

(** [sanitize_json_schema_for_openai] on the object at [l]: a dict
    gives a new dict object, anything else is handed back as it is. *)
Definition sanitize_object (l : loc) : M loc :=
  (schema <- deref l ;;
   if is_dict schema then
     result <- lift (Sanitizer.sanitize_json_schema_for_openai schema) ;;
     alloc result
   else ret l)%M.

(** Lines 284-387. *)
Definition mcp_tool_to_function_tool (mcp_tool : MCPTool)
    (server_aggregator : option MCPAggregator) : M FunctionTool :=
  let function_name := transform_string_function_style (tool_name mcp_tool) in
  let tool_desc :=
    or_default (tool_description mcp_tool) ("MCP tool: " ++ tool_name mcp_tool) in
  let wrapper_fn :=
    create_wrapper server_aggregator function_name (tool_name mcp_tool) tool_desc in
  (default <- alloc default_schema ;;
   let params_schema := Content.getattr_default (tool_inputSchema mcp_tool) default in
   setitem params_schema "additionalProperties" (JBool false) ;;;
   params_schema <- sanitize_object params_schema ;;
   let invoke_tool := create_invoke_tool (tool_name mcp_tool) wrapper_fn in
   ret (mkFunctionTool
          (tool_name mcp_tool)
          (or_default (tool_description mcp_tool) ("MCP tool: " ++ tool_name mcp_tool))
          params_schema
          invoke_tool))%M.

(** The loop of [mcp_list_tools], lines 223-226. *)
Fixpoint convert_tools (tools : list MCPTool)
    (server_aggregator : option MCPAggregator)
    (mcp_tools : list FunctionTool) : M (list FunctionTool) :=
  match tools with
  | [] => ret mcp_tools
  | mcp_tool :: rest =>
      (tool <- mcp_tool_to_function_tool mcp_tool server_aggregator ;;
       convert_tools rest server_aggregator (mcp_tools ++ [tool]))%M
  end.

(** Lines 205-228. *)
Definition mcp_list_tools (server_aggregator : option MCPAggregator)
  : M (list FunctionTool) :=
  (down <- not_initialized server_aggregator ;;
   if down then
     raise (RuntimeError "MCP server aggregator not initialized when calling list_tools")
   else
     match server_aggregator with
     | None => raise (AttributeError "'NoneType' object has no attribute 'list_tools'")
     | Some a =>
         tools <- lift (remote_list_tools a) ;;
         convert_tools tools server_aggregator []
     end)%M.

(** The [try] body of the closure bound to [mcp_tool]: the wrapper made
    by [create_wrapper] for this tool's name and description, run on
    the parsed arguments. *)
Definition tool_body (mcp_tool : MCPTool)
    (server_aggregator : option MCPAggregator)
  : RunContextWrapper -> string -> M string :=
  invoke_body
    (create_wrapper server_aggregator
       (transform_string_function_style (tool_name mcp_tool))
       (tool_name mcp_tool)
       (or_default (tool_description mcp_tool) ("MCP tool: " ++ tool_name mcp_tool))).

(** [tool] is the bound tool of the descriptor [mcp_tool]: its name, its
    description, and a closure over this descriptor's name. *)
Definition bound_to (server_aggregator : option MCPAggregator)
    (mcp_tool : MCPTool) (tool : FunctionTool) : Prop :=
  ft_name tool = tool_name mcp_tool /\
  ft_description tool =
    or_default (tool_description mcp_tool) ("MCP tool: " ++ tool_name mcp_tool) /\
  on_invoke_tool tool =
    (fun run_context arguments_json =>
       try_except_Exception
         (tool_body mcp_tool server_aggregator run_context arguments_json)
         (fun e => ret (error_text e))).

End Environment.

(** The calls made between [w] and [w']. *)
Definition calls_added (w w' : world) (added : list call) : Prop :=
  calls w' = calls w ++ added.

(** What [try ... except Exception as e: return f"Error (...): ..."]
    makes of the outcome of its body. *)
Definition caught (r : res string) : res string :=
  match r with
  | Ok s => Ok s
  | Raise e =>
      if isinstance_Exception e
      then Ok ("Error (" ++ exn_name e ++ "): " ++ exn_str e)%string
      else Raise e
  end.

(** The world after [call_tool] on [a]. *)
Definition after_call (w : world) (a : MCPAggregator) (name : string)
    (arguments : dict) : world :=
  mkWorld (heap w) (initialized w)
          (calls w ++ [mkCall (agg_id a) name arguments]) (constructed w).

End Wrapper.

(* ================================================================== *)
(** ** A small deployment, for the examples *)

Module Demo.
Import Lifecycle Wrapper.

(** [json.loads] on the argument strings the examples send: an empty
    object, an empty array, and text that does not start a value. *)
Definition json_loads (s : string) : res json :=
  if String.eqb s "{}" then Ok (JDict [])
  else if String.eqb s "[]" then Ok (JList [])
  else Raise (mkExn "JSONDecodeError"
                    "Expecting value: line 1 column 1 (char 0)" DerivesException).

Definition transform_string_function_style (s : string) : string := s.

(** [asyncio.CancelledError] derives from [BaseException] only. *)
Definition CancelledError : exn := mkExn "CancelledError" "" BaseExceptionOnly.

Definition ConnectionError : exn :=
  mkExn "ConnectionError" "connection lost" DerivesException.

(** The remote side: [echo] answers, [fail] reports an error, [slow]
    is cancelled while awaited, anything else loses the connection. *)
Definition remote_call_tool (history : list call) (a : MCPAggregator)
    (name : string) (arguments : dict) : res CallToolResult :=
  if String.eqb name "echo" then
    Ok (mkResult (Some false) (Some (Content.Many [Content.text_block "pong"]))
                 "isError=False")
  else if String.eqb name "fail" then
    Ok (mkResult (Some true) (Some (Content.Many [Content.text_block "boom"]))
                 "isError=True")
  else if String.eqb name "slow" then Raise CancelledError
  else Raise ConnectionError.

(** A schema with a stale [required], unsupported keys at two depths,
    and a subschema inside a sequence. *)
Definition person_schema : dict :=
  [ ("type", JStr "object");
    ("required", JList [JStr "name"]);
    ("properties",
     JDict [("name", JDict [("type", JStr "string"); ("minLength", JInt 1)]);
            ("age", JDict [("type", JStr "integer"); ("minimum", JInt 0)])]);
    ("anyOf", JList [JDict [("format", JStr "uri"); ("type", JStr "string")];
                     JBool true]) ].

(** What the sanitizer makes of it. *)
Definition person_sanitized : dict :=
  [ ("type", JStr "object");
    ("required", JList [JStr "name"; JStr "age"]);
    ("properties",
     JDict [("name", JDict [("type", JStr "string")]);
            ("age", JDict [("type", JStr "integer")])]);
    ("anyOf", JList [JDict [("type", JStr "string")]; JBool true]) ].

(** A schema whose [enum] lists a sequence that holds a document. *)
Definition nested_enum_schema : dict :=
  [ ("type", JStr "array");
    ("enum", JList [JList [JDict [("default", JInt 1)]]]) ].

(** The schema dict of [echo], at address 0 of the store. *)
Definition echo_schema : dict :=
  [ ("type", JStr "object");
    ("properties",
     JDict [("text", JDict [("type", JStr "string"); ("minLength", JInt 1)])]) ].

Definition echo : MCPTool := mkTool "echo" (Some "Echo the text") (Some 0).
Definition fail : MCPTool := mkTool "fail" None None.
Definition slow : MCPTool := mkTool "slow" None None.
Definition gone : MCPTool := mkTool "gone" None None.

Definition remote_list_tools (a : MCPAggregator) : res (list MCPTool) :=
  Ok [echo; fail; slow; gone].

Definition aggregator : MCPAggregator :=
  mkAggregator 0 ["files"] true "assistant" (mkContext (mkRegistry 0)).

Definition run_context : RunContextWrapper := mkRunContext (Some (mkRegistry 0)).

(** The aggregator is initialized; the store holds the schema of [echo]. *)
Definition world0 : world := mkWorld [JDict echo_schema] [0] [] [].

Definition listing : res (list FunctionTool) * world :=
  mcp_list_tools json_loads transform_string_function_style remote_call_tool
                 remote_list_tools (Some aggregator) world0.

Definition bound_tools : list FunctionTool :=
  match fst listing with Ok tools => tools | Raise _ => [] end.

Definition world1 : world := snd listing.

Definition no_tool : FunctionTool :=
  mkFunctionTool "" "" 0 (fun _ _ => ret "").

Definition bound_echo : FunctionTool := nth 0 bound_tools no_tool.
Definition bound_fail : FunctionTool := nth 1 bound_tools no_tool.

(** One descriptor wrapped on its own, from [world0]. *)
Definition wrapping (t : MCPTool) (agg : option MCPAggregator)
  : res FunctionTool * world :=
  mcp_tool_to_function_tool json_loads transform_string_function_style
                            remote_call_tool t agg world0.

Definition wrapped (t : MCPTool) (agg : option MCPAggregator) : FunctionTool :=
  match fst (wrapping t agg) with Ok tool => tool | Raise _ => no_tool end.

Definition world_after (t : MCPTool) (agg : option MCPAggregator) : world :=
  snd (wrapping t agg).

(** The store after the sanitizer ran once, and twice, on the schema
    of [echo]. *)
Definition world_once : world := snd (sanitize_object 0 world0).
Definition world_twice : world := snd (sanitize_object 0 world_once).

(** A world in which the aggregator is not initialized. *)
Definition world_down : world := mkWorld [JDict echo_schema] [] [] [].

End Demo.

(* ================================================================== *)
(** ** Registry loading *)

Module Registry.
Import Lifecycle.

(** [MCPSettings] and [Settings]: configuration objects of the
    collaborator, opaque to this code. *)
Record MCPSettings : Type := mkMCPSettings { mcp_settings_id : nat }.
Record Settings : Type := mkSettings { settings_id : nat }.

(** The object behind [run_context.context], as this code reads and
    writes it: the attributes [server_registry], [mcp_server_registry],
    [mcp_config] and [mcp_config_path], each read with
    [getattr(..., None)], so missing and [None] are one case. *)
Record AgentContext : Type := mkAgentContext {
  attr_server_registry : option ServerRegistry;
  attr_mcp_server_registry : option ServerRegistry;
  attr_mcp_config : option MCPSettings;
  attr_mcp_config_path : option string
}.

(** [run_context.context.mcp_server_registry = server_registry] *)
Definition set_mcp_server_registry (c : AgentContext) (r : ServerRegistry)
  : AgentContext :=
  mkAgentContext (attr_server_registry c) (Some r)
                 (attr_mcp_config c) (attr_mcp_config_path c).

(** What [create_mcp_aggregator] sees of the context. *)
Definition run_context_of (c : AgentContext) : RunContextWrapper :=
  mkRunContext (attr_mcp_server_registry c).

(** [try: body except Exception as e: logger.error(...); raise]: the
    exception goes on as it is, handled or not. *)
Definition log_and_reraise {A : Type} (body : res A) : res A :=
  match body with
  | Ok a => Ok a
  | Raise e => if isinstance_Exception e then Raise e else Raise e
  end.

Section Collaborators.
(** [Settings(mcp=config)], [get_settings(config_path)] and
    [ServerRegistry(config=settings)]. *)
Variable Settings_of_mcp : MCPSettings -> res Settings.
Variable get_settings : option string -> res Settings.
Variable new_ServerRegistry : Settings -> res ServerRegistry.

(** Lines 19-53. *)
Definition load_mcp_server_registry (config : option MCPSettings)
    (config_path : option string) : res ServerRegistry :=
  log_and_reraise
    (settings <- match config with
                 | Some c => Settings_of_mcp c
                 | None => get_settings config_path
                 end ;;
     new_ServerRegistry settings)%res.

(** Lines 55-79: the value returned and the context afterwards.  The
    function ends without a [return] after loading: it gives [None]. *)
Definition ensure_mcp_server_registry_in_context (c : AgentContext)
    (force : bool) : res (option ServerRegistry) * AgentContext :=
  let server_registry := attr_server_registry c in
  if negb force && Content.hasattr server_registry then (Ok server_registry, c)
  else
    match load_mcp_server_registry (attr_mcp_config c) (attr_mcp_config_path c) with
    | Ok registry => (Ok None, set_mcp_server_registry c registry)
    | Raise e => (Raise e, c)
    end.

End Collaborators.
End Registry.

(* ================================================================== *)
(** ** Aggregator initialization *)

Module Session.
Import Lifecycle.

(** The scoped-lifecycle calls made on an aggregator. *)
Inductive lifecycle_event : Type :=
| Entered (a : MCPAggregator)
| Exited (a : MCPAggregator).

(** The world together with the lifecycle calls made so far, oldest
    first. *)
Record session : Type := mkSession {
  session_world : world;
  session_log : list lifecycle_event
}.

Definition S (A : Type) : Type := session -> res A * session.

Definition sret {A : Type} (a : A) : S A := fun s => (Ok a, s).

Definition sbind {A B : Type} (m : S A) (k : A -> S B) : S B :=
  fun s =>
    match m s with
    | (Ok a, s') => k a s'
    | (Raise e, s') => (Raise e, s')
    end.

Definition sraise {A : Type} (e : exn) : S A := fun s => (Raise e, s).

(** Code of the world run inside a session. *)
Definition in_world {A : Type} (m : M A) : S A :=
  fun s =>
    let (r, w') := m (session_world s) in
    (r, mkSession w' (session_log s)).

(** [try: body except Exception as e: handler(e)] *)
Definition stry_except_Exception {A : Type} (body : S A) (handler : exn -> S A)
  : S A :=
  fun s =>
    match body s with
    | (Ok a, s') => (Ok a, s')
    | (Raise e, s') =>
        if isinstance_Exception e then handler e s' else (Raise e, s')
    end.

Section Collaborators.
(** What [await aggregator.__aenter__()] and
    [await aggregator.__aexit__(None, None, None)] do to the world and
    whether they raise. *)
Variable aenter_effect : MCPAggregator -> M unit.
Variable aexit_effect : MCPAggregator -> M unit.

Definition aenter (a : MCPAggregator) : S unit :=
  fun s =>
    let (r, w') := aenter_effect a (session_world s) in
    (r, mkSession w' (session_log s ++ [Entered a])).

Definition aexit (a : MCPAggregator) : S unit :=
  fun s =>
    let (r, w') := aexit_effect a (session_world s) in
    (r, mkSession w' (session_log s ++ [Exited a])).

(** Lines 124-149. *)
Definition initialize_mcp_aggregator (run_context : RunContextWrapper)
    (name : string) (servers : list string)
    (server_registry : option ServerRegistry)
    (connection_persistence : bool) : S MCPAggregator :=
  sbind (in_world (create_mcp_aggregator run_context name servers
                                         server_registry connection_persistence))
        (fun aggregator =>
           stry_except_Exception
             (sbind (aenter aggregator) (fun _ => sret aggregator))
             (fun e => sbind (aexit aggregator) (fun _ => sraise e))).

End Collaborators.
End Session.

(* ================================================================== *)
(** ** Vocabulary of the further properties *)

Module Vocabulary.
Import Sanitizer Content.

(** [key not in UNSUPPORTED_SCHEMA_PROPERTIES] *)
Definition supported (key : string) : bool := negb (unsupported key).

(** Every value stored under the key [properties], in any dict at any
    depth, is a dict. *)
Fixpoint properties_are_maps (v : json) : bool :=
  match v with
  | JDict d =>
      forallb (fun kv =>
                 (negb (String.eqb (fst kv) "properties") || is_dict (snd kv))
                 && properties_are_maps (snd kv)) d
  | JList l => forallb properties_are_maps l
  | _ => true
  end.

(** The [AttributeError] of [v.keys()] on some [v] that is not a dict. *)
Definition no_keys_error (e : exn) : Prop :=
  exists v : json,
    is_dict v = false /\
    e = AttributeError ("'" ++ py_type_name v ++ "' object has no attribute 'keys'").

(** [properties], if [result] has it, is a dict. *)
Definition properties_is_dict (result : dict) : Prop :=
  forall p, dict_get result "properties" = Some p -> is_dict p = true.

(** A value the sanitizer copies without looking inside: anything but
    a dict or a list. *)
Definition is_scalar (v : json) : bool :=
  match v with JDict _ | JList _ => false | _ => true end.

(** The block for which the loop of [mcp_content_to_text] appends
    nothing: neither the text test nor the image test holds, there is a
    [resource], and it has neither [text] nor [blob]. *)
Definition dropped (item : Block) : bool :=
  match is_text item, is_image item, block_resource item with
  | Ok false, Ok false, Some r => negb (resource_has_payload r)
  | _, _, _ => false
  end.

Definition kept (item : Block) : bool := negb (dropped item).

(** [error_message] in [wrapper_fn]: the normalized content of the
    result, or ["Unknown error"] when it has no [content]. *)
Definition error_message_of (result : Wrapper.CallToolResult) : res string :=
  match Wrapper.result_content result with
  | Some c => mcp_content_to_text c
  | None => Ok "Unknown error"
  end.

(** What [wrapper_fn] returns for a result that is not flagged: the
    normalized content, or [str(result)] when it has no [content]. *)
Definition success_text_of (result : Wrapper.CallToolResult) : res string :=
  match Wrapper.result_content result with
  | Some c => mcp_content_to_text c
  | None => Ok (Wrapper.result_str result)
  end.

(** [getattr(result, 'isError', False)] taken as a condition. *)
Definition flagged (result : Wrapper.CallToolResult) : bool :=
  getattr_default (Wrapper.result_isError result) false.

(** The registry [create_mcp_aggregator] goes by: the one passed, else
    the one in the run context. *)
Definition registry_in_effect (server_registry : option ServerRegistry)
    (run_context : Lifecycle.RunContextWrapper) : option ServerRegistry :=
  match server_registry with
  | Some r => Some r
  | None => Lifecycle.context_mcp_server_registry run_context
  end.

(** The lifecycle calls [initialize_mcp_aggregator] can add to the log
    for an aggregator [a]: none, the enter, or the enter and the exit. *)
Definition lifecycle_of (a : MCPAggregator) (added : list Session.lifecycle_event)
  : Prop :=
  added = [] \/ added = [Session.Entered a] \/
  added = [Session.Entered a; Session.Exited a].

(** The schema a tool without [inputSchema] is bound with. *)
Definition default_bound_schema : json :=
  JDict [ ("type", JStr "object"); ("properties", JDict []);
          ("required", JList []); ("additionalProperties", JBool false) ].

End Vocabulary.

(* ================================================================== *)
(** ** More of the small deployment *)

Module Scenario.
Import Lifecycle Wrapper.

(** The double quote of a JSON text. *)
Definition quote : string := String (ascii_of_nat 34) EmptyString.

(** The argument text of an object with the one member [ctx]. *)
Definition ctx_arguments : string :=
  ("{" ++ quote ++ "ctx" ++ quote ++ ": 1}")%string.

(** [json.loads] of the deployment, knowing that text as well. *)
Definition json_loads (s : string) : res json :=
  if String.eqb s ctx_arguments then Ok (JDict [("ctx", JInt 1)])
  else Demo.json_loads s.

(** [echo] bound with this [json.loads]. *)
Definition wrapping_echo : res FunctionTool * world :=
  mcp_tool_to_function_tool json_loads Demo.transform_string_function_style
                            Demo.remote_call_tool Demo.echo (Some Demo.aggregator)
                            Demo.world0.

Definition wrapped_echo : FunctionTool :=
  match fst wrapping_echo with Ok tool => tool | Raise _ => Demo.no_tool end.

(** What the remote side answers to [echo] and to [fail]. *)
Definition echo_result : CallToolResult :=
  mkResult (Some false) (Some (Content.Many [Content.text_block "pong"]))
           "isError=False".

Definition fail_result : CallToolResult :=
  mkResult (Some true) (Some (Content.Many [Content.text_block "boom"]))
           "isError=True".

(** The aggregator of the deployment, created anew. *)
Definition created : res MCPAggregator * world :=
  create_mcp_aggregator Demo.run_context "assistant" ["files"] None true Demo.world0.

Definition created_aggregator : MCPAggregator :=
  match fst created with Ok a => a | Raise _ => Demo.aggregator end.

Definition world_created : world := snd created.

(** The settings side: a config object gives its settings, a path
    gives the settings of the file unless the file is missing, and a
    registry is made of any settings. *)
Definition Settings_of_mcp (c : Registry.MCPSettings) : res Registry.Settings :=
  Ok (Registry.mkSettings (Registry.mcp_settings_id c)).

Definition get_settings (config_path : option string) : res Registry.Settings :=
  match config_path with
  | Some path =>
      if String.eqb path "missing.yaml"
      then Raise (mkExn "FileNotFoundError" "missing.yaml" DerivesException)
      else Ok (Registry.mkSettings 1)
  | None => Ok (Registry.mkSettings 0)
  end.

Definition new_ServerRegistry (settings : Registry.Settings) : res ServerRegistry :=
  Ok (mkRegistry (Registry.settings_id settings)).

(** The constructor called once more: another object. *)
Definition new_ServerRegistry_again (settings : Registry.Settings)
  : res ServerRegistry :=
  Ok (mkRegistry (S (Registry.settings_id settings))).

(** The context of the example script: [AgentContext()] with neither a
    config nor a path. *)
Definition agent_context : Registry.AgentContext :=
  Registry.mkAgentContext None None None None.

(** A context that carries a registry under [server_registry] only. *)
Definition context_with_server_registry : Registry.AgentContext :=
  Registry.mkAgentContext (Some (mkRegistry 7)) None None None.

Definition ensured : res (option ServerRegistry) * Registry.AgentContext :=
  Registry.ensure_mcp_server_registry_in_context
    Settings_of_mcp get_settings new_ServerRegistry agent_context false.

(** Entering: the connections open; or the connection is lost; or the
    task is cancelled while they open. *)
Definition aenter_opens (a : MCPAggregator) : M unit :=
  fun w => (Ok tt, mkWorld (heap w) (agg_id a :: initialized w) (calls w)
                           (constructed w)).

Definition aenter_loses_connection (a : MCPAggregator) : M unit :=
  raise Demo.ConnectionError.

Definition aenter_cancelled (a : MCPAggregator) : M unit :=
  raise Demo.CancelledError.

Definition aexit_closes (a : MCPAggregator) : M unit :=
  fun w => (Ok tt, mkWorld (heap w)
                           (filter (fun i => negb (Nat.eqb i (agg_id a))) (initialized w))
                           (calls w) (constructed w)).

Definition session0 : Session.session := Session.mkSession Demo.world0 [].

(** Initialization with connections that open. *)
Definition initializing : res MCPAggregator * Session.session :=
  Session.initialize_mcp_aggregator aenter_opens aexit_closes
    Demo.run_context "assistant" ["files"] None true session0.

End Scenario.

(* ================================================================== *)
(** ** The content normalizer on untyped blocks *)

(** [Content.Block] gives every attribute that is present the type
    [mcp.types] declares for it.  Nothing in [mcp_content_to_text]
    checks those types: here an attribute that is present holds any
    Python value. *)
Module RawContent.

(** A Python value, as far as the normalizer can tell values apart:
    [None], a [str], or some other object with its [type(v).__name__]
    and its [str(v)]. *)
Inductive pyvalue : Type :=
| PyNone
| PyStr (s : string)
| PyObject (type_name : string) (shown : string).

(** [str(v)], also what an f-string puts for [{v}]. *)
Definition py_str (v : pyvalue) : string :=
  match v with
  | PyNone => "None"
  | PyStr s => s
  | PyObject _ shown => shown
  end.

(** [type(v).__name__] *)
Definition py_type (v : pyvalue) : string :=
  match v with
  | PyNone => "NoneType"
  | PyStr _ => "str"
  | PyObject type_name _ => type_name
  end.

(** [v == tag] for a string literal [tag]. *)
Definition py_eq_str (v : pyvalue) (tag : string) : bool :=
  match v with
  | PyStr s => String.eqb s tag
  | _ => false
  end.

(** The object under [item.resource]; a value without the attributes
    [text], [blob] and [mimeType] ([None], say) has them all missing. *)
Record RawResource : Type := mkRawResource {
  raw_resource_text : option pyvalue;
  raw_resource_blob : option pyvalue;
  raw_resource_mimeType : option pyvalue
}.

(** A block: each attribute missing or holding some value, and what
    [str(item)] gives ([object.__str__] and the [__str__] of the
    protocol's models return for every object). *)
Record RawBlock : Type := mkRawBlock {
  raw_type : option pyvalue;
  raw_text : option pyvalue;
  raw_data : option pyvalue;
  raw_mimeType : option pyvalue;
  raw_resource : option RawResource;
  raw_str : string
}.

Inductive raw_content : Type :=
| RawOne (item : RawBlock)
| RawMany (items : list RawBlock).

(** [hasattr(item, 'type') and item.type == tag] *)
Definition raw_type_is (item : RawBlock) (tag : string) : res bool :=
  Content.and_then (Ok (Content.hasattr (raw_type item)))
    (rbind (Content.attr "Block" "type" (raw_type item))
           (fun t => Ok (py_eq_str t tag))).

Definition raw_is_text (item : RawBlock) : res bool :=
  Content.and_then (raw_type_is item "text") (Ok (Content.hasattr (raw_text item))).

Definition raw_is_image (item : RawBlock) : res bool :=
  Content.and_then (raw_type_is item "image") (Ok (Content.hasattr (raw_data item))).

Definition raw_image_placeholder (m : option pyvalue) : string :=
  "[Image: " ++ py_str (Content.getattr_default m (PyStr "unknown type")) ++ "]".

Definition raw_resource_placeholder (m : option pyvalue) : string :=
  "[Resource: " ++ py_str (Content.getattr_default m (PyStr "unknown type")) ++ "]".

(** Lines 189-203: [return content.text] hands back whatever the
    attribute holds. *)
Definition raw_single_to_text (content : RawBlock) : res pyvalue :=
  (t <- raw_is_text content ;;
   if t then Content.attr "Block" "text" (raw_text content)
   else
     i <- raw_is_image content ;;
     if i then Ok (PyStr (raw_image_placeholder (raw_mimeType content)))
     else
       if Content.hasattr (raw_resource content) then
         resource <- Content.attr "Block" "resource" (raw_resource content) ;;
         if Content.hasattr (raw_resource_text resource) then
           Content.attr "Resource" "text" (raw_resource_text resource)
         else if Content.hasattr (raw_resource_blob resource) then
           Ok (PyStr (raw_resource_placeholder (raw_resource_mimeType resource)))
         else Ok (PyStr (raw_str content))
       else Ok (PyStr (raw_str content)))%res.

(** Lines 164-182: one turn of the loop. *)
Definition raw_append_item (text_parts : list pyvalue) (item : RawBlock)
  : res (list pyvalue) :=
  (t <- raw_is_text item ;;
   if t then
     v <- Content.attr "Block" "text" (raw_text item) ;;
     Ok (text_parts ++ [v])
   else
     i <- raw_is_image item ;;
     if i then Ok (text_parts ++ [PyStr (raw_image_placeholder (raw_mimeType item))])
     else
       if Content.hasattr (raw_resource item) then
         resource <- Content.attr "Block" "resource" (raw_resource item) ;;
         if Content.hasattr (raw_resource_text resource) then
           v <- Content.attr "Resource" "text" (raw_resource_text resource) ;;
           Ok (text_parts ++ [v])
         else if Content.hasattr (raw_resource_blob resource) then
           Ok (text_parts
               ++ [PyStr (raw_resource_placeholder (raw_resource_mimeType resource))])
         else Ok text_parts
       else Ok (text_parts ++ [PyStr (raw_str item)]))%res.

Fixpoint raw_collect_parts (items : list RawBlock) (text_parts : list pyvalue)
  : res (list pyvalue) :=
  match items with
  | [] => Ok text_parts
  | item :: rest =>
      match raw_append_item text_parts item with
      | Ok text_parts' => raw_collect_parts rest text_parts'
      | Raise e => Raise e
      end
  end.

Definition decimal (n : nat) : string :=
  DecimalString.NilEmpty.string_of_uint (Nat.to_uint n).

(** The items of [sep.join(parts)], from position [i] on: the first one
    that is not a [str] raises the [TypeError] that tells its position
    and its type. *)
Fixpoint str_items (i : nat) (parts : list pyvalue) : res (list string) :=
  match parts with
  | [] => Ok []
  | PyStr s :: rest =>
      match str_items (S i) rest with
      | Ok strs => Ok (s :: strs)
      | Raise e => Raise e
      end
  | v :: _ =>
      Raise (TypeError ("sequence item " ++ decimal i
                        ++ ": expected str instance, " ++ py_type v ++ " found"))
  end.

(** [sep.join(parts)] *)
Definition py_join (sep : string) (parts : list pyvalue) : res string :=
  match str_items 0 parts with
  | Ok strs => Ok (String.concat sep strs)
  | Raise e => Raise e
  end.

(** Lines 151-203. *)
Definition raw_mcp_content_to_text (c : raw_content) : res pyvalue :=
  match c with
  | RawMany items =>
      match raw_collect_parts items [] with
      | Ok text_parts =>
          match text_parts with
          | [] => Ok (PyStr "")
          | _ :: _ =>
              match py_join Content.nl text_parts with
              | Ok joined => Ok (PyStr joined)
              | Raise e => Raise e
              end
          end
      | Raise e => Raise e
      end
  | RawOne item => raw_single_to_text item
  end.

(** *** What the totality of the normalizer speaks about *)

(** An attribute that is missing, or present and a [str]. *)
Definition str_if_present (a : option pyvalue) : bool :=
  match a with
  | None => true
  | Some (PyStr _) => true
  | Some _ => false
  end.

(** The [text] of the block and the [text] of its resource are strings
    where they are present; every attribute may be missing. *)
Definition texts_are_str (item : RawBlock) : bool :=
  str_if_present (raw_text item) &&
  match raw_resource item with
  | Some r => str_if_present (raw_resource_text r)
  | None => true
  end.

Definition content_texts_are_str (c : raw_content) : bool :=
  match c with
  | RawOne item => texts_are_str item
  | RawMany items => forallb texts_are_str items
  end.

(** [item] carries the tag [tag]: it has a [type] and the [type] is
    that string. *)
Definition tagged (item : RawBlock) (tag : string) : bool :=
  match raw_type item with
  | Some t => py_eq_str t tag
  | None => false
  end.

(** A block none of the rules recognizes: not tagged as text with a
    [text], not tagged as image with [data], and either without a
    [resource] or with one that has neither [text] nor [blob]. *)
Definition unrecognized (item : RawBlock) : bool :=
  negb (tagged item "text" && Content.hasattr (raw_text item)) &&
  negb (tagged item "image" && Content.hasattr (raw_data item)) &&
  match raw_resource item with
  | None => true
  | Some r =>
      negb (Content.hasattr (raw_resource_text r)) &&
      negb (Content.hasattr (raw_resource_blob r))
  end.

(** Every part is a [str]. *)
Definition is_str (v : pyvalue) : bool :=
  match v with PyStr _ => true | _ => false end.

(** *** Typed blocks among the untyped *)

Definition raw_of_mime (m : Content.mime) : pyvalue :=
  match m with
  | Content.MimeNone => PyNone
  | Content.MimeStr s => PyStr s
  end.

Definition raw_of_resource (r : Content.Resource) : RawResource :=
  mkRawResource (option_map PyStr (Content.resource_text r))
                (option_map PyStr (Content.resource_blob r))
                (option_map raw_of_mime (Content.resource_mimeType r)).

Definition raw_of_block (b : Content.Block) : RawBlock :=
  mkRawBlock (option_map PyStr (Content.block_type b))
             (option_map PyStr (Content.block_text b))
             (option_map PyStr (Content.block_data b))
             (option_map raw_of_mime (Content.block_mimeType b))
             (option_map raw_of_resource (Content.block_resource b))
             (Content.block_str b).

Definition raw_of_content (c : Content.content) : raw_content :=
  match c with
  | Content.One item => RawOne (raw_of_block item)
  | Content.Many items => RawMany (map raw_of_block items)
  end.

(** A block tagged as text whose [text] is [None]. *)
Definition text_block_holding_None : RawBlock :=
  mkRawBlock (Some (PyStr "text")) (Some PyNone) None None None
             "type='text' text=None".

(** Blocks that lack fields: no attribute at all; a text tag without
    [text]; an image tag without [data]; a resource with neither
    [text] nor [blob]. *)
Definition bare_block : RawBlock :=
  mkRawBlock None None None None None "<object>".

Definition text_tag_only : RawBlock :=
  mkRawBlock (Some (PyStr "text")) None None None None "type='text'".

Definition image_tag_only : RawBlock :=
  mkRawBlock (Some (PyStr "image")) None None None None "type='image'".

Definition empty_resource_block : RawBlock :=
  mkRawBlock (Some (PyStr "resource")) None None None
             (Some (mkRawResource None None None)) "type='resource'".

End RawContent.

(* ================================================================== *)
(** ** The schema sanitizer on the interpreter's stack *)

(** [Sanitizer.sanitize_json_schema_for_openai] recurses as far as the
    document goes.  The interpreter does not: every call of the
    function takes a frame, and when no frame is left the call raises
    [RecursionError].  Here the sanitizer runs with the number of
    frames the interpreter still grants. *)
Module Frames.

Definition RecursionError (msg : string) : exn :=
  mkExn "RecursionError" msg DerivesException.

Section Interpreter.
(** Before CPython 3.12 a list comprehension runs in a frame of its
    own; from 3.12 on it runs in the frame of the function. *)
Variable comprehension_frame : bool.
(** The text of the [RecursionError] tells where the interpreter
    noticed; nothing below depends on it. *)
Variable recursion_message : string.

Definition overflow {A : Type} : res A :=
  Raise (RecursionError recursion_message).

Section Body.
(** [sanitize_json_schema_for_openai(value)] and the comprehension
    over a list, each with the frames that are left for it. *)
Variable call : json -> res json.
Variable comprehension : list json -> res (list json).

(** The three branches on [value] inside the loop. *)
Definition sanitize_value (value : json) : res json :=
  match value with
  | JDict _ => call value
  | JList l =>
      match comprehension l with
      | Ok l' => Ok (JList l')
      | Raise e => Raise e
      end
  | _ => Ok value
  end.

(** [for key, value in schema.items(): ...], threading [result]. *)
Fixpoint sanitize_loop (items : dict) (result : dict) : res dict :=
  match items with
  | [] => Ok result
  | (key, value) :: rest =>
      if Sanitizer.unsupported key then sanitize_loop rest result
      else
        match sanitize_value value with
        | Ok v => sanitize_loop rest (dict_set result key v)
        | Raise e => Raise e
        end
  end.
End Body.

(** Lines 238-282 with [frames] frames left: the call takes one; the
    calls it makes, and its comprehensions, share the others. *)
Fixpoint sanitize_json_schema_for_openai (frames : nat) (schema : json) : res json :=
  match frames with
  | 0 => overflow
  | S room =>
      match schema with
      | JDict items =>
          match sanitize_loop
                  (sanitize_json_schema_for_openai room)
                  (if comprehension_frame then
                     match room with
                     | 0 => fun _ => overflow
                     | S room' =>
                         Sanitizer.sanitize_elems (sanitize_json_schema_for_openai room')
                     end
                   else Sanitizer.sanitize_elems (sanitize_json_schema_for_openai room))
                  items [] with
          | Ok result => Sanitizer.complete_required result
          | Raise e => Raise e
          end
      | _ => Ok schema
      end
  end.

(** The frames a value stored under a key asks for: a document one
    more than the deepest value under its supported keys, a sequence
    the frame of its comprehension and what its deepest document asks
    for, anything else none. *)
Fixpoint frames_below (v : json) : nat :=
  match v with
  | JDict d =>
      S (fold_right
           (fun kv acc =>
              if Sanitizer.unsupported (fst kv) then acc
              else Nat.max (frames_below (snd kv)) acc)
           0 d)
  | JList l =>
      (if comprehension_frame then 1 else 0) +
      fold_right
        (fun x acc =>
           Nat.max (match x with JDict _ => frames_below x | _ => 0 end) acc)
        0 l
  | _ => 0
  end.

(** The deepest document among the elements of a sequence. *)
Definition deepest_elem (l : list json) : nat :=
  fold_right
    (fun x acc => Nat.max (match x with JDict _ => frames_below x | _ => 0 end) acc)
    0 l.

(** The deepest value under the supported keys of a document. *)
Definition deepest_value (d : dict) : nat :=
  fold_right
    (fun kv acc =>
       if Sanitizer.unsupported (fst kv) then acc
       else Nat.max (frames_below (snd kv)) acc)
    0 d.

(** The frames a call asks for: its own at least. *)
Definition frames_needed (schema : json) : nat :=
  match schema with
  | JDict _ => frames_below schema
  | _ => 1
  end.

End Interpreter.

(** A document nested [depth] documents deep. *)
Fixpoint nested (depth : nat) : json :=
  match depth with
  | 0 => JDict []
  | S depth' => JDict [("items", nested depth')]
  end.

End Frames.

(* ================================================================== *)
(** * Properties *)

(** ** Dicts *)

Section DictFacts.

Lemma dict_get_set_same (d : dict) (k : string) (v : json) :
  dict_get (dict_set d k v) k = Some v.
Proof.
  induction d as [|[k' v'] t IH]; simpl.
  - now rewrite String.eqb_refl.
  - destruct (String.eqb k' k) eqn:E; simpl; rewrite E; auto.
Qed.

Lemma dict_get_set_other (d : dict) (k k' : string) (v : json) :
  k <> k' -> dict_get (dict_set d k v) k' = dict_get d k'.
Proof.
  intros Hne. induction d as [|[k0 v0] t IH]; simpl.
  - destruct (String.eqb_spec k k'); congruence.
  - destruct (String.eqb_spec k0 k) as [->|Hk]; simpl.
    + destruct (String.eqb_spec k k'); congruence.
    + now rewrite IH.
Qed.

Lemma dict_get_In (d : dict) (k : string) (v : json) :
  dict_get d k = Some v -> In (k, v) d.
Proof.
  induction d as [|[k' v'] t IH]; simpl; [discriminate|].
  destruct (String.eqb_spec k' k) as [->|Hk]; intros H.
  - injection H as ->. now left.
  - right. auto.
Qed.

Lemma dict_get_keys (d : dict) (k : string) (v : json) :
  dict_get d k = Some v -> In k (keys d).
Proof.
  intros H. apply dict_get_In in H. unfold keys.
  change k with (fst (k, v)). now apply in_map.
Qed.

Lemma dict_set_fresh (d : dict) (k : string) (v : json) :
  ~ In k (keys d) -> dict_set d k v = d ++ [(k, v)].
Proof.
  induction d as [|[k' v'] t IH]; simpl; intros Hn; [reflexivity|].
  destruct (String.eqb_spec k' k) as [->|Hk].
  - exfalso. apply Hn. now left.
  - rewrite IH; auto.
Qed.

Lemma dict_set_same (d : dict) (k : string) (v : json) :
  dict_get d k = Some v -> dict_set d k v = d.
Proof.
  induction d as [|[k' v'] t IH]; simpl; [discriminate|].
  destruct (String.eqb_spec k' k) as [->|Hk]; intros H.
  - now injection H as ->.
  - now rewrite IH.
Qed.

Lemma keys_dict_set (d : dict) (k : string) (v : json) :
  keys (dict_set d k v) = keys d \/
  (~ In k (keys d) /\ keys (dict_set d k v) = keys d ++ [k]).
Proof.
  induction d as [|[k' v'] t IH]; simpl.
  - right. split; auto.
  - destruct (String.eqb_spec k' k) as [->|Hk]; simpl.
    + now left.
    + destruct IH as [IH|[Hn IH]]; rewrite IH.
      * now left.
      * right. split; [|reflexivity]. intros [H|H]; auto.
Qed.

Lemma In_keys_dict_set (d : dict) (k k' : string) (v : json) :
  In k' (keys (dict_set d k v)) -> k' = k \/ In k' (keys d).
Proof.
  destruct (keys_dict_set d k v) as [E|[_ E]]; rewrite E; auto.
  rewrite in_app_iff. simpl. intuition.
Qed.

Lemma NoDup_keys_dict_set (d : dict) (k : string) (v : json) :
  NoDup (keys d) -> NoDup (keys (dict_set d k v)).
Proof.
  intros Hnd. destruct (keys_dict_set d k v) as [E|[Hn E]]; rewrite E; auto.
  apply NoDup_app; auto.
  - constructor; [intros []|constructor].
  - intros x Hx [<-|[]]. auto.
Qed.

Lemma In_dict_set (d : dict) (k k' : string) (v v' : json) :
  In (k', v') (dict_set d k v) -> (k' = k /\ v' = v) \/ In (k', v') d.
Proof.
  induction d as [|[k0 v0] t IH]; simpl.
  - intros [H|[]]. injection H as <- <-. now left.
  - destruct (String.eqb_spec k0 k) as [->|Hk]; simpl.
    + intros [H|H]; [injection H as <- <-; now left | right; now right].
    + intros [H|H]; [right; now left|].
      destruct (IH H) as [?|?]; [now left | right; now right].
Qed.

Lemma json_size_field (d : dict) (k : string) (v : json) :
  In (k, v) d -> json_size v < json_size (JDict d).
Proof.
  simpl. induction d as [|[k' v'] t IH]; simpl; [intros []|].
  intros [H|H]; [injection H as <- <-; lia | specialize (IH H); lia].
Qed.

Lemma json_size_elem (l : list json) (x : json) :
  In x l -> json_size x < json_size (JList l).
Proof.
  simpl. induction l as [|y t IH]; simpl; [intros []|].
  intros [<-|H]; [lia | specialize (IH H); lia].
Qed.

(** Induction on the size of a value: the hypothesis covers every
    value nested at any depth. *)
Lemma json_size_ind (P : json -> Prop) :
  (forall v, (forall u, json_size u < json_size v -> P u) -> P v) ->
  forall v, P v.
Proof.
  intros Hstep v.
  remember (json_size v) as n eqn:En.
  revert v En. induction n as [n IH] using lt_wf_ind.
  intros v ->. apply Hstep. intros u Hu. now apply (IH (json_size u)).
Qed.

End DictFacts.

(* ================================================================== *)
(** ** The sanitizer *)

Module SanitizerFacts.
Import Sanitizer.

Lemma sanitize_dict_eq (items : dict) :
  sanitize_json_schema_for_openai (JDict items) =
  match sanitize_loop sanitize_json_schema_for_openai items [] with
  | Ok result => complete_required result
  | Raise e => Raise e
  end.
Proof. reflexivity. Qed.

Lemma sanitize_nondict (v : json) :
  is_dict v = false -> sanitize_json_schema_for_openai v = Ok v.
Proof. destruct v; simpl; intros; congruence. Qed.

Lemma complete_required_dict (result : dict) (r : json) :
  complete_required result = Ok r -> is_dict r = true.
Proof.
  unfold complete_required.
  destruct (is_object_with_properties result); [|intros [= <-]; reflexivity].
  destruct (dict_get result "properties") as [props|]; [|intros [= <-]; reflexivity].
  destruct (py_keys props) as [[|n ns]|e]; try discriminate; intros [= <-]; reflexivity.
Qed.

Lemma sanitize_dict_is_dict (items : dict) (r : json) :
  sanitize_json_schema_for_openai (JDict items) = Ok r -> is_dict r = true.
Proof.
  rewrite sanitize_dict_eq.
  destruct (sanitize_loop _ items []); [|discriminate].
  apply complete_required_dict.
Qed.

(** *** Walking down *)

Lemma subdoc_is_dict (sub v : json) : subdoc sub v -> is_dict v = true.
Proof. now destruct 1. Qed.

Lemma normal_nondict (v : json) : is_dict v = false -> normal v.
Proof.
  intros Hv d Hs. apply subdoc_is_dict in Hs. congruence.
Qed.

Lemma value_normal_dict (v : json) :
  is_dict v = true -> normal v -> value_normal v.
Proof. destruct v; simpl; auto; discriminate. Qed.

Lemma value_normal_scalar (v : json) :
  match v with JDict _ | JList _ => False | _ => True end -> value_normal v.
Proof.
  destruct v; simpl; try contradiction; intros _; now apply normal_nondict.
Qed.

Lemma normal_intro (d : dict) :
  level_ok d -> (forall k v, In (k, v) d -> value_normal v) -> normal (JDict d).
Proof.
  intros Hl Hv x Hs. inversion Hs as [d0 | sub d0 k v Hin Hsub | sub d0 k l item Hin Hitem Hsub]; subst.
  - exact Hl.
  - pose proof (subdoc_is_dict _ _ Hsub) as Hd.
    specialize (Hv _ _ Hin). destruct v; try discriminate. exact (Hv _ Hsub).
  - specialize (Hv _ _ Hin). simpl in Hv. exact (Hv _ Hitem _ Hsub).
Qed.

Lemma normal_level (d : dict) : normal (JDict d) -> level_ok d.
Proof. intros H. apply H. constructor. Qed.

Lemma normal_values (d : dict) (k : string) (v : json) :
  normal (JDict d) -> In (k, v) d -> value_normal v.
Proof.
  intros H Hin. destruct v; simpl;
    try (apply normal_nondict; reflexivity).
  - intros item Hitem x Hs. apply H. eapply subdoc_elem; eauto.
  - intros x Hs. apply H. eapply subdoc_field; eauto.
Qed.

(** *** From any document to the normal form *)

Section Forward.
Variable bound : nat.
Hypothesis IH : forall u, json_size u < bound ->
  forall r, sanitize_json_schema_for_openai u = Ok r -> normal r.

Lemma elems_normal (l l' : list json) :
  (forall x, In x l -> json_size x < bound) ->
  sanitize_elems sanitize_json_schema_for_openai l = Ok l' ->
  forall item, In item l' -> normal item.
Proof.
  revert l'. induction l as [|x t IHl]; simpl; intros l' Hb H.
  - injection H as <-. intros item [].
  - destruct (sanitize_item _ x) as [x'|] eqn:Ex; [|discriminate].
    destruct (sanitize_elems _ t) as [t'|] eqn:Et; [|discriminate].
    injection H as <-. intros item [<-|Hin].
    + destruct x; unfold sanitize_item in Ex;
        try (injection Ex as <-; now apply normal_nondict).
      eapply IH; [|exact Ex]. apply Hb. now left.
    + eapply IHl; eauto.
Qed.

Lemma value_forward (v v' : json) :
  json_size v < bound ->
  (forall l x, v = JList l -> In x l -> json_size x < bound) ->
  sanitize_value sanitize_json_schema_for_openai v = Ok v' ->
  value_normal v'.
Proof.
  intros Hb Hl H. destruct v; unfold sanitize_value in H;
    try (injection H as <-; now apply value_normal_scalar).
  - destruct (sanitize_elems _ l) as [l'|] eqn:El; [|discriminate].
    injection H as <-. simpl. eapply elems_normal; eauto.
  - apply value_normal_dict.
    + eapply sanitize_dict_is_dict; eauto.
    + eapply IH; eauto.
Qed.

Lemma loop_forward (items : dict) :
  (forall k v, In (k, v) items -> json_size v < bound) ->
  (forall k l x, In (k, JList l) items -> In x l -> json_size x < bound) ->
  forall acc result,
    acc_ok acc ->
    sanitize_loop sanitize_json_schema_for_openai items acc = Ok result ->
    acc_ok result.
Proof.
  induction items as [|[k v] rest IHr]; simpl; intros Hb Hl acc result Hacc H.
  - now injection H as <-.
  - destruct (unsupported k) eqn:Eu.
    + eapply IHr; eauto.
    + destruct (sanitize_value _ v) as [v'|] eqn:Ev; [|discriminate].
      eapply IHr; [eauto | eauto | | exact H].
      destruct Hacc as (Hnd & Hk & Hv). repeat split.
      * now apply NoDup_keys_dict_set.
      * intros k0 H0. apply In_keys_dict_set in H0 as [->|H0]; auto.
      * intros k0 v0 H0. apply In_dict_set in H0 as [[-> ->]|H0]; [|eauto].
        eapply value_forward; [| |exact Ev]; [eapply Hb; now left|].
        intros l x -> Hx. eapply Hl; [now left|exact Hx].
Qed.
End Forward.

Lemma is_object_with_properties_spec (d : dict) :
  is_object_with_properties d = true <->
  dict_get d "type" = Some (JStr "object") /\ exists p, dict_get d "properties" = Some p.
Proof.
  unfold is_object_with_properties. split.
  - destruct (dict_get d "type") as [[]|]; try discriminate.
    destruct (String.eqb_spec s "object") as [->|]; [|discriminate].
    destruct (dict_get d "properties") as [p|]; [|discriminate].
    intros _. split; eauto.
  - intros [-> [p ->]]. reflexivity.
Qed.

Lemma keys_nil (p : dict) : keys p = [] -> p = [].
Proof. destruct p; simpl; congruence. Qed.

Lemma complete_required_normal (result : dict) (r : json) :
  acc_ok result -> complete_required result = Ok r -> normal r.
Proof.
  intros (Hnd & Hk & Hv). unfold complete_required.
  destruct (is_object_with_properties result) eqn:Eo.
  - apply is_object_with_properties_spec in Eo as [Ht [p Hp]].
    rewrite Hp. destruct p; simpl; try discriminate.
    destruct (keys d) as [|n ns] eqn:En; intros [= <-].
    + apply normal_intro; auto. repeat split; auto.
      * intros _ p Hp'. rewrite Hp in Hp'. now injection Hp' as <-.
      * intros props (_ & Hp' & Hne). rewrite Hp in Hp'. injection Hp' as <-.
        apply keys_nil in En. contradiction.
    + apply normal_intro.
      * repeat split.
        -- now apply NoDup_keys_dict_set.
        -- intros k H0. apply In_keys_dict_set in H0 as [->|H0]; auto.
        -- intros _ p Hp'. rewrite dict_get_set_other in Hp' by discriminate.
           rewrite Hp in Hp'. now injection Hp' as <-.
        -- intros props (_ & Hp' & _).
           rewrite dict_get_set_other in Hp' by discriminate.
           rewrite Hp in Hp'. injection Hp' as <-.
           unfold required_is. rewrite dict_get_set_same. now rewrite En.
      * intros k v H0. apply In_dict_set in H0 as [[-> ->]|H0]; [|eauto].
        unfold value_normal. intros item Hi.
        change (In item (map JStr (n :: ns))) in Hi.
        apply in_map_iff in Hi as [s [<- _]].
        now apply normal_nondict.
  - intros [= <-]. apply normal_intro; auto. repeat split; auto.
    + intros Ht p Hp. exfalso.
      assert (is_object_with_properties result = true)
        by (apply is_object_with_properties_spec; eauto).
      congruence.
    + intros props (Ht & Hp & _). exfalso.
      assert (is_object_with_properties result = true)
        by (apply is_object_with_properties_spec; eauto).
      congruence.
Qed.

(** What the sanitizer returns is in normal form. *)
Lemma sanitize_normal (s r : json) :
  sanitize_json_schema_for_openai s = Ok r -> is_dict s = true -> normal r.
Proof.
  revert r. induction s as [s IHs] using json_size_ind. intros r H Hd.
  destruct s as [| | | | | |items]; try discriminate.
  rewrite sanitize_dict_eq in H.
  destruct (sanitize_loop _ items []) as [result|] eqn:El; [|discriminate].
  eapply complete_required_normal; [|exact H].
  eapply (loop_forward (json_size (JDict items))); [| | | |exact El].
  - intros u Hu r0 Hr0. destruct (is_dict u) eqn:Eu.
    + now apply (IHs u).
    + rewrite sanitize_nondict in Hr0 by assumption. injection Hr0 as <-.
      now apply normal_nondict.
  - intros k v Hin. eapply json_size_field; eauto.
  - intros k l x Hin Hx. apply json_size_field in Hin.
    apply json_size_elem in Hx. lia.
  - repeat split; [constructor | intros k [] | intros k v []].
Qed.

(** *** A document in normal form is left as it is *)

Section Backward.
Variable bound : nat.
Hypothesis IH : forall u, json_size u < bound ->
  is_dict u = true -> normal u -> sanitize_json_schema_for_openai u = Ok u.

Lemma elems_fixed (l : list json) :
  (forall x, In x l -> json_size x < bound) ->
  (forall x, In x l -> normal x) ->
  sanitize_elems sanitize_json_schema_for_openai l = Ok l.
Proof.
  induction l as [|x t IHl]; intros Hb Hn; [reflexivity|].
  cbn [sanitize_elems].
  assert (Ex : sanitize_item sanitize_json_schema_for_openai x = Ok x).
  { destruct x; try reflexivity. unfold sanitize_item.
    apply IH; [apply Hb; now left | reflexivity | apply Hn; now left]. }
  rewrite Ex, IHl; [reflexivity| |]; intros; [apply Hb|apply Hn]; now right.
Qed.

Lemma value_fixed (v : json) :
  json_size v < bound ->
  (forall l x, v = JList l -> In x l -> json_size x < bound) ->
  value_normal v ->
  sanitize_value sanitize_json_schema_for_openai v = Ok v.
Proof.
  intros Hb Hl Hn. destruct v; try reflexivity; unfold sanitize_value.
  - rewrite elems_fixed; [reflexivity| |exact Hn]. intros x Hx. eapply Hl; eauto.
  - apply IH; auto.
Qed.

Lemma loop_fixed (items : dict) :
  (forall k v, In (k, v) items -> json_size v < bound) ->
  (forall k l x, In (k, JList l) items -> In x l -> json_size x < bound) ->
  (forall k v, In (k, v) items -> unsupported k = false /\ value_normal v) ->
  forall acc,
    NoDup (keys (acc ++ items)) ->
    sanitize_loop sanitize_json_schema_for_openai items acc = Ok (acc ++ items).
Proof.
  induction items as [|[k v] rest IHr]; intros Hb Hl Hok acc Hnd.
  - now rewrite app_nil_r.
  - cbn [sanitize_loop].
    destruct (Hok k v) as [-> Hv]; [now left|].
    rewrite value_fixed; [| eapply Hb; now left
                          | intros l x -> Hx; eapply Hl; [now left|exact Hx]
                          | exact Hv].
    rewrite dict_set_fresh.
    + replace (acc ++ (k, v) :: rest) with ((acc ++ [(k, v)]) ++ rest)
        by (now rewrite <- app_assoc).
      apply IHr.
      * intros; eapply Hb; right; eauto.
      * intros; eapply Hl; [right|]; eauto.
      * intros; apply Hok; now right.
      * now rewrite <- app_assoc.
    + unfold keys in Hnd |- *. rewrite map_app in Hnd. simpl in Hnd.
      apply NoDup_remove_2 in Hnd. intros Hin. apply Hnd.
      apply in_or_app. now left.
Qed.
End Backward.

Lemma complete_required_fixed (d : dict) :
  level_ok d -> complete_required d = Ok (JDict d).
Proof.
  intros (_ & _ & Hp & Hr). unfold complete_required.
  destruct (is_object_with_properties d) eqn:Eo; [|reflexivity].
  apply is_object_with_properties_spec in Eo as [Ht [p Ep]].
  rewrite Ep. specialize (Hp Ht p Ep).
  destruct p as [| | | | | |props]; try discriminate. simpl.
  destruct (keys props) as [|n ns] eqn:En; [reflexivity|].
  rewrite dict_set_same; [reflexivity|].
  rewrite <- En. apply Hr. repeat split; auto.
  intros ->. discriminate.
Qed.

Lemma normal_fixed (r : json) :
  is_dict r = true -> normal r -> sanitize_json_schema_for_openai r = Ok r.
Proof.
  induction r as [r IHr] using json_size_ind. intros Hd Hn.
  destruct r as [| | | | | |d]; try discriminate.
  rewrite sanitize_dict_eq.
  rewrite (loop_fixed (json_size (JDict d))).
  - simpl. apply complete_required_fixed. now apply normal_level.
  - intros u Hu. now apply IHr.
  - intros k v Hin. eapply json_size_field; eauto.
  - intros k l x Hin Hx. apply json_size_field in Hin.
    apply json_size_elem in Hx. lia.
  - intros k v Hin. split.
    + apply normal_level in Hn. destruct Hn as (_ & Hk & _). apply Hk.
      unfold keys. change k with (fst (k, v)). now apply in_map.
    + eapply normal_values; eauto.
  - simpl. apply normal_level in Hn. now destruct Hn.
Qed.

Lemma supported_spec (k : string) :
  unsupported k = false -> ~ In k UNSUPPORTED_SCHEMA_PROPERTIES.
Proof.
  unfold unsupported. intros H Hin.
  assert (existsb (String.eqb k) UNSUPPORTED_SCHEMA_PROPERTIES = true).
  { apply existsb_exists. exists k. split; auto. apply String.eqb_refl. }
  congruence.
Qed.

(** *** Documents without directly nested sequences *)

Lemma flat_list (l : list json) : flat (JList l) = forallb flat_elem l.
Proof. reflexivity. Qed.

Lemma flat_dict (d : dict) : flat (JDict d) = forallb (fun kv => flat (snd kv)) d.
Proof. reflexivity. Qed.

Lemma flat_dict_set (d : dict) (k : string) (v : json) :
  flat (JDict d) = true -> flat v = true -> flat (JDict (dict_set d k v)) = true.
Proof.
  rewrite !flat_dict. induction d as [|[k' v'] t IH]; cbn [dict_set forallb snd].
  - intros _ ->. reflexivity.
  - intros H Hv. apply andb_true_iff in H as [H1 H2].
    destruct (String.eqb k' k); cbn [forallb snd]; apply andb_true_iff; auto.
Qed.

Section FlatForward.
Variable bound : nat.
Hypothesis IH : forall u, json_size u < bound ->
  forall r, sanitize_json_schema_for_openai u = Ok r -> flat u = true -> flat r = true.

Lemma elems_flat (l l' : list json) :
  (forall x, In x l -> json_size x < bound) ->
  sanitize_elems sanitize_json_schema_for_openai l = Ok l' ->
  forallb flat_elem l = true -> forallb flat_elem l' = true.
Proof.
  revert l'. induction l as [|x t IHl]; cbn [sanitize_elems forallb]; intros l' Hb H Hf.
  - now injection H as <-.
  - destruct (sanitize_item _ x) as [x'|] eqn:Ex; [|discriminate].
    destruct (sanitize_elems _ t) as [t'|] eqn:Et; [|discriminate].
    injection H as <-. apply andb_true_iff in Hf as [Hx Ht].
    cbn [forallb]. apply andb_true_iff. split.
    + destruct x; unfold sanitize_item in Ex; try (now injection Ex as <-).
      pose proof (sanitize_dict_is_dict _ _ Ex) as Hd.
      destruct x'; try discriminate. unfold flat_elem.
      eapply IH; [|exact Ex|exact Hx]. apply Hb. now left.
    + apply IHl; auto. intros; apply Hb; now right.
Qed.

Lemma value_flat (v v' : json) :
  json_size v < bound ->
  (forall l x, v = JList l -> In x l -> json_size x < bound) ->
  sanitize_value sanitize_json_schema_for_openai v = Ok v' ->
  flat v = true -> flat v' = true.
Proof.
  intros Hb Hl H Hf. destruct v; unfold sanitize_value in H;
    try (now injection H as <-).
  - destruct (sanitize_elems _ l) as [l'|] eqn:El; [|discriminate].
    injection H as <-. rewrite flat_list in *. eapply elems_flat; eauto.
  - eapply IH; eauto.
Qed.

Lemma loop_flat (items : dict) :
  (forall k v, In (k, v) items -> json_size v < bound) ->
  (forall k l x, In (k, JList l) items -> In x l -> json_size x < bound) ->
  flat (JDict items) = true ->
  forall acc result,
    flat (JDict acc) = true ->
    sanitize_loop sanitize_json_schema_for_openai items acc = Ok result ->
    flat (JDict result) = true.
Proof.
  induction items as [|[k v] rest IHr]; cbn [sanitize_loop];
    intros Hb Hl Hf acc result Hacc H.
  - now injection H as <-.
  - rewrite flat_dict in Hf. cbn [forallb snd] in Hf.
    apply andb_true_iff in Hf as [Hv Hrest].
    assert (Hb' : forall k0 v0, In (k0, v0) rest -> json_size v0 < bound)
      by (intros; eapply Hb; right; eauto).
    assert (Hl' : forall k0 l x, In (k0, JList l) rest -> In x l -> json_size x < bound)
      by (intros; eapply Hl; [right|]; eauto).
    destruct (unsupported k).
    + eapply IHr; eauto.
    + destruct (sanitize_value _ v) as [v'|] eqn:Ev; [|discriminate].
      eapply IHr; [exact Hb'|exact Hl'|exact Hrest| |exact H].
      apply flat_dict_set; [exact Hacc|].
      eapply value_flat; [| |exact Ev|exact Hv]; [eapply Hb; now left|].
      intros l x -> Hx. eapply Hl; [now left|exact Hx].
Qed.
End FlatForward.

Lemma complete_required_flat (result : dict) (r : json) :
  flat (JDict result) = true -> complete_required result = Ok r -> flat r = true.
Proof.
  intros Hf. unfold complete_required.
  destruct (is_object_with_properties result); [|now intros [= <-]].
  destruct (dict_get result "properties") as [p|]; [|now intros [= <-]].
  destruct (py_keys p) as [[|n ns]|e]; try discriminate; [now intros [= <-]|].
  intros [= <-]. apply flat_dict_set; [exact Hf|].
  rewrite flat_list. apply forallb_forall. intros x Hx.
  change (In x (map JStr (n :: ns))) in Hx.
  apply in_map_iff in Hx as [name [<- _]]. reflexivity.
Qed.

Lemma sanitize_flat (s r : json) :
  sanitize_json_schema_for_openai s = Ok r -> flat s = true -> flat r = true.
Proof.
  revert r. induction s as [s IHs] using json_size_ind. intros r H Hf.
  destruct s as [| | | | | |items]; try (now injection H as <-).
  rewrite sanitize_dict_eq in H.
  destruct (sanitize_loop _ items []) as [result|] eqn:El; [|discriminate].
  eapply complete_required_flat; [|exact H].
  eapply (loop_flat (json_size (JDict items))); [| | | | |exact El].
  - intros u Hu r0 Hr0. now apply (IHs u).
  - intros k v Hin. eapply json_size_field; eauto.
  - intros k l x Hin Hx. apply json_size_field in Hin.
    apply json_size_elem in Hx. lia.
  - exact Hf.
  - reflexivity.
Qed.

(** In a normal form without directly nested sequences, an unsupported
    key is nowhere. *)
Lemma normal_flat_no_key (k : string) (r : json) :
  unsupported k = true ->
  is_dict r = true -> normal r -> flat r = true -> key_occurs k r = false.
Proof.
  intros Hk. induction r as [r IHr] using json_size_ind. intros Hd Hn Hf.
  destruct r as [| | | | | |d]; try discriminate.
  apply not_true_is_false. intros Ho. cbn [key_occurs] in Ho.
  apply existsb_exists in Ho as [[k' v] [Hin Ho]]. cbn [fst snd] in Ho.
  rewrite flat_dict, forallb_forall in Hf.
  pose proof (Hf _ Hin) as Hfv. cbn [snd] in Hfv.
  pose proof (normal_values _ _ _ Hn Hin) as Hnv.
  pose proof (json_size_field _ _ _ Hin) as Hsv.
  apply orb_true_iff in Ho as [Ho|Ho].
  - apply String.eqb_eq in Ho. subst k'.
    destruct (normal_level _ Hn) as (_ & Hsup & _).
    rewrite Hsup in Hk; [discriminate|].
    unfold keys. change k with (fst (k, v)). now apply in_map.
  - destruct v as [| | | | | l |d']; try discriminate.
    + cbn [key_occurs] in Ho. apply existsb_exists in Ho as [x [Hx Ho]].
      rewrite flat_list, forallb_forall in Hfv. specialize (Hfv x Hx).
      pose proof (json_size_elem _ _ Hx) as Hsx.
      destruct x; try discriminate.
      rewrite (IHr (JDict d0)) in Ho;
        [discriminate | lia | reflexivity | exact (Hnv _ Hx) | exact Hfv].
    + rewrite (IHr (JDict d')) in Ho;
        [discriminate | exact Hsv | reflexivity | exact Hnv | exact Hfv].
Qed.

(** *** The claims on the sanitizer *)

Lemma unsupported_spec (k : string) :
  In k UNSUPPORTED_SCHEMA_PROPERTIES -> unsupported k = true.
Proof.
  intros H. unfold unsupported. apply existsb_exists.
  exists k. split; [exact H|apply String.eqb_refl].
Qed.

(** C2, as the code has it: for every key [k] of the disallowed set and
    every JSON Schema document, no document of the sanitizer's output
    that is reached through nested documents and through documents that
    are direct elements of a sequence has [k] among its keys; and when
    no sequence of the input has a sequence as a direct element, [k]
    occurs nowhere in the output, at any depth.  (A document that sits
    in a sequence nested directly in another sequence is copied as it
    is.) *)
Theorem sanitize_drops_unsupported_keys :
  forall (k : string) (schema : dict) (r : json),
    In k UNSUPPORTED_SCHEMA_PROPERTIES ->
    sanitize_json_schema_for_openai (JDict schema) = Ok r ->
    (forall d, subdoc (JDict d) r -> ~ In k (keys d)) /\
    (flat (JDict schema) = true -> key_occurs k r = false).
Proof.
  intros k schema r Hk Hs.
  pose proof (sanitize_normal _ _ Hs eq_refl) as Hn.
  split.
  - intros d Hsub Hin.
    destruct (Hn d Hsub) as (_ & Hsup & _).
    exact (supported_spec k (Hsup k Hin) Hk).
  - intros Hf. apply normal_flat_no_key.
    + now apply unsupported_spec.
    + eapply sanitize_dict_is_dict; eauto.
    + exact Hn.
    + eapply sanitize_flat; eauto.
Qed.

(** C3: in the output of the sanitizer, every document reached as a
    subschema that has [type == "object"] and a non-empty [properties]
    map has [required] equal to the list of the names of its properties,
    in their order, whatever [required] was in the input. *)
Theorem sanitize_completes_required :
  forall (schema : dict) (r : json) (sub props : dict),
    sanitize_json_schema_for_openai (JDict schema) = Ok r ->
    subdoc (JDict sub) r ->
    object_with_properties sub props ->
    required_is sub (keys props).
Proof.
  intros schema r sub props Hs Hsub Hobj.
  pose proof (sanitize_normal _ _ Hs eq_refl) as Hn.
  destruct (Hn sub Hsub) as (_ & _ & _ & Hr). now apply Hr.
Qed.

(** Sanitizing twice is sanitizing once, for every value: where the
    first pass returns a document the second pass returns that same
    document, and where the first pass raises so does the composition. *)
Lemma sanitize_twice :
  forall s : json,
    rbind (sanitize_json_schema_for_openai s) sanitize_json_schema_for_openai
    = sanitize_json_schema_for_openai s.
Proof.
  intros s. destruct (sanitize_json_schema_for_openai s) as [r|e] eqn:Es; simpl; [|reflexivity].
  destruct (is_dict s) eqn:Ed.
  - apply normal_fixed.
    + destruct s; try discriminate. eapply sanitize_dict_is_dict; eauto.
    + eapply sanitize_normal; eauto.
  - rewrite sanitize_nondict in Es by assumption. injection Es as <-.
    now apply sanitize_nondict.
Qed.

(** *** The claims at work *)

Lemma sanitize_drops_unsupported_keys_witness :
  (forall d, subdoc (JDict d) (JDict Demo.person_sanitized) ->
             ~ In "format" (keys d)) /\
  (flat (JDict Demo.person_schema) = true ->
   key_occurs "format" (JDict Demo.person_sanitized) = false).
Proof.
  apply (sanitize_drops_unsupported_keys "format" Demo.person_schema).
  - simpl; tauto.
  - reflexivity.
Defined.

Lemma sanitize_completes_required_witness :
  required_is Demo.person_sanitized ["name"; "age"].
Proof.
  apply (sanitize_completes_required
           Demo.person_schema (JDict Demo.person_sanitized)
           Demo.person_sanitized
           [("name", JDict [("type", JStr "string")]);
            ("age", JDict [("type", JStr "integer")])]).
  - reflexivity.
  - constructor.
  - repeat split; try reflexivity. discriminate.
Defined.

(** C2 as worded fails: a document inside a sequence nested directly
    in a sequence (here a value of [enum]) is not visited, and its
    unsupported key is still in the output. *)
Lemma nested_sequence_keeps_unsupported_key :
  In "default" UNSUPPORTED_SCHEMA_PROPERTIES /\
  key_occurs "default" (JDict Demo.nested_enum_schema) = true /\
  exists r,
    sanitize_json_schema_for_openai (JDict Demo.nested_enum_schema) = Ok r /\
    key_occurs "default" r = true.
Proof.
  split; [simpl; tauto|]. split; [reflexivity|].
  eexists. split; reflexivity.
Qed.

(** An unsupported name is dropped also where it names a property. *)
Example property_named_format_is_dropped :
  sanitize_json_schema_for_openai
    (JDict [("type", JStr "object");
            ("properties", JDict [("format", JDict [("type", JStr "string")]);
                                  ("a", JDict [])])])
  = Ok (JDict [("type", JStr "object");
               ("properties", JDict [("a", JDict [])]);
               ("required", JList [JStr "a"])]).
Proof. reflexivity. Qed.

(** [properties] that is not a dict makes [.keys()] raise. *)
Example properties_not_a_dict_raises :
  sanitize_json_schema_for_openai
    (JDict [("type", JStr "object"); ("properties", JList [])])
  = Raise (AttributeError "'list' object has no attribute 'keys'").
Proof. reflexivity. Qed.

End SanitizerFacts.

(* ================================================================== *)
(** ** The content normalizer *)

Module ContentFacts.
Import Content.

(** Every way a block can be: each attribute present or missing, the
    type tag equal to ["text"], to ["image"] or to neither. *)
Ltac block_cases item :=
  let ty := fresh "ty" in
  destruct item as [[ty|] [?|] [?|] ? [[[?|] [?|] ?]|] ?];
  unfold append_item, single_to_text, is_text, is_image, type_is,
         payload_ok, resource_has_payload;
  cbn;
  try (destruct (String.eqb ty "text"); cbn);
  try (destruct (String.eqb ty "image"); cbn).

(** Each attribute is read only behind its [hasattr]. *)
Lemma single_to_text_total (item : Block) :
  exists s, single_to_text item = Ok s.
Proof. block_cases item; eauto. Qed.

Lemma append_item_total (text_parts : list string) (item : Block) :
  exists parts, append_item text_parts item = Ok parts.
Proof. block_cases item; eauto. Qed.

Lemma collect_parts_total (items : list Block) :
  forall text_parts, exists parts, collect_parts items text_parts = Ok parts.
Proof.
  induction items as [|item rest IH]; intros text_parts; cbn [collect_parts].
  - eauto.
  - destruct (append_item_total text_parts item) as [parts ->]. apply IH.
Qed.

(** On typed blocks, whatever attributes they lack, the normalizer
    returns. *)
Lemma typed_content_to_text_returns :
  forall c : content, exists s : string, mcp_content_to_text c = Ok s.
Proof.
  intros [item|items]; cbn [mcp_content_to_text].
  - apply single_to_text_total.
  - destruct (collect_parts_total items []) as [[|p parts] ->]; eauto.
Qed.

(** In the loop a block is handled by the single-block rules and its
    text put at the end, as long as its resource, if it has one,
    carries text or a blob. *)
Lemma append_item_single (text_parts : list string) (item : Block) :
  payload_ok item = true ->
  append_item text_parts item =
  rbind (single_to_text item) (fun s => Ok (text_parts ++ [s])).
Proof.
  block_cases item; intros H; try reflexivity; discriminate.
Qed.

Lemma collect_parts_each_single (items : list Block) :
  forallb payload_ok items = true ->
  forall text_parts,
    collect_parts items text_parts =
    rbind (each_single items) (fun parts => Ok (text_parts ++ parts)).
Proof.
  induction items as [|item rest IH]; intros Hok text_parts; cbn [collect_parts each_single].
  - cbn. now rewrite app_nil_r.
  - cbn [forallb] in Hok. apply andb_true_iff in Hok as [Hi Hr].
    rewrite append_item_single by assumption.
    destruct (single_to_text item) as [s|e]; cbn; [|reflexivity].
    rewrite IH by assumption.
    destruct (each_single rest) as [tl|e]; cbn; [|reflexivity].
    now rewrite <- app_assoc.
Qed.

(** C5, as the code has it: for a sequence of blocks in which every
    embedded resource carries inline text or a blob, the result is the
    results of the single-block rules, all of them, empty ones
    included, joined by a newline; the empty sequence gives the empty
    string. *)
Theorem many_joins_every_single_result :
  forall items : list Block,
    forallb payload_ok items = true ->
    mcp_content_to_text (Many items) = join_all items /\
    mcp_content_to_text (Many []) = Ok "".
Proof.
  intros items Hok. split; [|reflexivity].
  unfold mcp_content_to_text, join_all.
  rewrite collect_parts_each_single by assumption.
  destruct (each_single items) as [[|p parts]|e]; reflexivity.
Qed.

Lemma many_joins_every_single_result_witness :
  mcp_content_to_text
    (Many [text_block "a"; image_block "iVBOR" None; text_block "b"])
  = join_all [text_block "a"; image_block "iVBOR" None; text_block "b"] /\
  mcp_content_to_text (Many []) = Ok "".
Proof.
  apply (many_joins_every_single_result
           [text_block "a"; image_block "iVBOR" None; text_block "b"]).
  reflexivity.
Defined.

(** C5 as worded fails: an empty result is joined like any other, so
    the code's result differs from the join of the non-empty results,
    and two empty texts give a newline, not the empty string. *)
Lemma empty_results_are_joined_too :
  mcp_content_to_text (Many [text_block "a"; text_block ""; text_block "b"])
    = Ok ("a" ++ nl ++ nl ++ "b")%string /\
  spec_join_nonempty [text_block "a"; text_block ""; text_block "b"]
    = Ok ("a" ++ nl ++ "b")%string /\
  mcp_content_to_text (Many [text_block "a"; text_block ""; text_block "b"])
    <> spec_join_nonempty [text_block "a"; text_block ""; text_block "b"] /\
  mcp_content_to_text (Many [text_block ""; text_block ""]) = Ok nl /\
  mcp_content_to_text (Many [text_block ""; text_block ""]) <> Ok "".
Proof.
  repeat split; try reflexivity; intros H; discriminate H.
Qed.

(** The literal cases of the specification. *)
Example single_text : mcp_content_to_text (One (text_block "hello")) = Ok "hello".
Proof. reflexivity. Qed.

Example two_texts :
  mcp_content_to_text (Many [text_block "a"; text_block "b"]) = Ok ("a" ++ nl ++ "b")%string.
Proof. reflexivity. Qed.

Example image_with_mime :
  mcp_content_to_text (One (image_block "iVBOR" (Some (MimeStr "image/png"))))
  = Ok "[Image: image/png]".
Proof. reflexivity. Qed.

Example image_without_mime :
  mcp_content_to_text (One (image_block "iVBOR" None)) = Ok "[Image: unknown type]".
Proof. reflexivity. Qed.

Example empty_sequence : mcp_content_to_text (Many []) = Ok "".
Proof. reflexivity. Qed.

(** A resource with neither text nor blob: its [str] when alone,
    nothing when in a sequence. *)
Example bare_resource_alone_and_in_sequence :
  let item := mkBlock (Some "resource") None None None
                      (Some (mkResource None None None)) "type='resource'" in
  mcp_content_to_text (One item) = Ok "type='resource'" /\
  mcp_content_to_text (Many [item]) = Ok "".
Proof. split; reflexivity. Qed.

End ContentFacts.

(* ================================================================== *)
(** ** The content normalizer on untyped blocks *)

Module RawContentFacts.
Import Content RawContent.

(** Every way an attribute can be: missing, [None], a [str], another
    object. *)
Ltac raw_block_cases item :=
  let ty := fresh "ty" in
  destruct item as [[[|ty|? ?]|] [[|?|? ?]|] [?|] ? [[[[|?|? ?]|] [?|] ?]|] ?];
  unfold raw_append_item, raw_single_to_text, raw_is_text, raw_is_image,
         raw_type_is, texts_are_str, unrecognized, tagged;
  cbn;
  try (destruct (String.eqb ty "text"); cbn);
  try (destruct (String.eqb ty "image"); cbn).

Lemma raw_single_to_text_str (item : RawBlock) :
  texts_are_str item = true ->
  exists s, raw_single_to_text item = Ok (PyStr s).
Proof. raw_block_cases item; intros H; try discriminate H; eauto. Qed.

Lemma raw_single_to_text_fallback (item : RawBlock) :
  unrecognized item = true ->
  raw_single_to_text item = Ok (PyStr (raw_str item)).
Proof. raw_block_cases item; intros H; try discriminate H; reflexivity. Qed.

Lemma forallb_is_str_snoc (parts : list pyvalue) (s : string) :
  forallb is_str parts = true -> forallb is_str (parts ++ [PyStr s]) = true.
Proof. intros H. rewrite forallb_app, H. reflexivity. Qed.

Lemma raw_append_item_str (text_parts : list pyvalue) (item : RawBlock) :
  texts_are_str item = true ->
  forallb is_str text_parts = true ->
  exists parts, raw_append_item text_parts item = Ok parts /\
                forallb is_str parts = true.
Proof.
  raw_block_cases item; intros H Hp; try discriminate H;
    eauto using forallb_is_str_snoc.
Qed.

Lemma raw_collect_parts_str (items : list RawBlock) :
  forallb texts_are_str items = true ->
  forall text_parts,
    forallb is_str text_parts = true ->
    exists parts, raw_collect_parts items text_parts = Ok parts /\
                  forallb is_str parts = true.
Proof.
  induction items as [|item rest IH]; intros Hok text_parts Hp;
    cbn [raw_collect_parts].
  - eauto.
  - cbn [forallb] in Hok. apply andb_true_iff in Hok as [Hi Hr].
    destruct (raw_append_item_str text_parts item Hi Hp) as (parts & -> & Hparts).
    now apply IH.
Qed.

(** Joining strings raises nothing. *)
Lemma str_items_str (parts : list pyvalue) :
  forallb is_str parts = true ->
  forall i, exists strs, str_items i parts = Ok strs.
Proof.
  induction parts as [|[| s |? ?] rest IH]; intros H i; cbn in H |- *;
    try discriminate H.
  - eauto.
  - destruct (IH H (S i)) as [strs ->]. eauto.
Qed.

Lemma py_join_str (sep : string) (parts : list pyvalue) :
  forallb is_str parts = true ->
  exists joined, py_join sep parts = Ok joined.
Proof.
  intros H. unfold py_join.
  destruct (str_items_str parts H 0) as [strs ->]. eauto.
Qed.

(** C6, as the code has it: for every block and every sequence of
    blocks in which each [text] (of the block, of its resource) is a
    string where it is present, whatever attributes the blocks lack,
    the normalizer returns a string and raises nothing; and a single
    block that no rule recognizes gives its own [str], whatever its
    attributes hold. *)
Theorem mcp_content_to_text_returns_a_string :
  forall c : raw_content,
    (content_texts_are_str c = true ->
     exists s : string, raw_mcp_content_to_text c = Ok (PyStr s)) /\
    (forall item : RawBlock,
       c = RawOne item ->
       unrecognized item = true ->
       raw_mcp_content_to_text c = Ok (PyStr (raw_str item))).
Proof.
  intros c. split.
  - destruct c as [item|items]; cbn [content_texts_are_str raw_mcp_content_to_text];
      intros H.
    + now apply raw_single_to_text_str.
    + destruct (raw_collect_parts_str items H [] eq_refl) as (parts & -> & Hparts).
      destruct parts as [|p parts]; [eauto|].
      destruct (py_join_str nl (p :: parts) Hparts) as [joined ->]. eauto.
  - intros item -> H. cbn [raw_mcp_content_to_text].
    now apply raw_single_to_text_fallback.
Qed.

Lemma mcp_content_to_text_returns_a_string_witness :
  (exists s : string,
     raw_mcp_content_to_text
       (RawMany [bare_block; text_tag_only; image_tag_only; empty_resource_block])
     = Ok (PyStr s)) /\
  raw_mcp_content_to_text (RawOne empty_resource_block) = Ok (PyStr "type='resource'").
Proof.
  split.
  - apply (proj1 (mcp_content_to_text_returns_a_string
                    (RawMany [bare_block; text_tag_only; image_tag_only;
                              empty_resource_block]))).
    reflexivity.
  - apply (proj2 (mcp_content_to_text_returns_a_string (RawOne empty_resource_block))
                 empty_resource_block);
      reflexivity.
Defined.

(** C6 as worded fails: nothing checks that a [text] that is present is
    a string.  A block tagged as text whose [text] is [None] makes the
    normalizer return [None], not a string, when alone, and makes the
    join raise in a sequence. *)
Lemma text_None_is_not_normalized :
  texts_are_str text_block_holding_None = false /\
  raw_mcp_content_to_text (RawOne text_block_holding_None) = Ok PyNone /\
  (forall s : string,
     raw_mcp_content_to_text (RawOne text_block_holding_None) <> Ok (PyStr s)) /\
  raw_mcp_content_to_text (RawMany [text_block_holding_None])
  = Raise (TypeError "sequence item 0: expected str instance, NoneType found").
Proof.
  repeat split; try reflexivity. intros s H; discriminate H.
Qed.

(** The same through a resource, and further down a sequence. *)
Example resource_text_None_breaks_the_join :
  let item := mkRawBlock (Some (PyStr "resource")) None None None
                         (Some (mkRawResource (Some PyNone) None None))
                         "type='resource'" in
  raw_mcp_content_to_text (RawOne item) = Ok PyNone /\
  raw_mcp_content_to_text
    (RawMany [mkRawBlock (Some (PyStr "text")) (Some (PyStr "a")) None None None "a"; item])
  = Raise (TypeError "sequence item 1: expected str instance, NoneType found").
Proof. split; reflexivity. Qed.

(** What the missing fields of the witness give. *)
Example blocks_lacking_fields :
  raw_mcp_content_to_text (RawOne bare_block) = Ok (PyStr "<object>") /\
  raw_mcp_content_to_text (RawOne text_tag_only) = Ok (PyStr "type='text'") /\
  raw_mcp_content_to_text (RawOne image_tag_only) = Ok (PyStr "type='image'") /\
  raw_mcp_content_to_text
    (RawMany [bare_block; text_tag_only; image_tag_only; empty_resource_block])
  = Ok (PyStr ("<object>" ++ nl ++ "type='text'" ++ nl ++ "type='image'")).
Proof. repeat split; reflexivity. Qed.

(** *** The typed blocks are the untyped ones with typed attributes *)

Lemma raw_of_block_texts_are_str (b : Block) :
  texts_are_str (raw_of_block b) = true.
Proof. destruct b as [? [?|] ? ? [[[?|] ? ?]|] ?]; reflexivity. Qed.

Lemma py_eq_str_PyStr (s tag : string) :
  py_eq_str (PyStr s) tag = String.eqb s tag.
Proof. reflexivity. Qed.

Ltac typed_block_cases item :=
  let ty := fresh "ty" in
  destruct item as [[ty|] [?|] [?|] [[|?]|] [[[?|] [?|] [[|?]|]]|] ?];
  unfold raw_append_item, raw_single_to_text, raw_is_text, raw_is_image,
         raw_type_is, append_item, single_to_text, is_text, is_image, type_is,
         raw_of_block;
  cbn;
  try (destruct (String.eqb ty "text"); cbn);
  try (destruct (String.eqb ty "image"); cbn).

Lemma raw_single_to_text_typed (b : Block) :
  raw_single_to_text (raw_of_block b)
  = rbind (single_to_text b) (fun s => Ok (PyStr s)).
Proof. typed_block_cases b; reflexivity. Qed.

Lemma raw_append_item_typed (text_parts : list string) (b : Block) :
  raw_append_item (map PyStr text_parts) (raw_of_block b)
  = rbind (append_item text_parts b) (fun parts => Ok (map PyStr parts)).
Proof.
  typed_block_cases b; rewrite ?map_app; reflexivity.
Qed.

Lemma raw_collect_parts_typed (items : list Block) :
  forall text_parts,
    raw_collect_parts (map raw_of_block items) (map PyStr text_parts)
    = rbind (collect_parts items text_parts) (fun parts => Ok (map PyStr parts)).
Proof.
  induction items as [|b rest IH]; intros text_parts;
    cbn [map raw_collect_parts collect_parts].
  - reflexivity.
  - rewrite raw_append_item_typed.
    destruct (append_item text_parts b) as [parts|e]; cbn; [apply IH|reflexivity].
Qed.

Lemma str_items_map_PyStr (strs : list string) :
  forall i, str_items i (map PyStr strs) = Ok strs.
Proof.
  induction strs as [|s rest IH]; intros i; cbn; [reflexivity|].
  now rewrite IH.
Qed.

(** On typed blocks the two embeddings of lines 151-203 agree. *)
Lemma raw_mcp_content_to_text_typed (c : content) :
  raw_mcp_content_to_text (raw_of_content c)
  = rbind (mcp_content_to_text c) (fun s => Ok (PyStr s)).
Proof.
  destruct c as [b|items]; cbn [raw_of_content raw_mcp_content_to_text mcp_content_to_text].
  - apply raw_single_to_text_typed.
  - change (@nil pyvalue) with (map PyStr []).
    rewrite raw_collect_parts_typed.
    destruct (collect_parts items []) as [[|p parts]|e]; cbn; try reflexivity.
    unfold py_join.
    change (PyStr p :: map PyStr parts) with (map PyStr (p :: parts)).
    now rewrite str_items_map_PyStr.
Qed.

End RawContentFacts.

(* ================================================================== *)
(** ** The object store *)

Section StoreFacts.

Lemma length_list_update {A : Type} (l : list A) (i : nat) (x : A) :
  List.length (list_update l i x) = List.length l.
Proof.
  revert i. induction l as [|h t IH]; intros [|i]; simpl; auto.
Qed.

Lemma nth_error_list_update_same {A : Type} (l : list A) (i : nat) (x y : A) :
  nth_error l i = Some y -> nth_error (list_update l i x) i = Some x.
Proof.
  revert i. induction l as [|h t IH]; intros [|i]; simpl; try discriminate; auto.
Qed.

Lemma nth_error_list_update_other {A : Type} (l : list A) (i j : nat) (x : A) :
  i <> j -> nth_error (list_update l i x) j = nth_error l j.
Proof.
  revert i j. induction l as [|h t IH]; intros [|i] [|j] Hne; simpl; auto.
  congruence.
Qed.

Lemma nth_error_snoc_old {A : Type} (l : list A) (i : nat) (x y : A) :
  nth_error l i = Some y -> nth_error (l ++ [x]) i = Some y.
Proof.
  intros H. rewrite nth_error_app1; auto.
  apply nth_error_Some. congruence.
Qed.

Lemma nth_error_snoc_new {A : Type} (l : list A) (x : A) :
  nth_error (l ++ [x]) (List.length l) = Some x.
Proof.
  rewrite nth_error_app2 by lia. now rewrite Nat.sub_diag.
Qed.

End StoreFacts.

(* ================================================================== *)
(** ** The sanitizer and the store *)

Module PurityFacts.
Import Wrapper.

(** A call of the sanitizer on the object at [l] changes no object of
    the store; it adds at most the new result. *)
Lemma sanitize_object_frame (l : loc) (w w' : world) (r : res loc) :
  sanitize_object l w = (r, w') ->
  (heap w' = heap w \/ exists s, heap w' = heap w ++ [s]) /\
  initialized w' = initialized w /\ calls w' = calls w /\
  constructed w' = constructed w.
Proof.
  unfold sanitize_object, bind, deref, lift, alloc, ret.
  destruct (nth_error (heap w) l) as [v|]; [|intros [= _ <-]; auto].
  destruct (is_dict v); [|intros [= _ <-]; auto].
  destruct (Sanitizer.sanitize_json_schema_for_openai v) as [s|e];
    intros [= _ <-]; cbn; eauto 6.
Qed.

Lemma sanitize_object_result (l l1 : loc) (w w1 : world) (v : json) :
  nth_error (heap w) l = Some v ->
  sanitize_object l w = (Ok l1, w1) ->
  (is_dict v = false /\ l1 = l /\ w1 = w) \/
  (exists s, is_dict v = true /\
             Sanitizer.sanitize_json_schema_for_openai v = Ok s /\
             l1 = List.length (heap w) /\ heap w1 = heap w ++ [s]).
Proof.
  intros Hv. unfold sanitize_object, bind, deref, lift, alloc, ret. rewrite Hv.
  destruct (is_dict v); [|intros [= <- <-]; now left].
  destruct (Sanitizer.sanitize_json_schema_for_openai v) as [s|e]; [|discriminate].
  intros [= <- <-]. right. exists s. cbn. auto.
Qed.

(** C4: the sanitizer is idempotent, for every value [s]: sanitizing
    the output again gives the output (and where the first pass raises
    there is no output to sanitize).  It is pure: a call leaves its
    argument and every other object of the store as they were, and two
    calls on the same input return equal documents. *)
Theorem sanitize_idempotent_and_pure :
  forall s : json,
    rbind (Sanitizer.sanitize_json_schema_for_openai s)
          Sanitizer.sanitize_json_schema_for_openai
    = Sanitizer.sanitize_json_schema_for_openai s /\
    forall (l l1 l2 : loc) (w w1 w2 : world),
      nth_error (heap w) l = Some s ->
      sanitize_object l w = (Ok l1, w1) ->
      sanitize_object l w1 = (Ok l2, w2) ->
      nth_error (heap w2) l = Some s /\
      nth_error (heap w2) l2 = nth_error (heap w2) l1 /\
      nth_error (heap w2) l1 = nth_error (heap w1) l1.
Proof.
  intros s. split; [apply SanitizerFacts.sanitize_twice|].
  intros l l1 l2 w w1 w2 Hs H1 H2.
  destruct (sanitize_object_result _ _ _ _ _ Hs H1)
    as [(Hd & -> & ->)|(r & Hd & Hr & -> & Hh1)].
  - destruct (sanitize_object_result _ _ _ _ _ Hs H2)
      as [(_ & -> & ->)|(r & Hd' & _)]; [auto|congruence].
  - assert (Hs1 : nth_error (heap w1) l = Some s)
      by (rewrite Hh1; now apply nth_error_snoc_old).
    destruct (sanitize_object_result _ _ _ _ _ Hs1 H2)
      as [(Hd' & _)|(r' & _ & Hr' & -> & Hh2)]; [congruence|].
    assert (r' = r) by congruence. subst r'.
    assert (Hr1 : nth_error (heap w1) (List.length (heap w)) = Some r)
      by (rewrite Hh1; apply nth_error_snoc_new).
    rewrite Hh2. repeat split.
    + now apply nth_error_snoc_old.
    + rewrite nth_error_snoc_new. symmetry.
      eapply nth_error_snoc_old. exact Hr1.
    + rewrite Hr1. eapply nth_error_snoc_old. exact Hr1.
Qed.

Lemma sanitize_idempotent_and_pure_witness :
  nth_error (heap Demo.world_twice) 0 = Some (JDict Demo.echo_schema) /\
  nth_error (heap Demo.world_twice) 2 = nth_error (heap Demo.world_twice) 1 /\
  nth_error (heap Demo.world_twice) 1 = nth_error (heap Demo.world_once) 1.
Proof.
  apply (proj2 (sanitize_idempotent_and_pure (JDict Demo.echo_schema))
               0 1 2 Demo.world0 Demo.world_once Demo.world_twice).
  - reflexivity.
  - reflexivity.
  - reflexivity.
Defined.

End PurityFacts.

(* ================================================================== *)
(** ** Aggregator creation *)

Module LifecycleFacts.
Import Lifecycle.

(** C9: creating an aggregator with an empty server list raises the
    error "No MCP servers specified" and leaves the world as it was: no
    context and no aggregator has been built. *)
Theorem create_without_servers_fails_fast :
  forall (run_context : RunContextWrapper) (name : string)
         (server_registry : option ServerRegistry) (persistence : bool)
         (w : world),
    exists w',
      create_mcp_aggregator run_context name [] server_registry persistence w
      = (Raise (RuntimeError "No MCP servers specified. No MCP aggregator created."), w')
      /\ w' = w /\ builds_nothing w w'.
Proof.
  intros run_context name server_registry persistence w.
  exists w. split; [reflexivity|]. split; reflexivity.
Qed.

(** With servers and a registry at hand, a context and then the
    aggregator are built. *)
Lemma create_with_servers_builds (run_context : RunContextWrapper)
    (name server : string) (servers : list string)
    (registry : ServerRegistry) (persistence : bool) (w : world) :
  exists a w',
    create_mcp_aggregator run_context name (server :: servers) (Some registry)
                          persistence w = (Ok a, w') /\
    server_names a = server :: servers /\
    agent_name a = name /\
    constructed w' =
      constructed w ++ [BuiltContext (mkContext registry); BuiltAggregator a].
Proof.
  eexists. eexists. split; [reflexivity|].
  cbn. repeat split. now rewrite <- app_assoc.
Qed.

End LifecycleFacts.

(* ================================================================== *)
(** ** The tool wrapper factory *)

Module WrapperFacts.
Import Lifecycle Wrapper.

Section Environment.
Variable json_loads : string -> res json.
Variable transform_string_function_style : string -> string.
Variable remote_call_tool :
  list call -> MCPAggregator -> string -> dict -> res CallToolResult.
Variable remote_list_tools : MCPAggregator -> res (list MCPTool).

Local Notation wrapper_fn := (wrapper_fn remote_call_tool).
Local Notation tool_body :=
  (tool_body json_loads transform_string_function_style remote_call_tool).
Local Notation bound_to :=
  (bound_to json_loads transform_string_function_style remote_call_tool).
Local Notation mcp_tool_to_function_tool :=
  (mcp_tool_to_function_tool json_loads transform_string_function_style remote_call_tool).
Local Notation convert_tools :=
  (convert_tools json_loads transform_string_function_style remote_call_tool).
Local Notation mcp_list_tools :=
  (mcp_list_tools json_loads transform_string_function_style remote_call_tool
                  remote_list_tools).

(** *** The guard of [wrapper_fn] *)

Lemma wrapper_fn_not_initialized (a : MCPAggregator) (name : string)
    (ctx : RunContextWrapper) (kwargs : dict) (w : world) :
  is_initialized w a = false ->
  wrapper_fn (Some a) name ctx kwargs w =
  (Raise (RuntimeError ("MCP aggregator not initialized for agent " ++ agent_name a)), w).
Proof.
  intros H. unfold Wrapper.wrapper_fn, bind, not_initialized. rewrite H. reflexivity.
Qed.

Lemma wrapper_fn_initialized (a : MCPAggregator) (name : string)
    (ctx : RunContextWrapper) (kwargs : dict) (w : world) :
  is_initialized w a = true ->
  exists r, wrapper_fn (Some a) name ctx kwargs w = (r, after_call w a name kwargs).
Proof.
  intros H. unfold Wrapper.wrapper_fn, bind, not_initialized, call_tool.
  rewrite H. cbn [negb].
  fold (after_call w a name kwargs).
  destruct (remote_call_tool (calls w) a name kwargs) as [[[[|]|] [c|] str]|e];
    cbn; unfold lift, bind, raise, ret; cbn;
    try destruct (Content.mcp_content_to_text c); eauto.
Qed.

(** Whatever [wrapper_fn] does, it makes no call or the one call with
    its own tool name, and that only on an initialized aggregator. *)
Lemma wrapper_fn_calls (agg : option MCPAggregator) (name : string)
    (ctx : RunContextWrapper) (kwargs : dict) (w w' : world) (r : res string) :
  wrapper_fn agg name ctx kwargs w = (r, w') ->
  w' = w \/
  exists a, agg = Some a /\ is_initialized w a = true /\
            w' = after_call w a name kwargs.
Proof.
  destruct agg as [a|].
  - destruct (is_initialized w a) eqn:Ei.
    + destruct (wrapper_fn_initialized a name ctx kwargs w Ei) as [r0 ->].
      intros [= _ <-]. right. eauto.
    + rewrite wrapper_fn_not_initialized by assumption. intros [= _ <-]. now left.
  - cbn. intros [= _ <-]. now left.
Qed.

(** *** The closure of a bound tool *)

Lemma tool_body_eq (t : MCPTool) (agg : option MCPAggregator)
    (ctx : RunContextWrapper) (arguments_json : string) (w : world) :
  tool_body t agg ctx arguments_json w =
  match json_loads arguments_json with
  | Raise e => (Raise e, w)
  | Ok args =>
      match unpack_kwargs args with
      | Raise e => (Raise e, w)
      | Ok kwargs => wrapper_fn agg (tool_name t) ctx kwargs w
      end
  end.
Proof.
  unfold Wrapper.tool_body, invoke_body, bind, lift.
  destruct (json_loads arguments_json) as [args|e]; [|reflexivity].
  destruct (unpack_kwargs args) as [kwargs|e]; reflexivity.
Qed.

Lemma tool_body_calls (t : MCPTool) (agg : option MCPAggregator)
    (ctx : RunContextWrapper) (arguments_json : string) (w w' : world)
    (r : res string) :
  tool_body t agg ctx arguments_json w = (r, w') ->
  w' = w \/
  exists a kwargs, agg = Some a /\ is_initialized w a = true /\
                   w' = after_call w a (tool_name t) kwargs.
Proof.
  rewrite tool_body_eq.
  destruct (json_loads arguments_json) as [args|e]; [|intros [= _ <-]; now left].
  destruct (unpack_kwargs args) as [kwargs|e]; [|intros [= _ <-]; now left].
  intros H. apply wrapper_fn_calls in H as [->|(a & -> & Hi & ->)]; [now left|].
  right. eauto.
Qed.

Lemma tool_body_calls_remote (t : MCPTool) (a : MCPAggregator)
    (ctx : RunContextWrapper) (arguments_json : string) (kwargs : dict)
    (w : world) :
  is_initialized w a = true ->
  json_loads arguments_json = Ok (JDict kwargs) ->
  existsb (String.eqb "ctx") (keys kwargs) = false ->
  exists r, tool_body t (Some a) ctx arguments_json w
            = (r, after_call w a (tool_name t) kwargs).
Proof.
  intros Hi Hj Hc. rewrite tool_body_eq, Hj. cbn [unpack_kwargs]. rewrite Hc.
  now apply wrapper_fn_initialized.
Qed.

Lemma bound_to_invoke (agg : option MCPAggregator) (t : MCPTool)
    (ft : FunctionTool) (ctx : RunContextWrapper) (arguments_json : string)
    (w w' : world) (r : res string) :
  bound_to agg t ft ->
  tool_body t agg ctx arguments_json w = (r, w') ->
  on_invoke_tool ft ctx arguments_json w = (caught r, w').
Proof.
  intros (_ & _ & ->) Hb. unfold try_except_Exception. rewrite Hb.
  destruct r as [s|e]; cbn; [reflexivity|].
  destruct (isinstance_Exception e); reflexivity.
Qed.

Lemma wrap_bound (t : MCPTool) (agg : option MCPAggregator)
    (w w' : world) (ft : FunctionTool) :
  mcp_tool_to_function_tool t agg w = (Ok ft, w') -> bound_to agg t ft.
Proof.
  unfold Wrapper.mcp_tool_to_function_tool, bind.
  destruct (alloc default_schema w) as [[l0|e0] w0]; [|discriminate].
  destruct (setitem _ _ _ w0) as [[[]|e1] w1]; [|discriminate].
  destruct (sanitize_object _ w1) as [[l2|e2] w2]; [|discriminate].
  intros [= <- _]. repeat split.
Qed.

(** C1, as the code has it: for every bound tool made by the factory,
    an exception of the class [Exception] raised in the closure's body
    (parsing the arguments, the guard, the remote call, the
    remote-error branch, normalizing the result) is caught and the
    invocation returns the string [Error (<kind>): <message>], with
    [<kind>] the name of the exception's type; what the invocation
    still raises is never an instance of [Exception].  (An exception
    outside that class passes through [except Exception].) *)
Theorem bound_tool_catches_Exception :
  forall (t : MCPTool) (agg : option MCPAggregator) (w0 w1 : world)
         (ft : FunctionTool) (ctx : RunContextWrapper) (arguments_json : string)
         (w w' : world) (r : res string),
    mcp_tool_to_function_tool t agg w0 = (Ok ft, w1) ->
    tool_body t agg ctx arguments_json w = (r, w') ->
    on_invoke_tool ft ctx arguments_json w = (caught r, w') /\
    match caught r with
    | Ok _ => True
    | Raise e => isinstance_Exception e = false
    end.
Proof.
  intros t agg w0 w1 ft ctx arguments_json w w' r Hwrap Hbody.
  split.
  - eapply bound_to_invoke; [eapply wrap_bound|]; eassumption.
  - destruct r as [s|e]; cbn; [exact I|].
    destruct (isinstance_Exception e) eqn:Ee; [exact I|exact Ee].
Qed.

(** C7, the absent aggregator: the guard is entered, but building the
    message reads [server_aggregator.agent_name] on [None]; what is
    raised is this [AttributeError], not the [RuntimeError] of an
    aggregator that is not initialized.  No call is made. *)
Theorem absent_aggregator_raises_AttributeError :
  forall (name : string) (ctx : RunContextWrapper) (kwargs : dict) (w : world),
    wrapper_fn None name ctx kwargs w =
    (Raise (AttributeError "'NoneType' object has no attribute 'agent_name'"), w).
Proof. intros name ctx kwargs w. reflexivity. Qed.

(** *** One listing, many closures *)

Lemma convert_tools_bound (tools : list MCPTool) (agg : option MCPAggregator) :
  forall (acc : list FunctionTool) (w w' : world) (fts : list FunctionTool),
    convert_tools tools agg acc w = (Ok fts, w') ->
    exists made, fts = acc ++ made /\ Forall2 (bound_to agg) tools made.
Proof.
  induction tools as [|t rest IH]; intros acc w w' fts; cbn [Wrapper.convert_tools].
  - intros [= <- _]. exists []. split; [now rewrite app_nil_r|constructor].
  - unfold bind at 1.
    destruct (mcp_tool_to_function_tool t agg w) as [[ft|e] w1] eqn:Et; [|discriminate].
    intros H. apply IH in H as (made & -> & Hall).
    exists (ft :: made). split; [now rewrite <- app_assoc|].
    constructor; [eapply wrap_bound; eauto|exact Hall].
Qed.

Lemma mcp_list_tools_bound (a : MCPAggregator) (tools : list MCPTool)
    (w w' : world) (fts : list FunctionTool) :
  remote_list_tools a = Ok tools ->
  mcp_list_tools (Some a) w = (Ok fts, w') ->
  Forall2 (bound_to (Some a)) tools fts.
Proof.
  intros Hl. unfold Wrapper.mcp_list_tools, bind at 1, not_initialized.
  destruct (is_initialized w a); cbn [negb]; [|discriminate].
  unfold bind at 1, lift. rewrite Hl.
  intros H. apply convert_tools_bound in H as (made & -> & Hall). exact Hall.
Qed.

Lemma Forall2_nth_error_both {A B : Type} (R : A -> B -> Prop)
    (l : list A) (l' : list B) (i : nat) (x : A) (y : B) :
  Forall2 R l l' -> nth_error l i = Some x -> nth_error l' i = Some y -> R x y.
Proof.
  intros H. revert i. induction H as [|a b l l' Hab _ IH]; intros [|i]; cbn;
    try discriminate.
  - now intros [= ->] [= ->].
  - apply IH.
Qed.

(** C8: of the tools wrapped from one listing against one aggregator,
    the bound tool of [B] carries the name of [B], and invoking it
    makes no remote call but with the name of [B], never with the name
    of another tool [A] of the listing; on an initialized aggregator
    and with arguments that parse to a mapping, it makes exactly that
    one call. *)
Theorem closure_isolation :
  forall (a : MCPAggregator) (tools : list MCPTool) (w0 w1 : world)
         (fts : list FunctionTool) (j : nat) (A B : MCPTool) (ftB : FunctionTool)
         (ctx : RunContextWrapper) (arguments_json : string)
         (w w' : world) (r : res string),
    remote_list_tools a = Ok tools ->
    mcp_list_tools (Some a) w0 = (Ok fts, w1) ->
    In A tools ->
    nth_error tools j = Some B ->
    nth_error fts j = Some ftB ->
    tool_name A <> tool_name B ->
    on_invoke_tool ftB ctx arguments_json w = (r, w') ->
    ft_name ftB = tool_name B /\
    ft_description ftB =
      or_default (tool_description B) ("MCP tool: " ++ tool_name B) /\
    exists added,
      calls_added w w' added /\
      Forall (fun c => call_name c = tool_name B /\ call_name c <> tool_name A) added /\
      (forall kwargs,
          is_initialized w a = true ->
          json_loads arguments_json = Ok (JDict kwargs) ->
          existsb (String.eqb "ctx") (keys kwargs) = false ->
          added = [mkCall (agg_id a) (tool_name B) kwargs]).
Proof.
  intros a tools w0 w1 fts j A B ftB ctx arguments_json w w' r
         Hlist Hrun _ HB HftB Hne Hinv.
  pose proof (mcp_list_tools_bound _ _ _ _ _ Hlist Hrun) as Hall.
  pose proof (Forall2_nth_error_both _ _ _ _ _ _ Hall HB HftB) as Hb.
  destruct Hb as (Hname & Hdesc & Hclo). split; [exact Hname|]. split; [exact Hdesc|].
  destruct (tool_body B (Some a) ctx arguments_json w) as [r0 w0'] eqn:Hbody.
  assert (Hb : bound_to (Some a) B ftB) by (repeat split; assumption).
  rewrite (bound_to_invoke _ _ _ _ _ _ _ _ Hb Hbody) in Hinv.
  injection Hinv as _ <-.
  destruct (tool_body_calls _ _ _ _ _ _ _ Hbody) as [->|(a' & kwargs & Ha & Hi & ->)].
  - exists []. split; [unfold calls_added; now rewrite app_nil_r|].
    split; [constructor|].
    intros kwargs Hi Hj Hc.
    destruct (tool_body_calls_remote B a ctx arguments_json kwargs w Hi Hj Hc) as [r1 H1].
    rewrite Hbody in H1. injection H1 as _ H1.
    apply (f_equal calls) in H1. cbn in H1.
    rewrite <- (app_nil_r (calls w)) in H1 at 1.
    apply app_inv_head in H1. discriminate.
  - injection Ha as <-.
    exists [mkCall (agg_id a) (tool_name B) kwargs]. split; [reflexivity|].
    split; [constructor; [split; [reflexivity|cbn; congruence]|constructor]|].
    intros kwargs' Hi' Hj Hc.
    destruct (tool_body_calls_remote B a ctx arguments_json kwargs' w Hi' Hj Hc) as [r1 H1].
    rewrite Hbody in H1. injection H1 as _ H1.
    apply app_inv_head in H1. exact H1.
Qed.

(** *** The schema of the descriptor *)

(** The write to the descriptor's schema, and what follows it. *)
Lemma wrap_steps (t : MCPTool) (agg : option MCPAggregator) (l : loc)
    (d : dict) (w : world) :
  tool_inputSchema t = Some l ->
  nth_error (heap w) l = Some (JDict d) ->
  let d' := dict_set d "additionalProperties" (JBool false) in
  let h1 := list_update (heap w ++ [default_schema]) l (JDict d') in
  nth_error h1 l = Some (JDict d') /\
  match Sanitizer.sanitize_json_schema_for_openai (JDict d') with
  | Raise e =>
      mcp_tool_to_function_tool t agg w =
      (Raise e, mkWorld h1 (initialized w) (calls w) (constructed w))
  | Ok s =>
      exists ft,
        mcp_tool_to_function_tool t agg w =
        (Ok ft, mkWorld (h1 ++ [s]) (initialized w) (calls w) (constructed w)) /\
        params_json_schema ft = List.length h1
  end.
Proof.
  intros Hs Hl d' h1.
  assert (Hl0 : nth_error (heap w ++ [default_schema]) l = Some (JDict d))
    by (now apply nth_error_snoc_old).
  assert (Hl1 : nth_error h1 l = Some (JDict d'))
    by (eapply nth_error_list_update_same; eassumption).
  split; [exact Hl1|].
  unfold Wrapper.mcp_tool_to_function_tool, bind, alloc, setitem, sanitize_object,
         bind, deref, lift.
  rewrite Hs. cbn [Content.getattr_default heap initialized calls constructed].
  rewrite Hl0. cbn [heap initialized calls constructed].
  fold d'. fold h1. rewrite Hl1. cbn [is_dict].
  destruct (Sanitizer.sanitize_json_schema_for_openai (JDict d')) as [s|e].
  - eexists. split; reflexivity.
  - reflexivity.
Qed.

(** C10: when the descriptor carries a schema, wrapping writes
    [additionalProperties = False] into that very dict, so the caller's
    object holds it afterwards; the schema of the returned bound tool
    is another object, newly made, holding the sanitized document. *)
Theorem wrapping_writes_into_the_descriptor_schema :
  forall (t : MCPTool) (agg : option MCPAggregator) (l : loc) (d : dict)
         (w w' : world) (ft : FunctionTool),
    tool_inputSchema t = Some l ->
    nth_error (heap w) l = Some (JDict d) ->
    mcp_tool_to_function_tool t agg w = (Ok ft, w') ->
    nth_error (heap w') l =
      Some (JDict (dict_set d "additionalProperties" (JBool false))) /\
    dict_get (dict_set d "additionalProperties" (JBool false))
             "additionalProperties" = Some (JBool false) /\
    params_json_schema ft <> l /\
    nth_error (heap w) (params_json_schema ft) = None /\
    exists s,
      Sanitizer.sanitize_json_schema_for_openai
        (JDict (dict_set d "additionalProperties" (JBool false))) = Ok s /\
      nth_error (heap w') (params_json_schema ft) = Some s.
Proof.
  intros t agg l d w w' ft Hs Hl Hwrap.
  destruct (wrap_steps t agg l d w Hs Hl) as [Hl1 Hrun]. cbn zeta in Hl1, Hrun.
  assert (Hlt : l < List.length (heap w)) by (apply nth_error_Some; congruence).
  destruct (Sanitizer.sanitize_json_schema_for_openai _) as [s|e] eqn:Es.
  - destruct Hrun as (ft0 & Hrun & Hloc). rewrite Hrun in Hwrap.
    injection Hwrap as <- <-. cbn [heap].
    rewrite Hloc, length_list_update, length_app. cbn [List.length].
    split; [eapply nth_error_snoc_old; exact Hl1|].
    split; [apply dict_get_set_same|].
    split; [lia|].
    split; [apply nth_error_None; lia|].
    exists s. split; [reflexivity|].
    replace (List.length (heap w) + 1)
      with (List.length (list_update (heap w ++ [default_schema]) l
              (JDict (dict_set d "additionalProperties" (JBool false)))))
      by (rewrite length_list_update, length_app; reflexivity).
    apply nth_error_snoc_new.
  - rewrite Hrun in Hwrap. discriminate.
Qed.

(** The write stays when the sanitizer raises afterwards. *)
Lemma write_stays_when_sanitizer_raises (t : MCPTool)
    (agg : option MCPAggregator) (l : loc) (d : dict) (w w' : world) (e : exn) :
  tool_inputSchema t = Some l ->
  nth_error (heap w) l = Some (JDict d) ->
  mcp_tool_to_function_tool t agg w = (Raise e, w') ->
  nth_error (heap w') l =
    Some (JDict (dict_set d "additionalProperties" (JBool false))).
Proof.
  intros Hs Hl Hwrap.
  destruct (wrap_steps t agg l d w Hs Hl) as [Hl1 Hrun]. cbn zeta in Hl1, Hrun.
  destruct (Sanitizer.sanitize_json_schema_for_openai _) as [s|e'].
  - destruct Hrun as (ft0 & Hrun & _). rewrite Hrun in Hwrap. discriminate.
  - rewrite Hrun in Hwrap. injection Hwrap as _ <-. exact Hl1.
Qed.

End Environment.

(** *** The claims at work in the small deployment *)

Lemma bound_tool_catches_Exception_witness :
  on_invoke_tool (Demo.wrapped Demo.gone (Some Demo.aggregator))
                 Demo.run_context "{}" Demo.world1
  = (Ok "Error (ConnectionError): connection lost",
     after_call Demo.world1 Demo.aggregator "gone" []) /\
  True.
Proof.
  apply (bound_tool_catches_Exception
           Demo.json_loads Demo.transform_string_function_style
           Demo.remote_call_tool
           Demo.gone (Some Demo.aggregator) Demo.world0
           (Demo.world_after Demo.gone (Some Demo.aggregator))
           (Demo.wrapped Demo.gone (Some Demo.aggregator))
           Demo.run_context "{}" Demo.world1
           (after_call Demo.world1 Demo.aggregator "gone" [])
           (Raise Demo.ConnectionError)).
  - reflexivity.
  - reflexivity.
Defined.

(** C1 as worded fails: the remote call is cancelled while awaited;
    [CancelledError] is not an [Exception], the handler does not apply,
    and the invocation raises it to its caller. *)
Lemma cancelled_call_propagates :
  Demo.wrapping Demo.slow (Some Demo.aggregator)
  = (Ok (Demo.wrapped Demo.slow (Some Demo.aggregator)),
     Demo.world_after Demo.slow (Some Demo.aggregator)) /\
  on_invoke_tool (Demo.wrapped Demo.slow (Some Demo.aggregator))
                 Demo.run_context "{}" Demo.world1
  = (Raise Demo.CancelledError,
     after_call Demo.world1 Demo.aggregator "slow" []).
Proof. split; reflexivity. Qed.

Lemma closure_isolation_witness :
  ft_name Demo.bound_echo = tool_name Demo.echo /\
  ft_description Demo.bound_echo =
    or_default (tool_description Demo.echo) ("MCP tool: " ++ tool_name Demo.echo) /\
  exists added,
    calls_added Demo.world1 (after_call Demo.world1 Demo.aggregator "echo" []) added /\
    Forall (fun c => call_name c = tool_name Demo.echo /\
                     call_name c <> tool_name Demo.fail) added /\
    (forall kwargs,
        is_initialized Demo.world1 Demo.aggregator = true ->
        Demo.json_loads "{}" = Ok (JDict kwargs) ->
        existsb (String.eqb "ctx") (keys kwargs) = false ->
        added = [mkCall (agg_id Demo.aggregator) (tool_name Demo.echo) kwargs]).
Proof.
  apply (closure_isolation
           Demo.json_loads Demo.transform_string_function_style
           Demo.remote_call_tool Demo.remote_list_tools
           Demo.aggregator [Demo.echo; Demo.fail; Demo.slow; Demo.gone]
           Demo.world0 Demo.world1 Demo.bound_tools
           0 Demo.fail Demo.echo Demo.bound_echo
           Demo.run_context "{}" Demo.world1
           (after_call Demo.world1 Demo.aggregator "echo" [])
           (Ok "pong")).
  - reflexivity.
  - reflexivity.
  - simpl; tauto.
  - reflexivity.
  - reflexivity.
  - discriminate.
  - reflexivity.
Defined.

Lemma wrapping_writes_into_the_descriptor_schema_witness :
  nth_error (heap (Demo.world_after Demo.echo (Some Demo.aggregator))) 0 =
    Some (JDict (dict_set Demo.echo_schema "additionalProperties" (JBool false))) /\
  dict_get (dict_set Demo.echo_schema "additionalProperties" (JBool false))
           "additionalProperties" = Some (JBool false) /\
  params_json_schema (Demo.wrapped Demo.echo (Some Demo.aggregator)) <> 0 /\
  nth_error (heap Demo.world0)
            (params_json_schema (Demo.wrapped Demo.echo (Some Demo.aggregator))) = None /\
  exists s,
    Sanitizer.sanitize_json_schema_for_openai
      (JDict (dict_set Demo.echo_schema "additionalProperties" (JBool false))) = Ok s /\
    nth_error (heap (Demo.world_after Demo.echo (Some Demo.aggregator)))
              (params_json_schema (Demo.wrapped Demo.echo (Some Demo.aggregator)))
    = Some s.
Proof.
  apply (wrapping_writes_into_the_descriptor_schema
           Demo.json_loads Demo.transform_string_function_style
           Demo.remote_call_tool
           Demo.echo (Some Demo.aggregator) 0 Demo.echo_schema Demo.world0
           (Demo.world_after Demo.echo (Some Demo.aggregator))
           (Demo.wrapped Demo.echo (Some Demo.aggregator))).
  - reflexivity.
  - reflexivity.
  - reflexivity.
Defined.

(** The outcomes of the four tools of the listing. *)
Example echo_answers :
  fst (on_invoke_tool Demo.bound_echo Demo.run_context "{}" Demo.world1) = Ok "pong".
Proof. reflexivity. Qed.

Example remote_error_becomes_text :
  fst (on_invoke_tool Demo.bound_fail Demo.run_context "{}" Demo.world1)
  = Ok "Error (RuntimeError): Error calling MCP tool 'fail': boom".
Proof. reflexivity. Qed.

Example parse_failure_becomes_text :
  on_invoke_tool Demo.bound_echo Demo.run_context "oops" Demo.world1
  = (Ok "Error (JSONDecodeError): Expecting value: line 1 column 1 (char 0)",
     Demo.world1).
Proof. reflexivity. Qed.

(** An aggregator that is not initialized: the text of the
    [RuntimeError], and no call. *)
Example not_initialized_becomes_text :
  on_invoke_tool Demo.bound_echo Demo.run_context "{}" Demo.world_down
  = (Ok "Error (RuntimeError): MCP aggregator not initialized for agent assistant",
     Demo.world_down).
Proof. reflexivity. Qed.

(** No aggregator: the text of the [AttributeError], and no call. *)
Example absent_aggregator_becomes_text :
  on_invoke_tool (Demo.wrapped Demo.echo None) Demo.run_context "{}" Demo.world1
  = (Ok "Error (AttributeError): 'NoneType' object has no attribute 'agent_name'",
     Demo.world1).
Proof. reflexivity. Qed.

End WrapperFacts.

(* ================================================================== *)
(** * Further properties *)

(** ** The sanitizer: what it raises, what it keeps *)

Module SanitizerMore.
Import Sanitizer Vocabulary.

Section Raising.
Variable bound : nat.
Hypothesis IH : forall u, json_size u < bound ->
  forall e, sanitize_json_schema_for_openai u = Raise e -> no_keys_error e.

Lemma elems_raise (l : list json) (e : exn) :
  (forall x, In x l -> json_size x < bound) ->
  sanitize_elems sanitize_json_schema_for_openai l = Raise e -> no_keys_error e.
Proof.
  induction l as [|x t IHl]; cbn [sanitize_elems]; intros Hb H; [discriminate|].
  destruct (sanitize_item _ x) as [x'|ex] eqn:Ex.
  - destruct (sanitize_elems _ t) as [t'|et]; [discriminate|].
    injection H as <-. apply IHl; auto. intros; apply Hb; now right.
  - injection H as <-. destruct x; unfold sanitize_item in Ex; try discriminate.
    eapply IH; [|exact Ex]. apply Hb. now left.
Qed.

Lemma value_raise (v : json) (e : exn) :
  json_size v < bound ->
  (forall l x, v = JList l -> In x l -> json_size x < bound) ->
  sanitize_value sanitize_json_schema_for_openai v = Raise e -> no_keys_error e.
Proof.
  intros Hb Hl H. destruct v; unfold sanitize_value in H; try discriminate.
  - destruct (sanitize_elems _ l) as [l'|el] eqn:El; [discriminate|].
    injection H as <-. eapply elems_raise; [|exact El]. intros; eapply Hl; eauto.
  - eapply IH; eauto.
Qed.

Lemma loop_raise (items : dict) :
  (forall k v, In (k, v) items -> json_size v < bound) ->
  (forall k l x, In (k, JList l) items -> In x l -> json_size x < bound) ->
  forall acc e,
    sanitize_loop sanitize_json_schema_for_openai items acc = Raise e ->
    no_keys_error e.
Proof.
  induction items as [|[k v] rest IHr]; cbn [sanitize_loop]; intros Hb Hl acc e H;
    [discriminate|].
  assert (Hb' : forall k0 v0, In (k0, v0) rest -> json_size v0 < bound)
    by (intros; eapply Hb; right; eauto).
  assert (Hl' : forall k0 l x, In (k0, JList l) rest -> In x l -> json_size x < bound)
    by (intros; eapply Hl; [right|]; eauto).
  destruct (unsupported k); [eapply IHr; eauto|].
  destruct (sanitize_value _ v) as [v'|ev] eqn:Ev; [eapply IHr; eauto|].
  injection H as <-. eapply value_raise; [| |exact Ev]; [eapply Hb; now left|].
  intros l x -> Hx. eapply Hl; [now left|exact Hx].
Qed.
End Raising.

Lemma complete_required_raise (result : dict) (e : exn) :
  complete_required result = Raise e -> no_keys_error e.
Proof.
  unfold complete_required.
  destruct (is_object_with_properties result); [|discriminate].
  destruct (dict_get result "properties") as [p|]; [|discriminate].
  destruct p as [| | | | | |props] eqn:Ep; cbn [py_keys];
    try (intros [= <-]; exists p; subst p; split; reflexivity).
  destruct (keys props); discriminate.
Qed.

Lemma sanitize_raise (s : json) (e : exn) :
  sanitize_json_schema_for_openai s = Raise e -> no_keys_error e.
Proof.
  revert e. induction s as [s IHs] using json_size_ind. intros e H.
  destruct s as [| | | | | |items]; try discriminate.
  rewrite SanitizerFacts.sanitize_dict_eq in H.
  destruct (sanitize_loop _ items []) as [result|el] eqn:El.
  - eapply complete_required_raise; eauto.
  - injection H as <-.
    eapply (loop_raise (json_size (JDict items))); [| | |exact El].
    + exact IHs.
    + intros k v Hin. eapply json_size_field; eauto.
    + intros k l x Hin Hx. apply json_size_field in Hin.
      apply json_size_elem in Hx. lia.
Qed.

(** The recursion itself, taken without the limit of the stack, raises
    nothing but the [AttributeError] of [.keys()] called on a
    [properties] value that is not a dict. *)
Lemma sanitize_raises_only_no_keys :
  forall (s : json) (e : exn),
    sanitize_json_schema_for_openai s = Raise e ->
    exn_name e = "AttributeError" /\ isinstance_Exception e = true /\
    exists v : json,
      is_dict v = false /\
      exn_str e = ("'" ++ py_type_name v ++ "' object has no attribute 'keys'")%string.
Proof.
  intros s e H. destruct (sanitize_raise s e H) as (v & Hv & ->).
  split; [reflexivity|]. split; [reflexivity|]. exists v. split; [exact Hv|reflexivity].
Qed.

Lemma sanitize_raises_only_no_keys_witness :
  exn_name (AttributeError "'list' object has no attribute 'keys'") = "AttributeError" /\
  isinstance_Exception (AttributeError "'list' object has no attribute 'keys'") = true /\
  exists v : json,
    is_dict v = false /\
    exn_str (AttributeError "'list' object has no attribute 'keys'")
    = ("'" ++ py_type_name v ++ "' object has no attribute 'keys'")%string.
Proof.
  apply (sanitize_raises_only_no_keys
           (JDict [("anyOf",
                    JList [JDict [("type", JStr "object"); ("properties", JList [])]])])).
  reflexivity.
Defined.

(** *** When it returns *)

Lemma properties_are_maps_dict (d : dict) :
  properties_are_maps (JDict d) =
  forallb (fun kv =>
             (negb (String.eqb (fst kv) "properties") || is_dict (snd kv))
             && properties_are_maps (snd kv)) d.
Proof. reflexivity. Qed.

Lemma properties_are_maps_list (l : list json) :
  properties_are_maps (JList l) = forallb properties_are_maps l.
Proof. reflexivity. Qed.

Section Returning.
Variable bound : nat.
Hypothesis IH : forall u, json_size u < bound ->
  properties_are_maps u = true ->
  exists r, sanitize_json_schema_for_openai u = Ok r.

Lemma elems_return (l : list json) :
  (forall x, In x l -> json_size x < bound) ->
  forallb properties_are_maps l = true ->
  exists l', sanitize_elems sanitize_json_schema_for_openai l = Ok l'.
Proof.
  induction l as [|x t IHl]; cbn [sanitize_elems forallb]; intros Hb Hp; [eauto|].
  apply andb_true_iff in Hp as [Hx Ht].
  destruct IHl as [t' ->]; [intros; apply Hb; now right|exact Ht|].
  assert (Ex : exists x', sanitize_item sanitize_json_schema_for_openai x = Ok x').
  { destruct x; unfold sanitize_item; eauto. apply IH; [apply Hb; now left|exact Hx]. }
  destruct Ex as [x' ->]. eauto.
Qed.

Lemma value_return (v : json) :
  json_size v < bound ->
  (forall l x, v = JList l -> In x l -> json_size x < bound) ->
  properties_are_maps v = true ->
  exists v', sanitize_value sanitize_json_schema_for_openai v = Ok v' /\
             (is_dict v = true -> is_dict v' = true).
Proof.
  intros Hb Hl Hp. destruct v; unfold sanitize_value;
    try (eexists; split; [reflexivity|discriminate]).
  - destruct (elems_return l) as [l' ->];
      [intros; eapply Hl; eauto | exact Hp |].
    eexists; split; [reflexivity|discriminate].
  - destruct (IH (JDict d) Hb Hp) as [r Hr]. exists r. split; [exact Hr|].
    intros _. eapply SanitizerFacts.sanitize_dict_is_dict; eauto.
Qed.

Lemma loop_return (items : dict) :
  (forall k v, In (k, v) items -> json_size v < bound) ->
  (forall k l x, In (k, JList l) items -> In x l -> json_size x < bound) ->
  properties_are_maps (JDict items) = true ->
  forall acc,
    properties_is_dict acc ->
    exists result,
      sanitize_loop sanitize_json_schema_for_openai items acc = Ok result /\
      properties_is_dict result.
Proof.
  induction items as [|[k v] rest IHr]; cbn [sanitize_loop]; intros Hb Hl Hp acc Hacc;
    [eauto|].
  rewrite properties_are_maps_dict in Hp. cbn [forallb fst snd] in Hp.
  apply andb_true_iff in Hp as [Hkv Hrest].
  apply andb_true_iff in Hkv as [Hk Hv].
  assert (Hb' : forall k0 v0, In (k0, v0) rest -> json_size v0 < bound)
    by (intros; eapply Hb; right; eauto).
  assert (Hl' : forall k0 l x, In (k0, JList l) rest -> In x l -> json_size x < bound)
    by (intros; eapply Hl; [right|]; eauto).
  destruct (unsupported k); [apply IHr; auto|].
  destruct (value_return v) as (v' & -> & Hd);
    [eapply Hb; now left | intros l x -> Hx; eapply Hl; [now left|exact Hx] | exact Hv |].
  apply IHr; auto.
  intros p Hget. destruct (String.eqb_spec k "properties") as [->|Hne].
  - rewrite dict_get_set_same in Hget. injection Hget as <-.
    apply Hd. cbn in Hk. exact Hk.
  - rewrite dict_get_set_other in Hget by assumption. now apply Hacc.
Qed.
End Returning.

Lemma complete_required_return (result : dict) :
  properties_is_dict result -> exists r, complete_required result = Ok r.
Proof.
  intros Hp. unfold complete_required.
  destruct (is_object_with_properties result); [|eauto].
  destruct (dict_get result "properties") as [p|] eqn:Ep; [|eauto].
  specialize (Hp p Ep). destruct p; try discriminate. cbn [py_keys].
  destruct (keys d); eauto.
Qed.

(** On a schema in which every value stored under [properties], at
    any depth, is a mapping, the recursion, taken without the limit of
    the stack, raises nothing. *)
Lemma sanitize_returns_on_mapped_properties :
  forall s : json,
    properties_are_maps s = true ->
    exists r, sanitize_json_schema_for_openai s = Ok r.
Proof.
  induction s as [s IHs] using json_size_ind. intros Hp.
  destruct s as [| | | | | |items]; try (eexists; reflexivity).
  rewrite SanitizerFacts.sanitize_dict_eq.
  destruct (loop_return (json_size (JDict items)) IHs items) with (acc := @nil (string * json))
    as (result & -> & Hres).
  - intros k v Hin. eapply json_size_field; eauto.
  - intros k l x Hin Hx. apply json_size_field in Hin.
    apply json_size_elem in Hx. lia.
  - exact Hp.
  - intros p Hget. discriminate.
  - now apply complete_required_return.
Qed.

Lemma sanitize_returns_on_mapped_properties_witness :
  exists r, sanitize_json_schema_for_openai (JDict Demo.person_schema) = Ok r.
Proof.
  apply (sanitize_returns_on_mapped_properties (JDict Demo.person_schema)).
  reflexivity.
Defined.

(** *** The keys of the output *)

Lemma keys_app (a b : dict) : keys (a ++ b) = keys a ++ keys b.
Proof. unfold keys. apply map_app. Qed.

Lemma loop_keys (items : dict) :
  forall acc result,
    NoDup (keys acc ++ keys items) ->
    sanitize_loop sanitize_json_schema_for_openai items acc = Ok result ->
    keys result = keys acc ++ filter supported (keys items).
Proof.
  induction items as [|[k v] rest IHr]; cbn [sanitize_loop]; intros acc result Hnd H.
  - injection H as <-. cbn. now rewrite app_nil_r.
  - cbn [keys map fst] in Hnd. fold (keys rest) in Hnd.
    cbn [keys map fst filter]. fold (keys rest). unfold supported at 1.
    destruct (unsupported k) eqn:Eu; cbn [negb].
    + apply IHr; [|exact H]. eapply NoDup_remove_1; eauto.
    + destruct (sanitize_value _ v) as [v'|] eqn:Ev; [|discriminate].
      pose proof (NoDup_remove_2 _ _ _ Hnd) as Hfresh.
      rewrite dict_set_fresh in H
        by (intros Hin; apply Hfresh; apply in_or_app; now left).
      apply IHr in H.
      * rewrite H, keys_app. cbn. now rewrite <- app_assoc.
      * rewrite keys_app. cbn. now rewrite <- app_assoc.
Qed.

Lemma complete_required_keys (result : dict) (r : json) :
  complete_required result = Ok r ->
  exists d, r = JDict d /\
            (keys d = keys result \/
             (~ In "required" (keys result) /\ keys d = keys result ++ ["required"])).
Proof.
  unfold complete_required.
  destruct (is_object_with_properties result); [|intros [= <-]; eauto].
  destruct (dict_get result "properties") as [p|]; [|intros [= <-]; eauto].
  destruct (py_keys p) as [[|n ns]|e]; try discriminate; intros [= <-]; eauto.
  eexists. split; [reflexivity|]. apply keys_dict_set.
Qed.

(** X3: the keys of the output are the supported keys of the input, in
    the order of the input; the only key the sanitizer can add is
    [required], at the end, and only when the input has none. *)
Theorem sanitize_keeps_supported_keys_in_order :
  forall (schema : dict) (r : json),
    NoDup (keys schema) ->
    sanitize_json_schema_for_openai (JDict schema) = Ok r ->
    exists d,
      r = JDict d /\
      (keys d = filter supported (keys schema) \/
       (~ In "required" (keys schema) /\
        keys d = filter supported (keys schema) ++ ["required"])).
Proof.
  intros schema r Hnd H. rewrite SanitizerFacts.sanitize_dict_eq in H.
  destruct (sanitize_loop _ schema []) as [result|] eqn:El; [|discriminate].
  apply loop_keys in El; [|exact Hnd]. cbn [keys map app] in El.
  destruct (complete_required_keys _ _ H) as (d & -> & [Hk|[Hn Hk]]).
  - exists d. split; [reflexivity|]. left. now rewrite Hk.
  - exists d. split; [reflexivity|]. right. split; [|now rewrite Hk, El].
    intros Hin. apply Hn. rewrite El.
    apply filter_In. split; [exact Hin|reflexivity].
Qed.

Lemma sanitize_keeps_supported_keys_in_order_witness :
  exists d,
    JDict [("type", JStr "object");
           ("properties", JDict [("a", JDict [])]);
           ("required", JList [JStr "a"])] = JDict d /\
    (keys d = filter supported
                (keys [("$schema", JStr "http://json-schema.org/draft-07/schema#");
                       ("type", JStr "object");
                       ("default", JDict []);
                       ("properties", JDict [("a", JDict [])])]) \/
     (~ In "required"
         (keys [("$schema", JStr "http://json-schema.org/draft-07/schema#");
                ("type", JStr "object");
                ("default", JDict []);
                ("properties", JDict [("a", JDict [])])]) /\
      keys d = filter supported
                 (keys [("$schema", JStr "http://json-schema.org/draft-07/schema#");
                        ("type", JStr "object");
                        ("default", JDict []);
                        ("properties", JDict [("a", JDict [])])])
               ++ ["required"])).
Proof.
  apply (sanitize_keeps_supported_keys_in_order
           [("$schema", JStr "http://json-schema.org/draft-07/schema#");
            ("type", JStr "object");
            ("default", JDict []);
            ("properties", JDict [("a", JDict [])])]).
  - repeat constructor; simpl; intuition discriminate.
  - reflexivity.
Defined.

(** *** The values of the output *)

Lemma loop_get_other (items : dict) (k : string) :
  ~ In k (keys items) ->
  forall acc result,
    sanitize_loop sanitize_json_schema_for_openai items acc = Ok result ->
    dict_get result k = dict_get acc k.
Proof.
  induction items as [|[k0 v0] rest IHr]; cbn [sanitize_loop]; intros Hn acc result H.
  - now injection H as <-.
  - assert (Hn' : ~ In k (keys rest)) by (intros Hin; apply Hn; now right).
    assert (Hne : k0 <> k) by (intros ->; apply Hn; now left).
    destruct (unsupported k0); [now apply IHr|].
    destruct (sanitize_value _ v0) as [v'|]; [|discriminate].
    rewrite (IHr Hn' _ _ H). now apply dict_get_set_other.
Qed.

Lemma loop_get (items : dict) (k : string) (v : json) :
  NoDup (keys items) ->
  dict_get items k = Some v ->
  unsupported k = false ->
  forall acc result,
    sanitize_loop sanitize_json_schema_for_openai items acc = Ok result ->
    exists v', sanitize_value sanitize_json_schema_for_openai v = Ok v' /\
               dict_get result k = Some v'.
Proof.
  induction items as [|[k0 v0] rest IHr]; cbn [sanitize_loop dict_get];
    intros Hnd Hget Hk acc result H; [discriminate|].
  cbn [keys map fst] in Hnd. fold (keys rest) in Hnd.
  inversion Hnd as [|x xs Hfresh Hnd']; subst.
  destruct (String.eqb_spec k0 k) as [->|Hne].
  - injection Hget as ->. rewrite Hk in H.
    destruct (sanitize_value _ v) as [v'|]; [|discriminate].
    exists v'. split; [reflexivity|].
    rewrite (loop_get_other rest k Hfresh _ _ H). apply dict_get_set_same.
  - destruct (unsupported k0); [eapply IHr; eauto|].
    destruct (sanitize_value _ v0) as [v0'|]; [|discriminate].
    eapply IHr; eauto.
Qed.

Lemma complete_required_get (result : dict) (d : dict) (k : string) :
  complete_required result = Ok (JDict d) ->
  k <> "required" -> dict_get d k = dict_get result k.
Proof.
  unfold complete_required. intros H Hne.
  destruct (is_object_with_properties result); [|now injection H as <-].
  destruct (dict_get result "properties") as [p|]; [|now injection H as <-].
  destruct (py_keys p) as [[|n ns]|e]; try discriminate; injection H as <-;
    [reflexivity|].
  apply dict_get_set_other. congruence.
Qed.

Lemma sanitize_value_scalar (v : json) :
  is_scalar v = true -> sanitize_value sanitize_json_schema_for_openai v = Ok v.
Proof. destruct v; try discriminate; reflexivity. Qed.

Lemma sanitize_get_value (schema d : dict) (k : string) (v : json) :
  NoDup (keys schema) ->
  sanitize_json_schema_for_openai (JDict schema) = Ok (JDict d) ->
  dict_get schema k = Some v ->
  unsupported k = false ->
  k <> "required" ->
  exists v',
    sanitize_value sanitize_json_schema_for_openai v = Ok v' /\
    dict_get d k = Some v'.
Proof.
  intros Hnd H Hget Hk Hne.
  rewrite SanitizerFacts.sanitize_dict_eq in H.
  destruct (sanitize_loop _ schema []) as [result|] eqn:El; [|discriminate].
  destruct (loop_get schema k v Hnd Hget Hk _ _ El) as (v' & Hv & Hres).
  exists v'. split; [exact Hv|].
  rewrite (complete_required_get _ _ _ H Hne). exact Hres.
Qed.

(** X4: what stands in the input under a supported key other than
    [required] stands in the output under the same key, sanitized in
    its turn; a scalar stands there unchanged. *)
Theorem sanitize_carries_values_over :
  forall (schema d : dict) (k : string) (v : json),
    NoDup (keys schema) ->
    sanitize_json_schema_for_openai (JDict schema) = Ok (JDict d) ->
    dict_get schema k = Some v ->
    unsupported k = false ->
    k <> "required" ->
    exists v',
      sanitize_value sanitize_json_schema_for_openai v = Ok v' /\
      dict_get d k = Some v' /\
      (is_scalar v = true -> v' = v).
Proof.
  intros schema d k v Hnd H Hget Hk Hne.
  destruct (sanitize_get_value schema d k v Hnd H Hget Hk Hne) as (v' & Hv & Hres).
  exists v'. split; [exact Hv|]. split; [exact Hres|].
  intros Hs. rewrite sanitize_value_scalar in Hv by assumption. congruence.
Qed.

Lemma sanitize_carries_values_over_witness :
  exists v',
    sanitize_value sanitize_json_schema_for_openai (JStr "object") = Ok v' /\
    dict_get Demo.person_sanitized "type" = Some v' /\
    (is_scalar (JStr "object") = true -> v' = JStr "object").
Proof.
  apply (sanitize_carries_values_over Demo.person_schema Demo.person_sanitized).
  - repeat constructor; simpl; intuition discriminate.
  - reflexivity.
  - reflexivity.
  - reflexivity.
  - discriminate.
Defined.

(** *** Where [required] comes from *)

Lemma dict_get_None (d : dict) (k : string) :
  dict_get d k = None -> ~ In k (keys d).
Proof.
  induction d as [|[k' v'] t IH]; cbn [dict_get keys map fst]; [intros _ []|].
  destruct (String.eqb_spec k' k) as [->|Hne]; [discriminate|].
  intros H [Hk|Hin]; [congruence|]. now apply IH.
Qed.

Lemma sanitize_value_shape (v v' : json) (t : string) :
  sanitize_value sanitize_json_schema_for_openai v = Ok v' ->
  v' = JStr t -> v = JStr t.
Proof.
  destruct v; unfold sanitize_value; try (now intros [= <-]).
  - destruct (sanitize_elems _ l); [|discriminate]. intros [= <-]. discriminate.
  - intros H ->. apply SanitizerFacts.sanitize_dict_is_dict in H. discriminate.
Qed.

(** The [type] the loop leaves in [result] is the [type] of the input. *)
Lemma loop_type (schema result : dict) (t : string) :
  NoDup (keys schema) ->
  sanitize_loop sanitize_json_schema_for_openai schema [] = Ok result ->
  dict_get result "type" = Some (JStr t) ->
  dict_get schema "type" = Some (JStr t).
Proof.
  intros Hnd Hl Ht. destruct (dict_get schema "type") as [v|] eqn:Ev.
  - destruct (loop_get schema "type" v Hnd Ev eq_refl _ _ Hl) as (v' & Hv & Hres).
    rewrite Hres in Ht. injection Ht as ->.
    now rewrite (sanitize_value_shape _ _ _ Hv eq_refl).
  - apply dict_get_None in Ev.
    rewrite (loop_get_other schema "type" Ev _ _ Hl) in Ht. discriminate.
Qed.

Lemma sanitize_not_object (schema : dict) (r : json) :
  NoDup (keys schema) ->
  dict_get schema "type" <> Some (JStr "object") ->
  sanitize_json_schema_for_openai (JDict schema) = Ok r ->
  exists result,
    sanitize_loop sanitize_json_schema_for_openai schema [] = Ok result /\
    r = JDict result.
Proof.
  intros Hnd Ht H. rewrite SanitizerFacts.sanitize_dict_eq in H.
  destruct (sanitize_loop _ schema []) as [result|] eqn:El; [|discriminate].
  exists result. split; [reflexivity|].
  unfold complete_required in H.
  destruct (is_object_with_properties result) eqn:Eo; [|now injection H as <-].
  apply SanitizerFacts.is_object_with_properties_spec in Eo as [Hty _].
  exfalso. apply Ht. eapply loop_type; eauto.
Qed.

Lemma sanitize_elems_strings (names : list string) :
  sanitize_elems sanitize_json_schema_for_openai (map JStr names)
  = Ok (map JStr names).
Proof.
  induction names as [|n ns IH]; cbn [map sanitize_elems sanitize_item];
    [reflexivity|]. now rewrite IH.
Qed.

(** X27: the sanitizer rewrites [required] for object schemas only: a
    schema whose [type] is not ["object"] keeps the list of names it
    has under [required]. *)
Theorem required_kept_when_not_an_object :
  forall (schema d : dict) (names : list string),
    NoDup (keys schema) ->
    dict_get schema "type" <> Some (JStr "object") ->
    dict_get schema "required" = Some (JList (map JStr names)) ->
    sanitize_json_schema_for_openai (JDict schema) = Ok (JDict d) ->
    required_is d names.
Proof.
  intros schema d names Hnd Ht Hreq H.
  destruct (sanitize_not_object schema _ Hnd Ht H) as (result & Hl & Hr).
  injection Hr as ->.
  destruct (loop_get schema "required" _ Hnd Hreq eq_refl _ _ Hl) as (v' & Hv & Hres).
  unfold sanitize_value in Hv. rewrite sanitize_elems_strings in Hv.
  injection Hv as <-. exact Hres.
Qed.

Lemma required_kept_when_not_an_object_witness :
  required_is [("type", JStr "array"); ("required", JList (map JStr ["a"]))] ["a"].
Proof.
  apply (required_kept_when_not_an_object
           [("type", JStr "array"); ("maxItems", JInt 3);
            ("required", JList (map JStr ["a"]))]).
  - repeat constructor; simpl; intuition discriminate.
  - discriminate.
  - reflexivity.
  - reflexivity.
Defined.

(** X28: for an object schema, [required] in the output lists the
    names of the input's properties, in the input's order, without the
    names that are unsupported keys; it is set whenever one name is
    left, whatever [required] the input had.  (The map of properties is
    itself walked as a document; it is taken not to carry a [type] that
    is the string ["object"].) *)
Theorem required_lists_the_supported_property_names :
  forall (schema props d : dict),
    NoDup (keys schema) ->
    NoDup (keys props) ->
    dict_get schema "type" = Some (JStr "object") ->
    dict_get schema "properties" = Some (JDict props) ->
    dict_get props "type" <> Some (JStr "object") ->
    filter supported (keys props) <> [] ->
    sanitize_json_schema_for_openai (JDict schema) = Ok (JDict d) ->
    required_is d (filter supported (keys props)).
Proof.
  intros schema props d Hnd Hndp Hty Hprops Hpt Hne H.
  rewrite SanitizerFacts.sanitize_dict_eq in H.
  destruct (sanitize_loop _ schema []) as [result|] eqn:El; [|discriminate].
  destruct (loop_get schema "type" _ Hnd Hty eq_refl _ _ El) as (ty & Hv1 & Hrty).
  cbn in Hv1. injection Hv1 as <-.
  destruct (loop_get schema "properties" _ Hnd Hprops eq_refl _ _ El)
    as (p' & Hv2 & Hrp).
  unfold sanitize_value in Hv2.
  destruct (sanitize_not_object props _ Hndp Hpt Hv2) as (presult & Hpl & ->).
  pose proof (loop_keys props [] presult Hndp Hpl) as Hkeys. cbn [keys map app] in Hkeys.
  unfold complete_required in H.
  assert (Ho : is_object_with_properties result = true)
    by (apply SanitizerFacts.is_object_with_properties_spec; eauto).
  rewrite Ho, Hrp in H. cbn [py_keys] in H. fold (keys presult) in Hkeys.
  rewrite Hkeys in H.
  destruct (filter supported (keys props)) as [|n ns] eqn:Ef; [contradiction|].
  injection H as <-. unfold required_is. apply dict_get_set_same.
Qed.

Lemma required_lists_the_supported_property_names_witness :
  required_is Demo.person_sanitized
    (filter supported
       (keys [("name", JDict [("type", JStr "string"); ("minLength", JInt 1)]);
              ("age", JDict [("type", JStr "integer"); ("minimum", JInt 0)])])).
Proof.
  apply (required_lists_the_supported_property_names Demo.person_schema).
  - repeat constructor; simpl; intuition discriminate.
  - repeat constructor; simpl; intuition discriminate.
  - reflexivity.
  - reflexivity.
  - discriminate.
  - discriminate.
  - reflexivity.
Defined.

End SanitizerMore.

(* ================================================================== *)
(** ** The sanitizer on the interpreter's stack *)

Module FramesFacts.
Import Vocabulary.

Section Interpreter.
Variable comprehension_frame : bool.
Variable recursion_message : string.

Local Notation sanitize := Sanitizer.sanitize_json_schema_for_openai.
Local Notation sanitize_within :=
  (Frames.sanitize_json_schema_for_openai comprehension_frame recursion_message).
Local Notation frames_below := (Frames.frames_below comprehension_frame).
Local Notation frames_needed := (Frames.frames_needed comprehension_frame).
Local Notation deepest_elem := (Frames.deepest_elem comprehension_frame).
Local Notation deepest_value := (Frames.deepest_value comprehension_frame).
Local Notation overflow := (Frames.RecursionError recursion_message).

Lemma frames_below_dict (d : dict) :
  frames_below (JDict d) = S (deepest_value d).
Proof. reflexivity. Qed.

Lemma frames_below_list (l : list json) :
  frames_below (JList l)
  = (if comprehension_frame then 1 else 0) + deepest_elem l.
Proof. reflexivity. Qed.

Lemma sanitize_within_S (room : nat) (schema : json) :
  sanitize_within (S room) schema =
  match schema with
  | JDict items =>
      match Frames.sanitize_loop
              (sanitize_within room)
              (if comprehension_frame then
                 match room with
                 | 0 => fun _ => Raise overflow
                 | S room' => Sanitizer.sanitize_elems (sanitize_within room')
                 end
               else Sanitizer.sanitize_elems (sanitize_within room))
              items [] with
      | Ok result => Sanitizer.complete_required result
      | Raise e => Raise e
      end
  | _ => Ok schema
  end.
Proof. reflexivity. Qed.

Lemma comprehension_frame_cases :
  comprehension_frame = true \/ comprehension_frame = false.
Proof. destruct comprehension_frame; [now left|now right]. Qed.

(** *** With enough frames *)

Section Enough.
Variable room : nat.
Hypothesis IH : forall s : json,
  frames_needed s <= room -> sanitize_within room s = sanitize s.

Lemma elems_enough (l : list json) :
  deepest_elem l <= room ->
  Sanitizer.sanitize_elems (sanitize_within room) l
  = Sanitizer.sanitize_elems sanitize l.
Proof.
  induction l as [|x t IHl]; cbn [deepest_elem fold_right Sanitizer.sanitize_elems];
    intros H; [reflexivity|].
  fold (deepest_elem t) in H.
  rewrite IHl by lia.
  assert (Ex : Sanitizer.sanitize_item (sanitize_within room) x
               = Sanitizer.sanitize_item sanitize x).
  { destruct x; unfold Sanitizer.sanitize_item; try reflexivity.
    apply IH. unfold Frames.frames_needed. lia. }
  now rewrite Ex.
Qed.
End Enough.

Section EnoughLoop.
Variable room : nat.
Hypothesis IH : forall m : nat, m <= room ->
  forall s : json, frames_needed s <= m -> sanitize_within m s = sanitize s.

Local Notation comprehension :=
  (if comprehension_frame then
     match room with
     | 0 => fun _ => Raise overflow
     | S room' => Sanitizer.sanitize_elems (sanitize_within room')
     end
   else Sanitizer.sanitize_elems (sanitize_within room)).

Lemma value_enough (v : json) :
  frames_below v <= room ->
  Frames.sanitize_value (sanitize_within room) comprehension v
  = Sanitizer.sanitize_value sanitize v.
Proof.
  intros H. destruct v; unfold Frames.sanitize_value, Sanitizer.sanitize_value;
    try reflexivity.
  - rewrite frames_below_list in H.
    assert (Hc : comprehension l = Sanitizer.sanitize_elems sanitize l).
    { destruct (comprehension_frame_cases) as [E|E].
      - replace comprehension
          with (match room with
                | 0 => fun _ : list json => @Raise (list json) overflow
                | S room' => Sanitizer.sanitize_elems (sanitize_within room')
                end)
          by (rewrite E; reflexivity).
        replace (if comprehension_frame then 1 else 0) with 1 in H
          by (rewrite E; reflexivity).
        destruct room as [|room']; [lia|].
        apply elems_enough; [apply IH; lia|lia].
      - replace comprehension with (Sanitizer.sanitize_elems (sanitize_within room))
          by (rewrite E; reflexivity).
        replace (if comprehension_frame then 1 else 0) with 0 in H
          by (rewrite E; reflexivity).
        apply elems_enough; [apply IH; lia|lia]. }
    now rewrite Hc.
  - apply IH; [lia|exact H].
Qed.

Lemma loop_enough (items : dict) :
  deepest_value items <= room ->
  forall result,
    Frames.sanitize_loop (sanitize_within room) comprehension items result
    = Sanitizer.sanitize_loop sanitize items result.
Proof.
  induction items as [|[k v] rest IHr];
    cbn [deepest_value fold_right Frames.sanitize_loop Sanitizer.sanitize_loop fst snd];
    intros H result; [reflexivity|].
  fold (deepest_value rest) in H.
  destruct (Sanitizer.unsupported k); [now apply IHr|].
  rewrite value_enough by lia.
  destruct (Sanitizer.sanitize_value sanitize v); [apply IHr; lia|reflexivity].
Qed.
End EnoughLoop.

(** With the frames it asks for, the sanitizer does what the unbounded
    recursion does. *)
Lemma enough_frames (n : nat) :
  forall s : json, frames_needed s <= n -> sanitize_within n s = sanitize s.
Proof.
  induction n as [n IHn] using lt_wf_ind. intros s H.
  destruct n as [|room].
  - destruct s; cbn in H; lia.
  - rewrite sanitize_within_S.
    destruct s as [| | | | | |items]; try reflexivity.
    rewrite SanitizerFacts.sanitize_dict_eq.
    cbn [Frames.frames_needed] in H. rewrite frames_below_dict in H.
    rewrite (loop_enough room) by (try (intros m Hm; apply IHn; lia); lia).
    reflexivity.
Qed.

(** *** With any number of frames *)

Section Either.
Variable room : nat.
Hypothesis IH : forall s : json,
  sanitize_within room s = sanitize s \/ sanitize_within room s = Raise overflow.

Lemma elems_either (l : list json) :
  Sanitizer.sanitize_elems (sanitize_within room) l
  = Sanitizer.sanitize_elems sanitize l \/
  Sanitizer.sanitize_elems (sanitize_within room) l = Raise overflow.
Proof.
  induction l as [|x t IHl]; cbn [Sanitizer.sanitize_elems]; [now left|].
  assert (Ex : Sanitizer.sanitize_item (sanitize_within room) x
               = Sanitizer.sanitize_item sanitize x \/
               Sanitizer.sanitize_item (sanitize_within room) x = Raise overflow).
  { destruct x; unfold Sanitizer.sanitize_item; try (now left). apply IH. }
  destruct Ex as [-> | ->]; [|now right].
  destruct (Sanitizer.sanitize_item sanitize x); [|now left].
  destruct IHl as [-> | ->]; [now left|now right].
Qed.
End Either.

Section EitherLoop.
Variable room : nat.
Hypothesis IH : forall m : nat, m <= room ->
  forall s : json,
    sanitize_within m s = sanitize s \/ sanitize_within m s = Raise overflow.

Local Notation comprehension :=
  (if comprehension_frame then
     match room with
     | 0 => fun _ => Raise overflow
     | S room' => Sanitizer.sanitize_elems (sanitize_within room')
     end
   else Sanitizer.sanitize_elems (sanitize_within room)).

Lemma value_either (v : json) :
  Frames.sanitize_value (sanitize_within room) comprehension v
  = Sanitizer.sanitize_value sanitize v \/
  Frames.sanitize_value (sanitize_within room) comprehension v = Raise overflow.
Proof.
  destruct v; unfold Frames.sanitize_value, Sanitizer.sanitize_value;
    try (now left).
  - assert (Hc : comprehension l = Sanitizer.sanitize_elems sanitize l \/
                 comprehension l = Raise overflow).
    { destruct (comprehension_frame_cases) as [E|E].
      - replace comprehension
          with (match room with
                | 0 => fun _ : list json => @Raise (list json) overflow
                | S room' => Sanitizer.sanitize_elems (sanitize_within room')
                end)
          by (rewrite E; reflexivity).
        destruct room as [|room']; [now right|].
        apply elems_either. apply IH. apply Nat.le_succ_diag_r.
      - replace comprehension with (Sanitizer.sanitize_elems (sanitize_within room))
          by (rewrite E; reflexivity).
        apply elems_either. apply IH. apply Nat.le_refl. }
    destruct Hc as [-> | ->]; [now left|now right].
  - apply IH. apply Nat.le_refl.
Qed.

Lemma loop_either (items : dict) :
  forall result,
    Frames.sanitize_loop (sanitize_within room) comprehension items result
    = Sanitizer.sanitize_loop sanitize items result \/
    Frames.sanitize_loop (sanitize_within room) comprehension items result
    = Raise overflow.
Proof.
  induction items as [|[k v] rest IHr];
    cbn [Frames.sanitize_loop Sanitizer.sanitize_loop]; intros result; [now left|].
  destruct (Sanitizer.unsupported k); [apply IHr|].
  destruct (value_either v) as [-> | ->]; [|now right].
  destruct (Sanitizer.sanitize_value sanitize v); [apply IHr|now left].
Qed.
End EitherLoop.

(** Whatever frames are left, the sanitizer does what the unbounded
    recursion does or runs out of frames. *)
Lemma same_or_overflow (n : nat) :
  forall s : json,
    sanitize_within n s = sanitize s \/ sanitize_within n s = Raise overflow.
Proof.
  induction n as [n IHn] using lt_wf_ind. intros s.
  destruct n as [|room]; [now right|].
  rewrite sanitize_within_S.
  destruct s as [| | | | | |items]; try (now left).
  rewrite SanitizerFacts.sanitize_dict_eq.
  destruct (loop_either room) with (items := items) (result := @nil (string * json))
    as [-> | ->]; [intros m Hm; apply IHn; lia|now left|now right].
Qed.

(** What the sanitizer returns on the stack is what the unbounded
    recursion returns. *)
Lemma returned_is_sanitized (n : nat) (s r : json) :
  sanitize_within n s = Ok r -> sanitize s = Ok r.
Proof.
  intros H. destruct (same_or_overflow n s) as [E|E]; rewrite E in H;
    [exact H|discriminate H].
Qed.

(** A document nested as deep as there are frames, or deeper, runs out
    of them. *)
Lemma nested_overflows (n : nat) :
  forall depth : nat, n <= depth ->
    sanitize_within n (Frames.nested depth) = Raise overflow.
Proof.
  induction n as [|room IHn]; intros depth H; [reflexivity|].
  destruct depth as [|depth']; [lia|].
  rewrite sanitize_within_S. cbn [Frames.nested Frames.sanitize_loop].
  change (Sanitizer.unsupported "items") with false. cbv iota.
  assert (Ev : forall comprehension,
             Frames.sanitize_value (sanitize_within room) comprehension
               (Frames.nested depth')
             = sanitize_within room (Frames.nested depth'))
    by (intros; destruct depth'; reflexivity).
  rewrite Ev, IHn by lia. reflexivity.
Qed.

Lemma nested_frames_needed (depth : nat) :
  frames_needed (Frames.nested depth) = S depth.
Proof.
  induction depth as [|depth' IHd]; [reflexivity|].
  cbn [Frames.nested Frames.frames_needed]. rewrite frames_below_dict.
  cbn [Frames.deepest_value fold_right fst snd].
  change (Sanitizer.unsupported "items") with false. cbv iota.
  rewrite Nat.max_0_r. f_equal.
  rewrite <- IHd. destruct depth'; reflexivity.
Qed.

End Interpreter.

(** X1: with whatever frames the interpreter has left, the sanitizer
    raises nothing but the [RecursionError] of a document nested
    deeper than those frames go and the [AttributeError] of [.keys()]
    called on a [properties] value that is not a dict; both are
    [Exception]s, so the bound tool's handler and any
    [except Exception] of a caller catch them. *)
Theorem sanitize_raises_only_overflow_or_no_keys :
  forall (comprehension_frame : bool) (recursion_message : string)
         (frames : nat) (s : json) (e : exn),
    Frames.sanitize_json_schema_for_openai
      comprehension_frame recursion_message frames s = Raise e ->
    isinstance_Exception e = true /\
    (exn_name e = "RecursionError" \/
     (exn_name e = "AttributeError" /\
      exists v : json,
        is_dict v = false /\
        exn_str e = ("'" ++ py_type_name v ++ "' object has no attribute 'keys'")%string)).
Proof.
  intros cf msg n s e H.
  destruct (same_or_overflow cf msg n s) as [E|E]; rewrite E in H.
  - destruct (SanitizerMore.sanitize_raise s e H) as (v & Hv & ->).
    split; [reflexivity|]. right. split; [reflexivity|].
    exists v. split; [exact Hv|reflexivity].
  - injection H as <-. split; [reflexivity|]. now left.
Qed.

Lemma sanitize_raises_only_overflow_or_no_keys_witness :
  isinstance_Exception (Frames.RecursionError "maximum recursion depth exceeded") = true /\
  (exn_name (Frames.RecursionError "maximum recursion depth exceeded") = "RecursionError" \/
   (exn_name (Frames.RecursionError "maximum recursion depth exceeded") = "AttributeError" /\
    exists v : json,
      is_dict v = false /\
      exn_str (Frames.RecursionError "maximum recursion depth exceeded")
      = ("'" ++ py_type_name v ++ "' object has no attribute 'keys'")%string)).
Proof.
  apply (sanitize_raises_only_overflow_or_no_keys
           true "maximum recursion depth exceeded" 3 (Frames.nested 3)).
  reflexivity.
Defined.



(** Four documents in one another ask for four frames and fail with
    three. *)
Example nested_three_deep :
  Frames.frames_needed true (Frames.nested 3) = 4 /\
  Frames.sanitize_json_schema_for_openai true "maximum recursion depth exceeded" 3
    (Frames.nested 3)
  = Raise (Frames.RecursionError "maximum recursion depth exceeded") /\
  Frames.sanitize_json_schema_for_openai true "maximum recursion depth exceeded" 4
    (Frames.nested 3)
  = Ok (Frames.nested 3).
Proof. repeat split; reflexivity. Qed.

(** A sequence on the last frame: the comprehension finds none where
    it takes one. *)
Example comprehension_on_the_last_frame :
  Frames.sanitize_json_schema_for_openai true "maximum recursion depth exceeded" 1
    (JDict [("enum", JList [JStr "a"])])
  = Raise (Frames.RecursionError "maximum recursion depth exceeded") /\
  Frames.sanitize_json_schema_for_openai false "maximum recursion depth exceeded" 1
    (JDict [("enum", JList [JStr "a"])])
  = Ok (JDict [("enum", JList [JStr "a"])]).
Proof. split; reflexivity. Qed.

End FramesFacts.

(* ================================================================== *)
(** ** The content normalizer: sequences in full *)

Module ContentMore.
Import Content Vocabulary.

(** The cases of a block, with [dropped] and [kept] opened. *)
Ltac block_cases' item :=
  unfold kept, dropped; ContentFacts.block_cases item.

Lemma append_item_kept (text_parts : list string) (item : Block) :
  kept item = true ->
  append_item text_parts item =
  rbind (single_to_text item) (fun s => Ok (text_parts ++ [s])).
Proof. block_cases' item; intros H; try reflexivity; discriminate. Qed.

Lemma append_item_dropped (text_parts : list string) (item : Block) :
  kept item = false -> append_item text_parts item = Ok text_parts.
Proof. block_cases' item; intros H; try reflexivity; discriminate. Qed.

Lemma collect_parts_kept (items : list Block) :
  forall text_parts,
    collect_parts items text_parts =
    rbind (each_single (filter kept items)) (fun parts => Ok (text_parts ++ parts)).
Proof.
  induction items as [|item rest IH]; intros text_parts; cbn [collect_parts filter].
  - cbn. now rewrite app_nil_r.
  - destruct (kept item) eqn:Ek.
    + rewrite append_item_kept by assumption. cbn [each_single].
      destruct (single_to_text item) as [s|e]; cbn; [|reflexivity].
      rewrite IH. destruct (each_single (filter kept rest)) as [tl|e]; cbn; [|reflexivity].
      now rewrite <- app_assoc.
    + rewrite append_item_dropped by assumption. apply IH.
Qed.

(** X5: for every sequence, the result is the single-block results of
    its blocks, in order and joined by newlines, except that a block
    whose resource has neither text nor blob adds nothing. *)
Theorem many_is_join_of_kept :
  forall items : list Block,
    mcp_content_to_text (Many items) = join_all (filter kept items).
Proof.
  intros items. unfold mcp_content_to_text, join_all.
  rewrite collect_parts_kept.
  destruct (each_single (filter kept items)) as [[|p parts]|e]; reflexivity.
Qed.

Lemma each_single_total (items : list Block) :
  exists parts, each_single items = Ok parts /\ List.length parts = List.length items.
Proof.
  induction items as [|item rest (tl & Htl & Hlen)]; cbn [each_single].
  - exists []. split; reflexivity.
  - destruct (ContentFacts.single_to_text_total item) as [s ->]. rewrite Htl. cbn.
    exists (s :: tl). split; [reflexivity|]. cbn. now rewrite Hlen.
Qed.

(** X6: a sequence of one block is normalized like the block alone,
    unless it is a block the loop drops; such a block alone gives its
    [str], and as a sequence the empty string. *)
Theorem singleton_sequence_is_single :
  forall item : Block,
    (kept item = true ->
     mcp_content_to_text (Many [item]) = mcp_content_to_text (One item)) /\
    (kept item = false ->
     mcp_content_to_text (Many [item]) = Ok "" /\
     mcp_content_to_text (One item) = Ok (block_str item)).
Proof.
  intros item. split; intros Hk.
  - unfold mcp_content_to_text. rewrite collect_parts_kept.
    cbn [filter]. rewrite Hk. cbn [each_single].
    destruct (single_to_text item) as [s|e]; reflexivity.
  - split.
    + unfold mcp_content_to_text. rewrite collect_parts_kept.
      cbn [filter]. rewrite Hk. reflexivity.
    + revert Hk. unfold mcp_content_to_text.
      block_cases' item; intros H; try reflexivity; discriminate.
Qed.

Lemma singleton_sequence_is_single_witness :
  mcp_content_to_text (Many [text_block "hello"])
  = mcp_content_to_text (One (text_block "hello")).
Proof.
  apply (proj1 (singleton_sequence_is_single (text_block "hello"))).
  reflexivity.
Defined.

Lemma each_single_texts (texts : list string) :
  each_single (map text_block texts) = Ok texts.
Proof.
  induction texts as [|t rest IH]; cbn [map each_single]; [reflexivity|].
  rewrite IH. reflexivity.
Qed.

Lemma filter_kept_texts (texts : list string) :
  filter kept (map text_block texts) = map text_block texts.
Proof.
  induction texts as [|t rest IH]; cbn [map filter]; [reflexivity|].
  now rewrite IH.
Qed.

(** X7: a sequence of text blocks gives their texts joined by
    newlines, empty texts included; no text at all gives the empty
    string. *)
Theorem text_blocks_join :
  forall texts : list string,
    mcp_content_to_text (Many (map text_block texts)) = Ok (String.concat nl texts).
Proof.
  intros texts. unfold mcp_content_to_text. rewrite collect_parts_kept.
  rewrite filter_kept_texts, each_single_texts. cbn.
  destruct texts; reflexivity.
Qed.

Lemma string_app_assoc (x y z : string) :
  ((x ++ y) ++ z = x ++ (y ++ z))%string.
Proof.
  induction x as [|c x IH]; cbn; [reflexivity|]. now rewrite IH.
Qed.

Lemma concat_app (sep : string) (a b : list string) :
  a <> [] -> b <> [] ->
  String.concat sep (a ++ b) = (String.concat sep a ++ sep ++ String.concat sep b)%string.
Proof.
  intros Ha Hb. induction a as [|x t IH]; [contradiction|].
  destruct t as [|y t'].
  - cbn [app String.concat]. destruct b; [contradiction|reflexivity].
  - change ((x :: y :: t') ++ b) with (x :: (y :: t') ++ b).
    cbn [String.concat]. cbn [app]. cbn [app] in IH.
    rewrite IH by discriminate.
    cbn [String.concat]. now rewrite !string_app_assoc.
Qed.

Lemma each_single_app (a b : list Block) :
  each_single (a ++ b) =
  rbind (each_single a) (fun pa => rbind (each_single b) (fun pb => Ok (pa ++ pb))).
Proof.
  induction a as [|item rest IH]; cbn [app each_single].
  - cbn. destruct (each_single b); reflexivity.
  - destruct (single_to_text item) as [s|e]; cbn; [|reflexivity].
    rewrite IH. destruct (each_single rest) as [pa|e]; cbn; [|reflexivity].
    destruct (each_single b); reflexivity.
Qed.

Lemma many_text (items : list Block) :
  exists parts,
    each_single (filter kept items) = Ok parts /\
    List.length parts = List.length (filter kept items) /\
    mcp_content_to_text (Many items) = Ok (String.concat nl parts).
Proof.
  destruct (each_single_total (filter kept items)) as (parts & Hp & Hlen).
  exists parts. split; [exact Hp|]. split; [exact Hlen|].
  unfold mcp_content_to_text. rewrite collect_parts_kept, Hp. cbn.
  destruct parts; reflexivity.
Qed.

(** X8: putting one sequence after another puts their results one after
    the other, a newline between them, when each of the two holds at
    least one block the loop keeps. *)
Theorem sequences_compose :
  forall (a b : list Block) (ta tb : string),
    existsb kept a = true ->
    existsb kept b = true ->
    mcp_content_to_text (Many a) = Ok ta ->
    mcp_content_to_text (Many b) = Ok tb ->
    mcp_content_to_text (Many (a ++ b)) = Ok (ta ++ nl ++ tb)%string.
Proof.
  intros a b ta tb Ha Hb Hta Htb.
  destruct (many_text a) as (pa & Hpa & Hla & Ha').
  destruct (many_text b) as (pb & Hpb & Hlb & Hb').
  rewrite Ha' in Hta. injection Hta as <-.
  rewrite Hb' in Htb. injection Htb as <-.
  assert (Hne : forall (l : list Block) (p : list string), existsb kept l = true ->
                            List.length p = List.length (filter kept l) -> p <> []).
  { intros l p He Hl ->. apply existsb_exists in He as [x [Hx Hk]].
    assert (Hin : In x (filter kept l)) by (apply filter_In; auto).
    destruct (filter kept l); [contradiction|discriminate]. }
  unfold mcp_content_to_text. rewrite collect_parts_kept, filter_app, each_single_app.
  rewrite Hpa, Hpb. cbn [rbind app].
  rewrite concat_app by eauto.
  destruct (pa ++ pb) eqn:E; [|reflexivity].
  apply app_eq_nil in E as [-> _]. exfalso. eapply (Hne a []); eauto.
Qed.

Lemma sequences_compose_witness :
  mcp_content_to_text
    (Many ([text_block "a"; image_block "iVBOR" None] ++ [text_block "b"]))
  = Ok (("a" ++ nl ++ "[Image: unknown type]") ++ nl ++ "b")%string.
Proof.
  apply (sequences_compose [text_block "a"; image_block "iVBOR" None] [text_block "b"]);
    reflexivity.
Defined.

End ContentMore.

(* ================================================================== *)
(** ** The bound tool: every outcome of an invocation *)

Module WrapperMore.
Import Lifecycle Wrapper Vocabulary.

Section Environment.
Variable json_loads : string -> res json.
Variable transform_string_function_style : string -> string.
Variable remote_call_tool :
  list call -> MCPAggregator -> string -> dict -> res CallToolResult.
Variable remote_list_tools : MCPAggregator -> res (list MCPTool).

Local Notation wrapper_fn := (wrapper_fn remote_call_tool).
Local Notation tool_body :=
  (tool_body json_loads transform_string_function_style remote_call_tool).
Local Notation mcp_tool_to_function_tool :=
  (mcp_tool_to_function_tool json_loads transform_string_function_style remote_call_tool).
Local Notation convert_tools :=
  (convert_tools json_loads transform_string_function_style remote_call_tool).
Local Notation mcp_list_tools :=
  (mcp_list_tools json_loads transform_string_function_style remote_call_tool
                  remote_list_tools).
Local Notation wrap_bound :=
  (WrapperFacts.wrap_bound json_loads transform_string_function_style remote_call_tool).
Local Notation bound_to_invoke :=
  (WrapperFacts.bound_to_invoke json_loads transform_string_function_style
                                remote_call_tool).
Local Notation tool_body_eq :=
  (WrapperFacts.tool_body_eq json_loads transform_string_function_style
                             remote_call_tool).

(** The invocation of a bound tool, from the outcome of its body. *)
Lemma invoke_from_body (t : MCPTool) (agg : option MCPAggregator)
    (w0 w1 : world) (ft : FunctionTool) (ctx : RunContextWrapper)
    (arguments_json : string) (w w' : world) (r : res string) :
  mcp_tool_to_function_tool t agg w0 = (Ok ft, w1) ->
  tool_body t agg ctx arguments_json w = (r, w') ->
  on_invoke_tool ft ctx arguments_json w = (caught r, w').
Proof.
  intros Hwrap Hbody. eapply bound_to_invoke; [eapply wrap_bound|]; eassumption.
Qed.

(** X9: a bound tool invoked while its aggregator is not initialized
    returns the text of the not-initialized error, naming the agent,
    and leaves the world as it was: no remote call is made. *)
Theorem bound_tool_on_uninitialized_aggregator :
  forall (t : MCPTool) (a : MCPAggregator) (w0 w1 : world) (ft : FunctionTool)
         (ctx : RunContextWrapper) (arguments_json : string) (kwargs : dict)
         (w : world),
    mcp_tool_to_function_tool t (Some a) w0 = (Ok ft, w1) ->
    is_initialized w a = false ->
    json_loads arguments_json = Ok (JDict kwargs) ->
    existsb (String.eqb "ctx") (keys kwargs) = false ->
    on_invoke_tool ft ctx arguments_json w =
    (Ok ("Error (RuntimeError): MCP aggregator not initialized for agent "
         ++ agent_name a)%string, w).
Proof.
  intros t a w0 w1 ft ctx arguments_json kwargs w Hwrap Hi Hj Hc.
  eapply (invoke_from_body _ _ _ _ _ _ _ _ _
            (Raise (RuntimeError ("MCP aggregator not initialized for agent "
                                  ++ agent_name a)))); [exact Hwrap|].
  rewrite tool_body_eq, Hj. cbn [unpack_kwargs]. rewrite Hc.
  now apply WrapperFacts.wrapper_fn_not_initialized.
Qed.

(** X10: arguments that name a parameter [ctx] collide with the first
    parameter of [wrapper_fn]: the bound tool returns the text of the
    [TypeError], whatever the aggregator, and no remote call is made. *)
Theorem arguments_naming_ctx_are_refused :
  forall (t : MCPTool) (agg : option MCPAggregator) (w0 w1 : world)
         (ft : FunctionTool) (ctx : RunContextWrapper) (arguments_json : string)
         (kwargs : dict) (w : world),
    mcp_tool_to_function_tool t agg w0 = (Ok ft, w1) ->
    json_loads arguments_json = Ok (JDict kwargs) ->
    In "ctx" (keys kwargs) ->
    exists msg,
      on_invoke_tool ft ctx arguments_json w =
      (Ok ("Error (TypeError): " ++ msg)%string, w).
Proof.
  intros t agg w0 w1 ft ctx arguments_json kwargs w Hwrap Hj Hin.
  assert (Hc : existsb (String.eqb "ctx") (keys kwargs) = true).
  { apply existsb_exists. exists "ctx". split; [exact Hin|reflexivity]. }
  eexists.
  eapply (invoke_from_body _ _ _ _ _ _ _ _ _
            (Raise (TypeError _))); [exact Hwrap|].
  rewrite tool_body_eq, Hj. cbn [unpack_kwargs]. rewrite Hc. reflexivity.
Qed.

(** X11: arguments that do not parse, or parse to something that is not
    a mapping, never reach the remote side: the bound tool returns the
    text of the parse error, or of the [TypeError] naming the type it
    got, and the world stays as it was. *)
Theorem unusable_arguments_make_no_call :
  forall (t : MCPTool) (agg : option MCPAggregator) (w0 w1 : world)
         (ft : FunctionTool) (ctx : RunContextWrapper) (arguments_json : string)
         (w : world),
    mcp_tool_to_function_tool t agg w0 = (Ok ft, w1) ->
    (forall e, json_loads arguments_json = Raise e ->
               isinstance_Exception e = true ->
               on_invoke_tool ft ctx arguments_json w =
               (Ok ("Error (" ++ exn_name e ++ "): " ++ exn_str e)%string, w)) /\
    (forall v, json_loads arguments_json = Ok v ->
               is_dict v = false ->
               exists msg,
                 on_invoke_tool ft ctx arguments_json w =
                 (Ok ("Error (TypeError): " ++ msg ++ py_type_name v)%string, w)).
Proof.
  intros t agg w0 w1 ft ctx arguments_json w Hwrap. split.
  - intros e Hj He.
    assert (Hb : tool_body t agg ctx arguments_json w = (Raise e, w))
      by (rewrite tool_body_eq, Hj; reflexivity).
    rewrite (invoke_from_body _ _ _ _ _ _ _ _ _ _ Hwrap Hb). cbn. now rewrite He.
  - intros v Hj Hv.
    assert (Hb : tool_body t agg ctx arguments_json w =
                 (Raise (TypeError ("agents.mcp.mcp_tool_to_function_tool.<locals>.create_wrapper.<locals>.wrapper_fn() argument after ** must be a mapping, not "
                                    ++ py_type_name v)), w))
      by (rewrite tool_body_eq, Hj; destruct v; try discriminate; reflexivity).
    eexists. now rewrite (invoke_from_body _ _ _ _ _ _ _ _ _ _ Hwrap Hb).
Qed.

(** *** With the remote side answering *)

Lemma wrapper_fn_on_result (a : MCPAggregator) (name : string)
    (ctx : RunContextWrapper) (kwargs : dict) (w : world) (result : CallToolResult) :
  is_initialized w a = true ->
  remote_call_tool (calls w) a name kwargs = Ok result ->
  wrapper_fn (Some a) name ctx kwargs w =
  (if flagged result then
     match error_message_of result with
     | Ok msg => Raise (RuntimeError ("Error calling MCP tool '" ++ name ++ "': " ++ msg))
     | Raise e => Raise e
     end
   else success_text_of result,
   after_call w a name kwargs).
Proof.
  intros Hi Hr. unfold Wrapper.wrapper_fn, bind, not_initialized, call_tool.
  rewrite Hi. cbn [negb]. rewrite Hr. fold (after_call w a name kwargs).
  unfold flagged, error_message_of, success_text_of.
  destruct result as [[[|]|] [c|] str]; cbn; unfold lift, bind, raise, ret; cbn;
    try destruct (Content.mcp_content_to_text c); reflexivity.
Qed.

Lemma tool_body_on_result (t : MCPTool) (a : MCPAggregator)
    (ctx : RunContextWrapper) (arguments_json : string) (kwargs : dict)
    (w : world) (result : CallToolResult) :
  is_initialized w a = true ->
  json_loads arguments_json = Ok (JDict kwargs) ->
  existsb (String.eqb "ctx") (keys kwargs) = false ->
  remote_call_tool (calls w) a (tool_name t) kwargs = Ok result ->
  tool_body t (Some a) ctx arguments_json w =
  (if flagged result then
     match error_message_of result with
     | Ok msg => Raise (RuntimeError ("Error calling MCP tool '" ++ tool_name t
                                      ++ "': " ++ msg))
     | Raise e => Raise e
     end
   else success_text_of result,
   after_call w a (tool_name t) kwargs).
Proof.
  intros Hi Hj Hc Hr. rewrite tool_body_eq, Hj. cbn [unpack_kwargs]. rewrite Hc.
  now apply wrapper_fn_on_result.
Qed.

(** X12: when the remote side flags its result as an error, the bound
    tool returns the text of a [RuntimeError] that names the tool and
    carries the normalized content of the result, or ["Unknown error"]
    when the result has no content; the call has been made. *)
Theorem flagged_result_becomes_error_text :
  forall (t : MCPTool) (a : MCPAggregator) (w0 w1 : world) (ft : FunctionTool)
         (ctx : RunContextWrapper) (arguments_json : string) (kwargs : dict)
         (w : world) (result : CallToolResult) (msg : string),
    mcp_tool_to_function_tool t (Some a) w0 = (Ok ft, w1) ->
    is_initialized w a = true ->
    json_loads arguments_json = Ok (JDict kwargs) ->
    existsb (String.eqb "ctx") (keys kwargs) = false ->
    remote_call_tool (calls w) a (tool_name t) kwargs = Ok result ->
    flagged result = true ->
    error_message_of result = Ok msg ->
    on_invoke_tool ft ctx arguments_json w =
    (Ok ("Error (RuntimeError): Error calling MCP tool '" ++ tool_name t
         ++ "': " ++ msg)%string,
     after_call w a (tool_name t) kwargs).
Proof.
  intros t a w0 w1 ft ctx arguments_json kwargs w result msg
         Hwrap Hi Hj Hc Hr Hf Hm.
  pose proof (tool_body_on_result t a ctx arguments_json kwargs w result Hi Hj Hc Hr)
    as Hb.
  rewrite Hf, Hm in Hb.
  now rewrite (invoke_from_body _ _ _ _ _ _ _ _ _ _ Hwrap Hb).
Qed.

(** X13: when the result is not flagged, the bound tool returns the
    normalized content of the result, or [str(result)] when the result
    has no content, after the one call. *)
Theorem unflagged_result_is_returned :
  forall (t : MCPTool) (a : MCPAggregator) (w0 w1 : world) (ft : FunctionTool)
         (ctx : RunContextWrapper) (arguments_json : string) (kwargs : dict)
         (w : world) (result : CallToolResult) (text : string),
    mcp_tool_to_function_tool t (Some a) w0 = (Ok ft, w1) ->
    is_initialized w a = true ->
    json_loads arguments_json = Ok (JDict kwargs) ->
    existsb (String.eqb "ctx") (keys kwargs) = false ->
    remote_call_tool (calls w) a (tool_name t) kwargs = Ok result ->
    flagged result = false ->
    success_text_of result = Ok text ->
    on_invoke_tool ft ctx arguments_json w =
    (Ok text, after_call w a (tool_name t) kwargs).
Proof.
  intros t a w0 w1 ft ctx arguments_json kwargs w result text
         Hwrap Hi Hj Hc Hr Hf Hm.
  pose proof (tool_body_on_result t a ctx arguments_json kwargs w result Hi Hj Hc Hr)
    as Hb.
  rewrite Hf, Hm in Hb.
  now rewrite (invoke_from_body _ _ _ _ _ _ _ _ _ _ Hwrap Hb).
Qed.

(** X14: an invocation touches nothing but the record of calls: the
    store, the aggregators' state and the built objects stay as they
    were, and at most one call is added, under the tool's own name. *)
Theorem invocation_only_adds_a_call :
  forall (t : MCPTool) (agg : option MCPAggregator) (w0 w1 : world)
         (ft : FunctionTool) (ctx : RunContextWrapper) (arguments_json : string)
         (w w' : world) (r : res string),
    mcp_tool_to_function_tool t agg w0 = (Ok ft, w1) ->
    on_invoke_tool ft ctx arguments_json w = (r, w') ->
    heap w' = heap w /\ initialized w' = initialized w /\
    constructed w' = constructed w /\
    (calls w' = calls w \/
     exists c, calls w' = calls w ++ [c] /\ call_name c = tool_name t).
Proof.
  intros t agg w0 w1 ft ctx arguments_json w w' r Hwrap Hinv.
  destruct (tool_body t agg ctx arguments_json w) as [r0 w2] eqn:Hb.
  rewrite (invoke_from_body _ _ _ _ _ _ _ _ _ _ Hwrap Hb) in Hinv.
  injection Hinv as _ <-.
  destruct (WrapperFacts.tool_body_calls _ _ _ _ _ _ _ _ _ _ Hb)
    as [->|(a & kwargs & _ & _ & ->)].
  - repeat split; auto.
  - cbn. repeat split. right. eexists. split; reflexivity.
Qed.

(** *** What wrapping does to the world *)

Lemma setitem_ok (l : loc) (k : string) (v : json) (w w' : world) :
  setitem l k v w = (Ok tt, w') ->
  exists d,
    nth_error (heap w) l = Some (JDict d) /\
    w' = mkWorld (list_update (heap w) l (JDict (dict_set d k v)))
                 (initialized w) (calls w) (constructed w).
Proof.
  unfold setitem, bind, deref, raise.
  destruct (nth_error (heap w) l) as [obj|]; [|discriminate].
  destruct obj; try discriminate. intros [= <-]. eauto.
Qed.

Lemma setitem_raise (l : loc) (k : string) (v : json) (w w' : world) (e : exn) :
  setitem l k v w = (Raise e, w') -> w' = w.
Proof.
  unfold setitem, bind, deref, raise.
  destruct (nth_error (heap w) l) as [obj|]; [|now intros [= _ <-]].
  destruct obj; try discriminate; now intros [= _ <-].
Qed.

(** A successful wrap, step by step: the address [l] written to, the
    dict [d] found there, the sanitized document [s] put at the end. *)
Lemma wrap_ok (t : MCPTool) (agg : option MCPAggregator) (w w' : world)
    (ft : FunctionTool) :
  mcp_tool_to_function_tool t agg w = (Ok ft, w') ->
  exists d s,
    let l := Content.getattr_default (tool_inputSchema t) (List.length (heap w)) in
    let d' := dict_set d "additionalProperties" (JBool false) in
    nth_error (heap w ++ [default_schema]) l = Some (JDict d) /\
    Sanitizer.sanitize_json_schema_for_openai (JDict d') = Ok s /\
    heap w' = list_update (heap w ++ [default_schema]) l (JDict d') ++ [s] /\
    params_json_schema ft = S (List.length (heap w)) /\
    initialized w' = initialized w /\ calls w' = calls w /\
    constructed w' = constructed w.
Proof.
  unfold Wrapper.mcp_tool_to_function_tool, bind at 1. cbn [alloc].
  set (l := Content.getattr_default (tool_inputSchema t) (List.length (heap w))).
  unfold bind at 1.
  destruct (setitem l _ _ _) as [[[]|e1] w1] eqn:Es; [|discriminate].
  apply setitem_ok in Es as (d & Hd & ->). cbn [heap initialized calls constructed] in *.
  unfold bind at 1.
  destruct (sanitize_object l _) as [[l2|e2] w2] eqn:Eo; [|discriminate].
  pose proof (PurityFacts.sanitize_object_frame _ _ _ _ Eo) as (_ & Hi & Hc & Hb).
  eapply PurityFacts.sanitize_object_result in Eo;
    [|cbn [heap]; eapply nth_error_list_update_same; exact Hd].
  cbn [heap initialized calls constructed] in *.
  destruct Eo as [(Hf & _)|(s & _ & Hs & -> & Hh)]; [discriminate|].
  intros [= <- <-]. exists d, s. cbn zeta. cbn [params_json_schema].
  rewrite length_list_update, length_app. cbn [List.length].
  repeat split; auto. lia.
Qed.

Lemma wrap_frame (t : MCPTool) (agg : option MCPAggregator) (w w' : world)
    (r : res FunctionTool) :
  mcp_tool_to_function_tool t agg w = (r, w') ->
  initialized w' = initialized w /\ calls w' = calls w /\
  constructed w' = constructed w.
Proof.
  unfold Wrapper.mcp_tool_to_function_tool, bind at 1. cbn [alloc].
  set (l := Content.getattr_default (tool_inputSchema t) (List.length (heap w))).
  unfold bind at 1.
  destruct (setitem l _ _ _) as [[[]|e1] w1] eqn:Es.
  - apply setitem_ok in Es as (d & Hd & ->).
    unfold bind at 1.
    destruct (sanitize_object l _) as [[l2|e2] w2] eqn:Eo;
      pose proof (PurityFacts.sanitize_object_frame _ _ _ _ Eo) as (_ & Hi & Hc & Hb);
      cbn [heap initialized calls constructed] in *;
      intros [= _ <-]; auto.
  - apply setitem_raise in Es as ->. intros [= _ <-]. auto.
Qed.

Lemma convert_tools_frame (tools : list MCPTool) (agg : option MCPAggregator) :
  forall (acc : list FunctionTool) (w w' : world) (r : res (list FunctionTool)),
    convert_tools tools agg acc w = (r, w') ->
    initialized w' = initialized w /\ calls w' = calls w /\
    constructed w' = constructed w.
Proof.
  induction tools as [|t rest IH]; intros acc w w' r; cbn [Wrapper.convert_tools].
  - intros [= _ <-]. auto.
  - unfold bind at 1.
    destruct (mcp_tool_to_function_tool t agg w) as [[ft|e] w1] eqn:Et;
      destruct (wrap_frame _ _ _ _ _ Et) as (Hi & Hc & Hb).
    + intros H. destruct (IH _ _ _ _ H) as (Hi' & Hc' & Hb').
      repeat split; congruence.
    + intros [= _ <-]. auto.
Qed.

Lemma Forall2_map_eq {A B C : Type} (R : A -> B -> Prop) (f : A -> C) (g : B -> C)
    (l : list A) (l' : list B) :
  (forall x y, R x y -> g y = f x) -> Forall2 R l l' -> map g l' = map f l.
Proof.
  intros HR H. induction H as [|x y l l' Hxy _ IH]; cbn; [reflexivity|].
  now rewrite (HR _ _ Hxy), IH.
Qed.

(** X15: a listing that returns gives one bound tool per descriptor, in
    the order of the descriptors, each under the descriptor's name and
    with its description or the text ["MCP tool: <name>"]; listing
    makes no remote tool call and changes no aggregator. *)
Theorem listing_binds_every_tool_in_order :
  forall (a : MCPAggregator) (tools : list MCPTool) (w w' : world)
         (fts : list FunctionTool),
    remote_list_tools a = Ok tools ->
    mcp_list_tools (Some a) w = (Ok fts, w') ->
    map ft_name fts = map tool_name tools /\
    map ft_description fts =
      map (fun t => or_default (tool_description t) ("MCP tool: " ++ tool_name t)) tools /\
    calls w' = calls w /\ initialized w' = initialized w /\
    constructed w' = constructed w.
Proof.
  intros a tools w w' fts Hl Hrun.
  pose proof (WrapperFacts.mcp_list_tools_bound _ _ _ _ _ _ _ _ _ Hl Hrun) as Hall.
  split; [eapply Forall2_map_eq; [|exact Hall]; now intros x y (H & _)|].
  split; [eapply Forall2_map_eq; [|exact Hall]; now intros x y (_ & H & _)|].
  revert Hrun. unfold Wrapper.mcp_list_tools, bind at 1, not_initialized.
  destruct (is_initialized w a); cbn [negb]; [|discriminate].
  unfold bind at 1, lift. rewrite Hl. intros H.
  destruct (convert_tools_frame _ _ _ _ _ _ H) as (Hi & Hc & Hb). auto.
Qed.

(** *** The schema objects of bound tools *)

Lemma wrap_sizes (t : MCPTool) (agg : option MCPAggregator) (w w' : world)
    (ft : FunctionTool) :
  mcp_tool_to_function_tool t agg w = (Ok ft, w') ->
  params_json_schema ft = S (List.length (heap w)) /\
  List.length (heap w') = List.length (heap w) + 2.
Proof.
  intros H. destruct (wrap_ok _ _ _ _ _ H) as (d & s & _ & _ & Hh & Hp & _).
  split; [exact Hp|].
  rewrite Hh, length_app, length_list_update, length_app. cbn [List.length]. lia.
Qed.

Lemma convert_tools_addresses (tools : list MCPTool) (agg : option MCPAggregator) :
  forall (acc : list FunctionTool) (w w' : world) (fts : list FunctionTool),
    convert_tools tools agg acc w = (Ok fts, w') ->
    exists made,
      fts = acc ++ made /\
      List.length (heap w) <= List.length (heap w') /\
      Forall (fun ft => List.length (heap w) < params_json_schema ft
                        /\ params_json_schema ft < List.length (heap w')) made /\
      NoDup (map params_json_schema made).
Proof.
  induction tools as [|t rest IH]; intros acc w w' fts; cbn [Wrapper.convert_tools].
  - intros [= <- <-]. exists []. rewrite app_nil_r.
    repeat split; auto; constructor.
  - unfold bind at 1.
    destruct (mcp_tool_to_function_tool t agg w) as [[ft|e] w1] eqn:Et; [|discriminate].
    destruct (wrap_sizes _ _ _ _ _ Et) as (Hp & Hlen).
    intros H. apply IH in H as (made & -> & Hle & Hall & Hnd).
    exists (ft :: made). split; [now rewrite <- app_assoc|].
    split; [lia|]. split.
    + constructor; [lia|].
      eapply Forall_impl; [|exact Hall]. cbn. intros x [? ?]. lia.
    + cbn [map]. constructor; [|exact Hnd].
      intros Hin. apply in_map_iff in Hin as (x & Hx & Hin).
      rewrite Forall_forall in Hall. specialize (Hall x Hin). lia.
Qed.

(** X16: every bound tool of a listing holds its schema in an object
    that did not exist before the listing, and no two bound tools
    share one. *)
Theorem listing_gives_each_tool_a_new_schema :
  forall (a : MCPAggregator) (w w' : world) (fts : list FunctionTool),
    mcp_list_tools (Some a) w = (Ok fts, w') ->
    NoDup (map params_json_schema fts) /\
    Forall (fun ft => nth_error (heap w) (params_json_schema ft) = None /\
                      nth_error (heap w') (params_json_schema ft) <> None) fts.
Proof.
  intros a w w' fts. unfold Wrapper.mcp_list_tools, bind at 1, not_initialized.
  destruct (is_initialized w a); cbn [negb]; [|discriminate].
  unfold bind at 1, lift.
  destruct (remote_list_tools a) as [tools|e]; [|discriminate].
  intros H. apply convert_tools_addresses in H as (made & -> & _ & Hall & Hnd).
  cbn [app]. split; [exact Hnd|].
  eapply Forall_impl; [|exact Hall]. cbn. intros ft [Hlo Hhi]. split.
  - apply nth_error_None. lia.
  - apply nth_error_Some. exact Hhi.
Qed.

Lemma list_update_snoc {A : Type} (l : list A) (x y : A) :
  list_update (l ++ [x]) (List.length l) y = l ++ [y].
Proof. induction l as [|h t IH]; cbn; [reflexivity|]. now rewrite IH. Qed.

(** X17: a descriptor without [inputSchema] is always wrapped, never
    with an exception: its bound tool holds the empty-object schema
    with [additionalProperties] false, in a new object, and no object
    that existed before is written to. *)
Theorem tool_without_schema_gets_the_default :
  forall (t : MCPTool) (agg : option MCPAggregator) (w : world),
    tool_inputSchema t = None ->
    exists ft,
      mcp_tool_to_function_tool t agg w =
      (Ok ft, mkWorld (heap w ++ [default_bound_schema; default_bound_schema])
                      (initialized w) (calls w) (constructed w)) /\
      params_json_schema ft = S (List.length (heap w)) /\
      nth_error (heap w ++ [default_bound_schema; default_bound_schema])
                (params_json_schema ft) = Some default_bound_schema.
Proof.
  intros t agg w Hs.
  unfold Wrapper.mcp_tool_to_function_tool, bind, alloc, setitem, sanitize_object,
         bind, deref, lift.
  rewrite Hs. cbn [Content.getattr_default heap initialized calls constructed].
  rewrite nth_error_snoc_new. cbn [default_schema heap initialized calls constructed].
  rewrite list_update_snoc, nth_error_snoc_new. cbn [is_dict].
  change (Sanitizer.sanitize_json_schema_for_openai
            (JDict (dict_set [("type", JStr "object"); ("properties", JDict []);
                              ("required", JList [])]
                             "additionalProperties" (JBool false))))
    with (Ok default_bound_schema).
  change (JDict (dict_set [("type", JStr "object"); ("properties", JDict []);
                           ("required", JList [])]
                          "additionalProperties" (JBool false)))
    with default_bound_schema.
  unfold alloc, ret. cbn [heap initialized calls constructed].
  assert (Hlen : List.length (heap w ++ [default_bound_schema])
                 = S (List.length (heap w)))
    by (rewrite length_app; cbn; lia).
  eexists. split; [|split].
  - rewrite <- app_assoc. reflexivity.
  - cbn [params_json_schema]. exact Hlen.
  - cbn [params_json_schema].
    change (heap w ++ [default_bound_schema; default_bound_schema])
      with (heap w ++ [default_bound_schema] ++ [default_bound_schema]).
    rewrite app_assoc. apply nth_error_snoc_new.
Qed.

(** X18: the schema a bound tool holds says [additionalProperties]
    false, whatever the descriptor's schema said about it. *)
Theorem bound_schema_forbids_additional_properties :
  forall (t : MCPTool) (agg : option MCPAggregator) (l : loc) (d : dict)
         (w w' : world) (ft : FunctionTool),
    tool_inputSchema t = Some l ->
    nth_error (heap w) l = Some (JDict d) ->
    NoDup (keys d) ->
    mcp_tool_to_function_tool t agg w = (Ok ft, w') ->
    exists r,
      nth_error (heap w') (params_json_schema ft) = Some (JDict r) /\
      dict_get r "additionalProperties" = Some (JBool false).
Proof.
  intros t agg l d w w' ft Hs Hl Hnd Hwrap.
  destruct (wrap_ok _ _ _ _ _ Hwrap) as (d0 & s & Hd0 & Hsan & Hh & Hp & _).
  cbn zeta in Hd0, Hsan, Hh. rewrite Hs in Hd0, Hh. cbn [Content.getattr_default] in Hd0, Hh.
  rewrite (nth_error_snoc_old _ _ _ _ Hl) in Hd0. injection Hd0 as <-.
  pose proof (SanitizerFacts.sanitize_dict_is_dict _ _ Hsan) as Hr.
  destruct s as [| | | | | |r]; try discriminate.
  exists r. split.
  - rewrite Hh, Hp.
    replace (S (List.length (heap w)))
      with (List.length (list_update (heap w ++ [default_schema]) l
              (JDict (dict_set d "additionalProperties" (JBool false)))))
      by (rewrite length_list_update, length_app; cbn; lia).
    apply nth_error_snoc_new.
  - destruct (SanitizerMore.sanitize_get_value
                (dict_set d "additionalProperties" (JBool false)) r
                "additionalProperties" (JBool false))
      as (v' & Hv & Hget); auto.
    + now apply NoDup_keys_dict_set.
    + apply dict_get_set_same.
    + discriminate.
    + cbn in Hv. injection Hv as <-. exact Hget.
Qed.

End Environment.

(** *** The outcomes in the small deployment *)

Lemma bound_tool_on_uninitialized_aggregator_witness :
  on_invoke_tool (Demo.wrapped Demo.echo (Some Demo.aggregator))
                 Demo.run_context "{}" Demo.world_down =
  (Ok ("Error (RuntimeError): MCP aggregator not initialized for agent "
       ++ agent_name Demo.aggregator)%string, Demo.world_down).
Proof.
  apply (bound_tool_on_uninitialized_aggregator
           Demo.json_loads Demo.transform_string_function_style
           Demo.remote_call_tool
           Demo.echo Demo.aggregator Demo.world0
           (Demo.world_after Demo.echo (Some Demo.aggregator))
           (Demo.wrapped Demo.echo (Some Demo.aggregator))
           Demo.run_context "{}" [] Demo.world_down);
    reflexivity.
Defined.

Lemma arguments_naming_ctx_are_refused_witness :
  exists msg,
    on_invoke_tool Scenario.wrapped_echo Demo.run_context Scenario.ctx_arguments
                   Demo.world1 =
    (Ok ("Error (TypeError): " ++ msg)%string, Demo.world1).
Proof.
  apply (arguments_naming_ctx_are_refused
           Scenario.json_loads Demo.transform_string_function_style
           Demo.remote_call_tool
           Demo.echo (Some Demo.aggregator) Demo.world0
           (snd Scenario.wrapping_echo) Scenario.wrapped_echo
           Demo.run_context Scenario.ctx_arguments [("ctx", JInt 1)] Demo.world1).
  - reflexivity.
  - reflexivity.
  - simpl; tauto.
Defined.

Lemma unusable_arguments_make_no_call_witness :
  exists msg,
    on_invoke_tool (Demo.wrapped Demo.echo (Some Demo.aggregator))
                   Demo.run_context "[]" Demo.world1 =
    (Ok ("Error (TypeError): " ++ msg ++ py_type_name (JList []))%string, Demo.world1).
Proof.
  apply (proj2 (unusable_arguments_make_no_call
                  Demo.json_loads Demo.transform_string_function_style
                  Demo.remote_call_tool
                  Demo.echo (Some Demo.aggregator) Demo.world0
                  (Demo.world_after Demo.echo (Some Demo.aggregator))
                  (Demo.wrapped Demo.echo (Some Demo.aggregator))
                  Demo.run_context "[]" Demo.world1 eq_refl));
    reflexivity.
Defined.

Lemma flagged_result_becomes_error_text_witness :
  on_invoke_tool (Demo.wrapped Demo.fail (Some Demo.aggregator))
                 Demo.run_context "{}" Demo.world1 =
  (Ok ("Error (RuntimeError): Error calling MCP tool '" ++ tool_name Demo.fail
       ++ "': " ++ "boom")%string,
   after_call Demo.world1 Demo.aggregator (tool_name Demo.fail) []).
Proof.
  apply (flagged_result_becomes_error_text
           Demo.json_loads Demo.transform_string_function_style
           Demo.remote_call_tool
           Demo.fail Demo.aggregator Demo.world0
           (Demo.world_after Demo.fail (Some Demo.aggregator))
           (Demo.wrapped Demo.fail (Some Demo.aggregator))
           Demo.run_context "{}" [] Demo.world1 Scenario.fail_result "boom");
    reflexivity.
Defined.

Lemma unflagged_result_is_returned_witness :
  on_invoke_tool (Demo.wrapped Demo.echo (Some Demo.aggregator))
                 Demo.run_context "{}" Demo.world1 =
  (Ok "pong", after_call Demo.world1 Demo.aggregator (tool_name Demo.echo) []).
Proof.
  apply (unflagged_result_is_returned
           Demo.json_loads Demo.transform_string_function_style
           Demo.remote_call_tool
           Demo.echo Demo.aggregator Demo.world0
           (Demo.world_after Demo.echo (Some Demo.aggregator))
           (Demo.wrapped Demo.echo (Some Demo.aggregator))
           Demo.run_context "{}" [] Demo.world1 Scenario.echo_result "pong");
    reflexivity.
Defined.

Lemma invocation_only_adds_a_call_witness :
  heap (after_call Demo.world1 Demo.aggregator "echo" []) = heap Demo.world1 /\
  initialized (after_call Demo.world1 Demo.aggregator "echo" [])
    = initialized Demo.world1 /\
  constructed (after_call Demo.world1 Demo.aggregator "echo" [])
    = constructed Demo.world1 /\
  (calls (after_call Demo.world1 Demo.aggregator "echo" []) = calls Demo.world1 \/
   exists c,
     calls (after_call Demo.world1 Demo.aggregator "echo" [])
       = calls Demo.world1 ++ [c] /\
     call_name c = tool_name Demo.echo).
Proof.
  apply (invocation_only_adds_a_call
           Demo.json_loads Demo.transform_string_function_style
           Demo.remote_call_tool
           Demo.echo (Some Demo.aggregator) Demo.world0
           (Demo.world_after Demo.echo (Some Demo.aggregator))
           (Demo.wrapped Demo.echo (Some Demo.aggregator))
           Demo.run_context "{}" Demo.world1
           (after_call Demo.world1 Demo.aggregator "echo" []) (Ok "pong"));
    reflexivity.
Defined.

Lemma listing_binds_every_tool_in_order_witness :
  map ft_name Demo.bound_tools
    = map tool_name [Demo.echo; Demo.fail; Demo.slow; Demo.gone] /\
  map ft_description Demo.bound_tools =
    map (fun t => or_default (tool_description t) ("MCP tool: " ++ tool_name t))
        [Demo.echo; Demo.fail; Demo.slow; Demo.gone] /\
  calls Demo.world1 = calls Demo.world0 /\
  initialized Demo.world1 = initialized Demo.world0 /\
  constructed Demo.world1 = constructed Demo.world0.
Proof.
  apply (listing_binds_every_tool_in_order
           Demo.json_loads Demo.transform_string_function_style
           Demo.remote_call_tool Demo.remote_list_tools
           Demo.aggregator [Demo.echo; Demo.fail; Demo.slow; Demo.gone]
           Demo.world0 Demo.world1 Demo.bound_tools);
    reflexivity.
Defined.

Lemma listing_gives_each_tool_a_new_schema_witness :
  NoDup (map params_json_schema Demo.bound_tools) /\
  Forall (fun ft => nth_error (heap Demo.world0) (params_json_schema ft) = None /\
                    nth_error (heap Demo.world1) (params_json_schema ft) <> None)
         Demo.bound_tools.
Proof.
  apply (listing_gives_each_tool_a_new_schema
           Demo.json_loads Demo.transform_string_function_style
           Demo.remote_call_tool Demo.remote_list_tools
           Demo.aggregator Demo.world0 Demo.world1 Demo.bound_tools).
  reflexivity.
Defined.

Lemma tool_without_schema_gets_the_default_witness :
  exists ft,
    mcp_tool_to_function_tool
      Demo.json_loads Demo.transform_string_function_style Demo.remote_call_tool
      Demo.fail (Some Demo.aggregator) Demo.world0 =
    (Ok ft, mkWorld (heap Demo.world0 ++ [default_bound_schema; default_bound_schema])
                    (initialized Demo.world0) (calls Demo.world0)
                    (constructed Demo.world0)) /\
    params_json_schema ft = S (List.length (heap Demo.world0)) /\
    nth_error (heap Demo.world0 ++ [default_bound_schema; default_bound_schema])
              (params_json_schema ft) = Some default_bound_schema.
Proof.
  apply (tool_without_schema_gets_the_default
           Demo.json_loads Demo.transform_string_function_style
           Demo.remote_call_tool Demo.fail (Some Demo.aggregator) Demo.world0).
  reflexivity.
Defined.

Lemma bound_schema_forbids_additional_properties_witness :
  exists r,
    nth_error (heap (Demo.world_after Demo.echo (Some Demo.aggregator)))
              (params_json_schema (Demo.wrapped Demo.echo (Some Demo.aggregator)))
    = Some (JDict r) /\
    dict_get r "additionalProperties" = Some (JBool false).
Proof.
  apply (bound_schema_forbids_additional_properties
           Demo.json_loads Demo.transform_string_function_style
           Demo.remote_call_tool
           Demo.echo (Some Demo.aggregator) 0 Demo.echo_schema Demo.world0
           (Demo.world_after Demo.echo (Some Demo.aggregator))
           (Demo.wrapped Demo.echo (Some Demo.aggregator))).
  - reflexivity.
  - reflexivity.
  - repeat constructor; simpl; intuition discriminate.
  - reflexivity.
Defined.

End WrapperMore.

(* ================================================================== *)
(** ** Creating, loading, initializing *)

Module LifecycleMore.
Import Lifecycle Wrapper Vocabulary.

Lemma fresh_id_not_initialized (id : nat) (l : list nat) :
  existsb (Nat.eqb id) (filter (fun i => negb (Nat.eqb i id)) l) = false.
Proof.
  apply not_true_is_false. intros H.
  apply existsb_exists in H as (x & Hin & Hx).
  apply filter_In in Hin as [_ Hf]. apply Nat.eqb_eq in Hx. subst x.
  rewrite Nat.eqb_refl in Hf. discriminate.
Qed.

Lemma create_with_registry (run_context : RunContextWrapper) (name server : string)
    (servers : list string) (server_registry : option ServerRegistry)
    (persistence : bool) (w : world) (r : ServerRegistry) :
  registry_in_effect server_registry run_context = Some r ->
  exists a w',
    create_mcp_aggregator run_context name (server :: servers) server_registry
                          persistence w = (Ok a, w') /\
    server_names a = server :: servers /\
    connection_persistence a = persistence /\
    agent_name a = name /\
    agg_context a = mkContext r /\
    constructed w' = constructed w ++ [BuiltContext (mkContext r); BuiltAggregator a] /\
    is_initialized w' a = false /\
    heap w' = heap w /\ calls w' = calls w.
Proof.
  intros Hr. unfold create_mcp_aggregator, bind.
  assert (Hctx : match server_registry with
                 | Some registry => new_Context registry
                 | None =>
                     match context_mcp_server_registry run_context with
                     | None => raise (RuntimeError
                         "No server registry found in run context. Either specify it or set in context.")
                     | Some registry => new_Context registry
                     end
                 end = new_Context r).
  { unfold registry_in_effect in Hr. destruct server_registry as [r0|].
    - now injection Hr as ->.
    - now rewrite Hr. }
  rewrite Hctx. cbn. eexists. eexists. split; [reflexivity|].
  cbn. repeat split; auto.
  - now rewrite <- app_assoc.
  - apply fresh_id_not_initialized.
Qed.

(** X19: with servers named, creation goes by the registry passed, and
    by the one of the run context only when none is passed.  With
    neither it raises the no-registry error and builds nothing; else it
    builds one context on that registry and then the aggregator, with
    the servers, the persistence and the name it was given, and that
    aggregator is not initialized. *)
Theorem create_outcome :
  forall (run_context : RunContextWrapper) (name server : string)
         (servers : list string) (server_registry : option ServerRegistry)
         (persistence : bool) (w : world),
    match registry_in_effect server_registry run_context with
    | None =>
        create_mcp_aggregator run_context name (server :: servers) server_registry
                              persistence w =
        (Raise (RuntimeError
           "No server registry found in run context. Either specify it or set in context."),
         w)
    | Some r =>
        exists a w',
          create_mcp_aggregator run_context name (server :: servers) server_registry
                                persistence w = (Ok a, w') /\
          server_names a = server :: servers /\
          connection_persistence a = persistence /\
          agent_name a = name /\
          agg_context a = mkContext r /\
          constructed w' =
            constructed w ++ [BuiltContext (mkContext r); BuiltAggregator a] /\
          is_initialized w' a = false /\
          heap w' = heap w /\ calls w' = calls w
    end.
Proof.
  intros run_context name server servers server_registry persistence w.
  destruct (registry_in_effect server_registry run_context) as [r|] eqn:Er.
  - now apply create_with_registry.
  - unfold registry_in_effect in Er. destruct server_registry; [discriminate|].
    unfold create_mcp_aggregator, bind. rewrite Er. reflexivity.
Qed.

Lemma create_ok_not_initialized (run_context : RunContextWrapper) (name : string)
    (servers : list string) (server_registry : option ServerRegistry)
    (persistence : bool) (w w' : world) (a : MCPAggregator) :
  create_mcp_aggregator run_context name servers server_registry persistence w
  = (Ok a, w') ->
  is_initialized w' a = false.
Proof.
  destruct servers as [|server servers]; [discriminate|].
  destruct (registry_in_effect server_registry run_context) as [r|] eqn:Er.
  - destruct (create_with_registry run_context name server servers server_registry
                                   persistence w r Er)
      as (a0 & w0 & -> & _ & _ & _ & _ & _ & Hi & _).
    now intros [= <- <-].
  - unfold registry_in_effect in Er. destruct server_registry; [discriminate|].
    unfold create_mcp_aggregator, bind. rewrite Er. discriminate.
Qed.

(** X20: an aggregator that was created and not entered cannot be
    listed: [mcp_list_tools] on it raises the not-initialized error and
    asks the remote side nothing. *)
Theorem created_aggregator_cannot_list :
  forall (json_loads : string -> res json)
         (transform_string_function_style : string -> string)
         (remote_call_tool :
            list call -> MCPAggregator -> string -> dict -> res CallToolResult)
         (remote_list_tools : MCPAggregator -> res (list MCPTool))
         (run_context : RunContextWrapper) (name : string) (servers : list string)
         (server_registry : option ServerRegistry) (persistence : bool)
         (w w' : world) (a : MCPAggregator),
    create_mcp_aggregator run_context name servers server_registry persistence w
    = (Ok a, w') ->
    mcp_list_tools json_loads transform_string_function_style remote_call_tool
                   remote_list_tools (Some a) w' =
    (Raise (RuntimeError "MCP server aggregator not initialized when calling list_tools"),
     w').
Proof.
  intros json_loads transform remote_call remote_list run_context name servers
         server_registry persistence w w' a Hc.
  apply create_ok_not_initialized in Hc.
  unfold mcp_list_tools, bind, not_initialized. rewrite Hc. reflexivity.
Qed.

Lemma created_aggregator_cannot_list_witness :
  mcp_list_tools Demo.json_loads Demo.transform_string_function_style
                 Demo.remote_call_tool Demo.remote_list_tools
                 (Some Scenario.created_aggregator) Scenario.world_created =
  (Raise (RuntimeError "MCP server aggregator not initialized when calling list_tools"),
   Scenario.world_created).
Proof.
  apply (created_aggregator_cannot_list
           Demo.json_loads Demo.transform_string_function_style
           Demo.remote_call_tool Demo.remote_list_tools
           Demo.run_context "assistant" ["files"] None true Demo.world0).
  reflexivity.
Defined.

End LifecycleMore.

(* ================================================================== *)
(** ** The registry in the context *)

Module RegistryMore.
Import Lifecycle Registry Vocabulary.

Section Collaborators.
Variable Settings_of_mcp : MCPSettings -> res Settings.
Variable get_settings : option string -> res Settings.
Variable new_ServerRegistry : Settings -> res ServerRegistry.

Local Notation load_mcp_server_registry :=
  (load_mcp_server_registry Settings_of_mcp get_settings new_ServerRegistry).
Local Notation ensure_mcp_server_registry_in_context :=
  (ensure_mcp_server_registry_in_context Settings_of_mcp get_settings
                                         new_ServerRegistry).

(** What [ensure] does when it does not stop at [server_registry]. *)
Lemma ensure_loads (c : AgentContext) (force : bool) :
  force = true \/ attr_server_registry c = None ->
  ensure_mcp_server_registry_in_context c force =
  match load_mcp_server_registry (attr_mcp_config c) (attr_mcp_config_path c) with
  | Ok registry => (Ok None, set_mcp_server_registry c registry)
  | Raise e => (Raise e, c)
  end.
Proof.
  intros H. unfold Registry.ensure_mcp_server_registry_in_context.
  destruct H as [->| ->]; [reflexivity|].
  now rewrite andb_false_r.
Qed.

(** X21: after [ensure] has loaded, creation without a registry of its
    own finds the loaded one in the context and builds the aggregator
    on it; [ensure] itself has returned [None], not the registry. *)
Theorem ensure_then_create :
  forall (c c' : AgentContext) (force : bool) (v : option ServerRegistry)
         (name server : string) (servers : list string) (persistence : bool)
         (w : world),
    force = true \/ attr_server_registry c = None ->
    ensure_mcp_server_registry_in_context c force = (Ok v, c') ->
    v = None /\
    exists r a w',
      load_mcp_server_registry (attr_mcp_config c) (attr_mcp_config_path c) = Ok r /\
      attr_mcp_server_registry c' = Some r /\
      create_mcp_aggregator (run_context_of c') name (server :: servers) None
                            persistence w = (Ok a, w') /\
      agg_context a = mkContext r.
Proof.
  intros c c' force v name server servers persistence w Hload Hens.
  rewrite (ensure_loads c force Hload) in Hens.
  destruct (load_mcp_server_registry _ _) as [r|e]; [|discriminate].
  injection Hens as <- <-. split; [reflexivity|].
  destruct (LifecycleMore.create_with_registry
              (run_context_of (set_mcp_server_registry c r)) name server servers
              None persistence w r eq_refl)
    as (a & w' & Hc & _ & _ & _ & Hctx & _).
  exists r, a, w'. repeat split; auto.
Qed.

(** X22: [ensure] looks for the registry under [server_registry] but
    attaches it under [mcp_server_registry].  So a context that only
    carries [server_registry] makes [ensure] return that registry
    untouched, and creation without a registry of its own still fails
    to find one. *)
Theorem ensure_and_create_read_different_attributes :
  forall (c : AgentContext) (r : ServerRegistry) (name server : string)
         (servers : list string) (persistence : bool) (w : world),
    attr_server_registry c = Some r ->
    attr_mcp_server_registry c = None ->
    ensure_mcp_server_registry_in_context c false = (Ok (Some r), c) /\
    create_mcp_aggregator (run_context_of c) name (server :: servers) None
                          persistence w =
    (Raise (RuntimeError
       "No server registry found in run context. Either specify it or set in context."),
     w).
Proof.
  intros c r name server servers persistence w Hs Hm. split.
  - unfold Registry.ensure_mcp_server_registry_in_context. rewrite Hs. reflexivity.
  - unfold create_mcp_aggregator, run_context_of, bind. cbn. rewrite Hm. reflexivity.
Qed.

End Collaborators.

(** X23: [ensure] does not find what it attached itself.  Called again
    without [force] on the context it left, it runs the loader again,
    on the same config and path; the collaborators of that second run
    are taken apart from those of the first, as every run builds its
    own [ServerRegistry].  When the second load returns, its registry
    takes the place of the first under [mcp_server_registry] and
    [None] is returned again; when it raises, the exception goes on
    and the context keeps what the first call attached. *)
Theorem ensure_again_loads_again :
  forall (Settings_of_mcp Settings_of_mcp' : MCPSettings -> res Settings)
         (get_settings get_settings' : option string -> res Settings)
         (new_ServerRegistry new_ServerRegistry' : Settings -> res ServerRegistry)
         (c c' : AgentContext) (v : option ServerRegistry),
    attr_server_registry c = None ->
    ensure_mcp_server_registry_in_context
      Settings_of_mcp get_settings new_ServerRegistry c false = (Ok v, c') ->
    attr_server_registry c' = None /\
    ensure_mcp_server_registry_in_context
      Settings_of_mcp' get_settings' new_ServerRegistry' c' false
    = match load_mcp_server_registry
              Settings_of_mcp' get_settings' new_ServerRegistry'
              (attr_mcp_config c) (attr_mcp_config_path c) with
      | Ok registry' => (Ok None, set_mcp_server_registry c' registry')
      | Raise e => (Raise e, c')
      end.
Proof.
  intros S1 S2 g1 g2 n1 n2 c c' v Hs Hens.
  rewrite (ensure_loads S1 g1 n1 c false (or_intror Hs)) in Hens.
  destruct (load_mcp_server_registry S1 g1 n1 (attr_mcp_config c)
                                     (attr_mcp_config_path c))
    as [r|e]; [|discriminate].
  injection Hens as <- <-. split; [exact Hs|].
  rewrite (ensure_loads S2 g2 n2) by (right; exact Hs).
  reflexivity.
Qed.

Lemma ensure_then_create_witness :
  fst Scenario.ensured = Ok None /\
  exists r a w',
    load_mcp_server_registry Scenario.Settings_of_mcp Scenario.get_settings
                             Scenario.new_ServerRegistry
                             (attr_mcp_config Scenario.agent_context)
                             (attr_mcp_config_path Scenario.agent_context) = Ok r /\
    attr_mcp_server_registry (snd Scenario.ensured) = Some r /\
    create_mcp_aggregator (run_context_of (snd Scenario.ensured)) "assistant"
                          ("files" :: []) None true Demo.world0 = (Ok a, w') /\
    agg_context a = mkContext r.
Proof.
  destruct (ensure_then_create
              Scenario.Settings_of_mcp Scenario.get_settings
              Scenario.new_ServerRegistry
              Scenario.agent_context (snd Scenario.ensured) false None
              "assistant" "files" [] true Demo.world0
              (or_intror eq_refl) eq_refl) as [_ H].
  split; [reflexivity|exact H].
Defined.

Lemma ensure_and_create_read_different_attributes_witness :
  ensure_mcp_server_registry_in_context
    Scenario.Settings_of_mcp Scenario.get_settings Scenario.new_ServerRegistry
    Scenario.context_with_server_registry false
  = (Ok (Some (mkRegistry 7)), Scenario.context_with_server_registry) /\
  create_mcp_aggregator (run_context_of Scenario.context_with_server_registry)
                        "assistant" ("files" :: []) None true Demo.world0 =
  (Raise (RuntimeError
     "No server registry found in run context. Either specify it or set in context."),
   Demo.world0).
Proof.
  apply (ensure_and_create_read_different_attributes
           Scenario.Settings_of_mcp Scenario.get_settings Scenario.new_ServerRegistry
           Scenario.context_with_server_registry (mkRegistry 7)
           "assistant" "files" [] true Demo.world0);
    reflexivity.
Defined.

Lemma ensure_again_loads_again_witness :
  attr_server_registry (snd Scenario.ensured) = None /\
  ensure_mcp_server_registry_in_context
    Scenario.Settings_of_mcp Scenario.get_settings Scenario.new_ServerRegistry_again
    (snd Scenario.ensured) false
  = match load_mcp_server_registry
            Scenario.Settings_of_mcp Scenario.get_settings
            Scenario.new_ServerRegistry_again
            (attr_mcp_config Scenario.agent_context)
            (attr_mcp_config_path Scenario.agent_context) with
    | Ok registry' => (Ok None, set_mcp_server_registry (snd Scenario.ensured) registry')
    | Raise e => (Raise e, snd Scenario.ensured)
    end.
Proof.
  apply (ensure_again_loads_again
           Scenario.Settings_of_mcp Scenario.Settings_of_mcp
           Scenario.get_settings Scenario.get_settings
           Scenario.new_ServerRegistry Scenario.new_ServerRegistry_again
           Scenario.agent_context (snd Scenario.ensured) None);
    reflexivity.
Defined.

(** The second call puts another registry in the place of the first. *)
Example second_ensure_replaces_the_registry :
  attr_mcp_server_registry (snd Scenario.ensured) = Some (mkRegistry 0) /\
  ensure_mcp_server_registry_in_context
    Scenario.Settings_of_mcp Scenario.get_settings Scenario.new_ServerRegistry_again
    (snd Scenario.ensured) false
  = (Ok None, mkAgentContext None (Some (mkRegistry 1)) None None).
Proof. split; reflexivity. Qed.

End RegistryMore.

(* ================================================================== *)
(** ** Initialization and teardown *)

Module SessionMore.
Import Lifecycle Session Vocabulary.

Section Collaborators.
Variable aenter_effect : MCPAggregator -> M unit.
Variable aexit_effect : MCPAggregator -> M unit.

Local Notation initialize_mcp_aggregator :=
  (initialize_mcp_aggregator aenter_effect aexit_effect).

(** The run of [initialize_mcp_aggregator], step by step. *)
Lemma initialize_steps (run_context : RunContextWrapper) (name : string)
    (servers : list string) (server_registry : option ServerRegistry)
    (persistence : bool) (s : session) :
  initialize_mcp_aggregator run_context name servers server_registry persistence s =
  match create_mcp_aggregator run_context name servers server_registry persistence
                              (session_world s) with
  | (Raise e, w1) => (Raise e, mkSession w1 (session_log s))
  | (Ok a, w1) =>
      match aenter_effect a w1 with
      | (Ok _, w2) => (Ok a, mkSession w2 (session_log s ++ [Entered a]))
      | (Raise e, w2) =>
          if isinstance_Exception e then
            match aexit_effect a w2 with
            | (Ok _, w3) =>
                (Raise e, mkSession w3 (session_log s ++ [Entered a; Exited a]))
            | (Raise e', w3) =>
                (Raise e', mkSession w3 (session_log s ++ [Entered a; Exited a]))
            end
          else (Raise e, mkSession w2 (session_log s ++ [Entered a]))
      end
  end.
Proof.
  unfold Session.initialize_mcp_aggregator, sbind at 1, in_world.
  destruct (create_mcp_aggregator _ _ _ _ _ _) as [[a|e] w1]; [|reflexivity].
  unfold stry_except_Exception, sbind, aenter, aexit, sret, sraise.
  cbn [session_world session_log].
  destruct (aenter_effect a w1) as [[[]|e] w2]; [reflexivity|].
  destruct (isinstance_Exception e); [|reflexivity].
  cbn [session_world session_log].
  destruct (aexit_effect a w2) as [[[]|e'] w3]; rewrite <- app_assoc; reflexivity.
Qed.

(** X24: when entering fails with an [Exception], the aggregator is
    exited, once and after the enter, before the error goes on to the
    caller; the error that goes on is the one of the enter, unless the
    exit raises one of its own. *)
Theorem failed_enter_is_torn_down :
  forall (run_context : RunContextWrapper) (name : string) (servers : list string)
         (server_registry : option ServerRegistry) (persistence : bool)
         (s : session) (a : MCPAggregator) (w1 w2 w3 : world) (e : exn)
         (rx : res unit),
    create_mcp_aggregator run_context name servers server_registry persistence
                          (session_world s) = (Ok a, w1) ->
    aenter_effect a w1 = (Raise e, w2) ->
    isinstance_Exception e = true ->
    aexit_effect a w2 = (rx, w3) ->
    initialize_mcp_aggregator run_context name servers server_registry persistence s =
    (match rx with Ok _ => Raise e | Raise e' => Raise e' end,
     mkSession w3 (session_log s ++ [Entered a; Exited a])).
Proof.
  intros run_context name servers server_registry persistence s a w1 w2 w3 e rx
         Hc He Hi Hx.
  rewrite initialize_steps, Hc, He, Hi, Hx. destruct rx as [[]|e']; reflexivity.
Qed.

(** X25: when entering is cut short by an exception that is not an
    [Exception] (a cancelled task), the handler does not run: the error
    goes on and the aggregator is left entered, not exited. *)
Theorem cancelled_enter_is_not_torn_down :
  forall (run_context : RunContextWrapper) (name : string) (servers : list string)
         (server_registry : option ServerRegistry) (persistence : bool)
         (s : session) (a : MCPAggregator) (w1 w2 : world) (e : exn),
    create_mcp_aggregator run_context name servers server_registry persistence
                          (session_world s) = (Ok a, w1) ->
    aenter_effect a w1 = (Raise e, w2) ->
    isinstance_Exception e = false ->
    initialize_mcp_aggregator run_context name servers server_registry persistence s =
    (Raise e, mkSession w2 (session_log s ++ [Entered a])).
Proof.
  intros run_context name servers server_registry persistence s a w1 w2 e Hc He Hi.
  now rewrite initialize_steps, Hc, He, Hi.
Qed.

(** X26: whatever happens, initialization enters at most one
    aggregator, exits none it has not entered, and touches none when
    creation fails; what it returns is an aggregator it has entered and
    not exited. *)
Theorem initialize_lifecycle :
  forall (run_context : RunContextWrapper) (name : string) (servers : list string)
         (server_registry : option ServerRegistry) (persistence : bool)
         (s s' : session) (r : res MCPAggregator),
    initialize_mcp_aggregator run_context name servers server_registry persistence s
    = (r, s') ->
    (exists e, r = Raise e /\ session_log s' = session_log s /\
               fst (create_mcp_aggregator run_context name servers server_registry
                                          persistence (session_world s)) = Raise e) \/
    (exists a added,
        fst (create_mcp_aggregator run_context name servers server_registry
                                   persistence (session_world s)) = Ok a /\
        session_log s' = session_log s ++ added /\
        lifecycle_of a added /\ added <> [] /\
        (forall a', r = Ok a' -> a' = a /\ added = [Entered a])).
Proof.
  intros run_context name servers server_registry persistence s s' r.
  rewrite initialize_steps.
  destruct (create_mcp_aggregator _ _ _ _ _ _) as [[a|e] w1]; cbn [fst].
  - intros H. right. exists a.
    assert (Hone : lifecycle_of a [Entered a]) by (right; now left).
    assert (Htwo : lifecycle_of a [Entered a; Exited a]) by (right; now right).
    destruct (aenter_effect a w1) as [[[]|e] w2].
    + injection H as <- <-. exists [Entered a]. cbn [session_log].
      split; [reflexivity|]. split; [reflexivity|]. split; [exact Hone|].
      split; [discriminate|]. intros a' Ha'. injection Ha' as <-. now split.
    + destruct (isinstance_Exception e).
      * destruct (aexit_effect a w2) as [[[]|e'] w3]; injection H as <- <-;
          exists [Entered a; Exited a]; cbn [session_log];
          (split; [reflexivity|]; split; [reflexivity|]; split; [exact Htwo|];
           split; [discriminate|]; intros a' Ha'; discriminate Ha').
      * injection H as <- <-. exists [Entered a]. cbn [session_log].
        split; [reflexivity|]. split; [reflexivity|]. split; [exact Hone|].
        split; [discriminate|]. intros a' Ha'. discriminate Ha'.
  - intros [= <- <-]. left. exists e. auto.
Qed.

End Collaborators.

Lemma failed_enter_is_torn_down_witness :
  initialize_mcp_aggregator Scenario.aenter_loses_connection Scenario.aexit_closes
                            Demo.run_context "assistant" ["files"] None true
                            Scenario.session0 =
  (Raise Demo.ConnectionError,
   mkSession Scenario.world_created
             (session_log Scenario.session0
              ++ [Entered Scenario.created_aggregator;
                  Exited Scenario.created_aggregator])).
Proof.
  apply (failed_enter_is_torn_down
           Scenario.aenter_loses_connection Scenario.aexit_closes
           Demo.run_context "assistant" ["files"] None true Scenario.session0
           Scenario.created_aggregator Scenario.world_created Scenario.world_created
           Scenario.world_created Demo.ConnectionError (Ok tt));
    reflexivity.
Defined.

Lemma cancelled_enter_is_not_torn_down_witness :
  initialize_mcp_aggregator Scenario.aenter_cancelled Scenario.aexit_closes
                            Demo.run_context "assistant" ["files"] None true
                            Scenario.session0 =
  (Raise Demo.CancelledError,
   mkSession Scenario.world_created
             (session_log Scenario.session0 ++ [Entered Scenario.created_aggregator])).
Proof.
  apply (cancelled_enter_is_not_torn_down
           Scenario.aenter_cancelled Scenario.aexit_closes
           Demo.run_context "assistant" ["files"] None true Scenario.session0
           Scenario.created_aggregator Scenario.world_created Scenario.world_created
           Demo.CancelledError);
    reflexivity.
Defined.

Lemma initialize_lifecycle_witness :
  (exists e, fst Scenario.initializing = Raise e /\
             session_log (snd Scenario.initializing) = session_log Scenario.session0 /\
             fst (create_mcp_aggregator Demo.run_context "assistant" ["files"] None true
                                        (session_world Scenario.session0)) = Raise e) \/
  (exists a added,
      fst (create_mcp_aggregator Demo.run_context "assistant" ["files"] None true
                                 (session_world Scenario.session0)) = Ok a /\
      session_log (snd Scenario.initializing) = session_log Scenario.session0 ++ added /\
      lifecycle_of a added /\ added <> [] /\
      (forall a', fst Scenario.initializing = Ok a' -> a' = a /\ added = [Entered a])).
Proof.
  apply (initialize_lifecycle
           Scenario.aenter_opens Scenario.aexit_closes
           Demo.run_context "assistant" ["files"] None true Scenario.session0
           (snd Scenario.initializing) (fst Scenario.initializing)).
  reflexivity.
Defined.

End SessionMore.
